(** * KitchenBuddy: date, ingredient and storage utilities

    A shallow embedding of [src/utils/dateUtils.ts], [src/utils/ingredientUtils.ts]
    and [src/utils/storageUtils.ts], together with the part of the ECMAScript
    [Date] object those files call.

    Conventions.
    - A time value is an integer number of milliseconds since the epoch
      ([Z]); a [Date] object is [option Z], [None] being the Invalid Date
      (time value NaN).
    - The host environment (local time zone, and the implementation-defined
      fallback of [Date.parse]) is the record [Host]; the wall clock read by
      [new Date()] is the explicit argument [now] of the date utilities, each
      of which reads it once.  The two views that depend on time read the
      clock for each record; they are modelled at a single instant, and
      [getExpiringSoonIngredients], which reads it twice for a frozen
      record, also with a clock ([Clock.Clocked]) that may move between the
      reads, in [getExpiringSoonIngredientsClocked].
    - [Math.ceil (diffTime / msPerDay)] is taken over the integers.  The
      double-precision quotient has the same ceiling whenever the two dates
      are less than 2^26 days apart, which covers every four-digit year. *)

From Stdlib Require Import ZArith Lia Bool Ascii String List Sorted Permutation.
From stdpp Require Import base gmap strings list.
Import ListNotations.

Local Open Scope string_scope.
Local Open Scope list_scope.
Local Open Scope Z_scope.

(* ===================================================================== *)
(** ** ECMAScript time values (ECMA-262, section "Date Objects")          *)
(* ===================================================================== *)

Module ES.

Definition msPerSecond : Z := 1000.
Definition msPerMinute : Z := 60000.
Definition msPerHour   : Z := 3600000.
Definition msPerDay    : Z := 86400000.

(** Day(t) = floor(t / msPerDay), TimeWithinDay(t) = t modulo msPerDay. *)
Definition Day (t : Z) : Z := t / msPerDay.
Definition TimeWithinDay (t : Z) : Z := t mod msPerDay.

Definition DaysInYear (y : Z) : Z :=
  if negb (y mod 4 =? 0) then 365
  else if negb (y mod 100 =? 0) then 366
  else if negb (y mod 400 =? 0) then 365
  else 366.

Definition DayFromYear (y : Z) : Z :=
  365 * (y - 1970) + (y - 1969) / 4 - (y - 1901) / 100 + (y - 1601) / 400.

Definition TimeFromYear (y : Z) : Z := msPerDay * DayFromYear y.

(** YearFromTime(t) is "the largest integer y such that TimeFromYear(y) <= t".
    It is computed from the mean year length (146097 days per 400 years),
    corrected by at most one year; [YearFromTime_spec] below shows that the
    result is the year the standard describes. *)
Definition YearFromTime (t : Z) : Z :=
  let d := Day t in
  let y0 := 1970 + (400 * d) / 146097 in
  if d <? DayFromYear y0 then y0 - 1
  else if DayFromYear (y0 + 1) <=? d then y0 + 1
  else y0.

(** InLeapYear(t), as the number 0 or 1. *)
Definition InLeapYear (t : Z) : Z :=
  if DaysInYear (YearFromTime t) =? 366 then 1 else 0.

Definition DayWithinYear (t : Z) : Z := Day t - DayFromYear (YearFromTime t).

(** Number of days of the year that precede month [m] (0 = January), for a
    year with leap-day count [leap]: the bounds of the MonthFromTime table. *)
Definition monthStart (m leap : Z) : Z :=
  match m with
  | 0 => 0
  | 1 => 31
  | 2 => 59 + leap
  | 3 => 90 + leap
  | 4 => 120 + leap
  | 5 => 151 + leap
  | 6 => 181 + leap
  | 7 => 212 + leap
  | 8 => 243 + leap
  | 9 => 273 + leap
  | 10 => 304 + leap
  | 11 => 334 + leap
  | _ => 365 + leap
  end.

Definition MonthFromTime (t : Z) : Z :=
  let d := DayWithinYear t in
  let leap := InLeapYear t in
  if d <? 31 then 0
  else if d <? 59 + leap then 1
  else if d <? 90 + leap then 2
  else if d <? 120 + leap then 3
  else if d <? 151 + leap then 4
  else if d <? 181 + leap then 5
  else if d <? 212 + leap then 6
  else if d <? 243 + leap then 7
  else if d <? 273 + leap then 8
  else if d <? 304 + leap then 9
  else if d <? 334 + leap then 10
  else 11.

Definition DateFromTime (t : Z) : Z :=
  DayWithinYear t - monthStart (MonthFromTime t) (InLeapYear t) + 1.

Definition HourFromTime (t : Z) : Z := (t / msPerHour) mod 24.
Definition MinFromTime (t : Z) : Z := (t / msPerMinute) mod 60.
Definition SecFromTime (t : Z) : Z := (t / msPerSecond) mod 60.
Definition msFromTime (t : Z) : Z := t mod msPerSecond.

Definition MakeTime (hour min sec ms : Z) : Z :=
  hour * msPerHour + min * msPerMinute + sec * msPerSecond + ms.

(** MakeDay(year, month, date): the day number of the first of month
    [month mod 12] in year [year + floor(month / 12)], plus [date - 1].
    Months and dates outside their usual range simply carry over. *)
Definition MakeDay (year month date : Z) : Z :=
  let ym := year + month / 12 in
  let mn := month mod 12 in
  let leap := if DaysInYear ym =? 366 then 1 else 0 in
  DayFromYear ym + monthStart mn leap + date - 1.

Definition MakeDate (day time : Z) : Z := day * msPerDay + time.

(** TimeClip: time values beyond 8.64e15 ms are NaN. *)
Definition TimeClip (t : Z) : option Z :=
  if Z.abs t <=? 8640000000000000 then Some t else None.

(** The host: [LocalTZA t isUTC] is the local zone's offset in ms, at UTC
    time [t] when [isUTC] and at local time [t] otherwise; [parseFallback] is
    what [Date.parse] does with a string outside the formats modelled in
    [parseISO] below (the standard leaves it to the implementation). *)
Record Host : Type := {
  LocalTZA : Z -> bool -> Z;
  parseFallback : string -> option Z
}.

Definition LocalTime (h : Host) (t : Z) : Z := t + LocalTZA h t true.
Definition UTC (h : Host) (t : Z) : Z := t - LocalTZA h t false.

(** A zone at a constant offset from UTC (no daylight saving). *)
Definition fixedZone (off : Z) : Z -> bool -> Z := fun _ _ => off.

(** A zone with standard offset [std] and one daylight-saving period, one
    hour ahead, between the UTC instants [from] and [to].  Local times that
    the clock skips or repeats are read with the offset in force before the
    transition, as the standard prescribes. *)
Definition dstZone (std from to : Z) : Z -> bool -> Z := fun t isUTC =>
  if isUTC
  then if (from <=? t) && (t <? to) then std + msPerHour else std
  else if (from + std + msPerHour <=? t) && (t <? to + std + msPerHour)
       then std + msPerHour else std.

(** *** Decimal fields *)

Definition digitOf (c : ascii) : option Z :=
  let n := Z.of_N (N_of_ascii c) in
  if (48 <=? n) && (n <=? 57) then Some (n - 48) else None.

Definition digitChar (d : Z) : ascii := ascii_of_N (Z.to_N (48 + d)).

(** The number written by a run of decimal digits, most significant first. *)
Fixpoint numberFrom (acc : Z) (cs : list ascii) : option Z :=
  match cs with
  | [] => Some acc
  | c :: cs' =>
      match digitOf c with
      | Some d => numberFrom (10 * acc + d) cs'
      | None => None
      end
  end.

Definition number (cs : list ascii) : option Z := numberFrom 0 cs.

(** [padDigits w n acc]: the last [w] decimal digits of [n], before [acc]. *)
Fixpoint padDigits (w : nat) (n : Z) (acc : string) : string :=
  match w with
  | O => acc
  | S w' => padDigits w' (n / 10) (String (digitChar (n mod 10)) acc)
  end.

Definition pad (w : nat) (n : Z) : string := padDigits w n "".

Definition DaysInMonth (y m : Z) : Z :=
  let leap := if DaysInYear y =? 366 then 1 else 0 in
  monthStart (m + 1) leap - monthStart m leap.

(** *** Date.parse

    Two instances of the Date Time String Format are modelled: the
    date-only form [YYYY-MM-DD], which the standard reads as UTC midnight,
    and the full form [YYYY-MM-DDTHH:mm:ss.sssZ] that [toISOString] writes.
    Field values must be in range (a day that the month has, hours below 24).
    Every other string is left to the host's [parseFallback]. *)

Definition dateFields (cs : list ascii) : option (Z * Z * Z) :=
  match cs with
  | [y1; y2; y3; y4; c1; m1; m2; c2; d1; d2] =>
      if Ascii.eqb c1 "-" && Ascii.eqb c2 "-" then
        match number [y1; y2; y3; y4], number [m1; m2], number [d1; d2] with
        | Some y, Some m, Some d =>
            if (1 <=? m) && (m <=? 12) && (1 <=? d) && (d <=? DaysInMonth y (m - 1))
            then Some (y, m, d) else None
        | _, _, _ => None
        end
      else None
  | _ => None
  end.

Definition timeFields (cs : list ascii) : option Z :=
  match cs with
  | [t; h1; h2; c1; m1; m2; c2; s1; s2; c3; f1; f2; f3; z] =>
      if Ascii.eqb t "T" && Ascii.eqb c1 ":" && Ascii.eqb c2 ":"
         && Ascii.eqb c3 "." && Ascii.eqb z "Z" then
        match number [h1; h2], number [m1; m2], number [s1; s2],
              number [f1; f2; f3] with
        | Some h, Some m, Some sec, Some ms =>
            if (h <=? 23) && (m <=? 59) && (sec <=? 59)
            then Some (MakeTime h m sec ms) else None
        | _, _, _, _ => None
        end
      else None
  | _ => None
  end.

Definition parseISO (s : string) : option Z :=
  let cs := list_ascii_of_string s in
  match dateFields (firstn 10 cs) with
  | Some (y, m, d) =>
      let day := MakeDay y (m - 1) d in
      match skipn 10 cs with
      | [] => Some (MakeDate day 0)
      | rest =>
          match timeFields rest with
          | Some time => Some (MakeDate day time)
          | None => None
          end
      end
  | None => None
  end.

Definition Date_parse (h : Host) (s : string) : option Z :=
  match parseISO s with
  | Some t => Some t
  | None => parseFallback h s
  end.

(** *** Date objects: [None] is the Invalid Date *)

Definition Date : Type := option Z.

(** [new Date(string)] *)
Definition newDate (h : Host) (s : string) : Date :=
  match Date_parse h s with
  | Some t => TimeClip t
  | None => None
  end.

Definition getTime (d : Date) : option Z := d.

(** [d.setHours(0, 0, 0, 0)]: local midnight of the local day of [d]. *)
Definition setHours0 (h : Host) (d : Date) : Date :=
  match d with
  | Some t =>
      let tl := LocalTime h t in
      TimeClip (UTC h (MakeDate (Day tl) (MakeTime 0 0 0 0)))
  | None => None
  end.

Definition getMonth (h : Host) (d : Date) : option Z :=
  match d with Some t => Some (MonthFromTime (LocalTime h t)) | None => None end.

Definition getDate (h : Host) (d : Date) : option Z :=
  match d with Some t => Some (DateFromTime (LocalTime h t)) | None => None end.

(** [d.setMonth(m)]: the local month becomes [m], the local day of the month
    and time of day are kept. *)
Definition setMonth (h : Host) (d : Date) (m : option Z) : Date :=
  match d, m with
  | Some t, Some m =>
      let tl := LocalTime h t in
      let newDate :=
        MakeDate (MakeDay (YearFromTime tl) m (DateFromTime tl)) (TimeWithinDay tl) in
      TimeClip (UTC h newDate)
  | _, _ => None
  end.

(** [d.setDate(dt)]: the local day of the month becomes [dt]. *)
Definition setDate (h : Host) (d : Date) (dt : option Z) : Date :=
  match d, dt with
  | Some t, Some dt =>
      let tl := LocalTime h t in
      let newDate :=
        MakeDate (MakeDay (YearFromTime tl) (MonthFromTime tl) dt) (TimeWithinDay tl) in
      TimeClip (UTC h newDate)
  | _, _ => None
  end.

(** The result of a call that may throw. *)
Inductive completion (A : Type) : Type :=
| Normal (a : A)
| ThrowRangeError.
Arguments Normal {A} a.
Arguments ThrowRangeError {A}.

Definition yearString (y : Z) : string :=
  if (0 <=? y) && (y <=? 9999) then pad 4 y
  else String (if y <? 0 then "-"%char else "+"%char) (pad 6 (Z.abs y)).

(** The text [toISOString] writes for the time value [t]: its UTC fields. *)
Definition isoString (t : Z) : string :=
  (yearString (YearFromTime t) ++ "-" ++ pad 2 (MonthFromTime t + 1)
   ++ "-" ++ pad 2 (DateFromTime t)
   ++ "T" ++ pad 2 (HourFromTime t) ++ ":" ++ pad 2 (MinFromTime t)
   ++ ":" ++ pad 2 (SecFromTime t) ++ "." ++ pad 3 (msFromTime t)
   ++ "Z")%string.

(** [d.toISOString()]; throws a RangeError on the Invalid Date. *)
Definition toISOString (d : Date) : completion string :=
  match d with
  | None => ThrowRangeError
  | Some t => Normal (isoString t)
  end.

(** [s.split('T')[0]]: what precedes the first ['T'] (all of [s] if none). *)
Fixpoint beforeT (s : string) : string :=
  match s with
  | EmptyString => EmptyString
  | String c rest => if Ascii.eqb c "T" then EmptyString else String c (beforeT rest)
  end.

End ES.

(* ===================================================================== *)
(** ** JavaScript values used by the utilities                            *)
(* ===================================================================== *)

Module JS.

(** The numbers the date utilities return: an integer, [Infinity] or [NaN]. *)
Inductive Number : Type :=
| Num (z : Z)
| PosInfinity
| NaN.

(** Truthiness of a string that may be [undefined] or [null]: only a
    non-empty string is truthy. *)
Definition truthy (s : option string) : bool :=
  match s with
  | Some s => negb (String.eqb s "")
  | None => false
  end.

(** [a - b] on time values, NaN when either is. *)
Definition sub (a b : option Z) : option Z :=
  match a, b with
  | Some a, Some b => Some (a - b)
  | _, _ => None
  end.

(** [Math.ceil (a / b)] for an integer [a] and a positive integer [b]. *)
Definition ceilDiv (a b : Z) : Z := - ((- a) / b).

Definition ceilDays (diffTime : option Z) : Number :=
  match diffTime with
  | Some d => Num (ceilDiv d (1000 * 60 * 60 * 24))
  | None => NaN
  end.

(** [x >= n], [x <= n] and [x > n] against an integer [n]; every comparison
    with NaN is false. *)
Definition ge (x : Number) (n : Z) : bool :=
  match x with Num z => n <=? z | PosInfinity => true | NaN => false end.
Definition le (x : Number) (n : Z) : bool :=
  match x with Num z => z <=? n | PosInfinity => false | NaN => false end.
Definition gt (x : Number) (n : Z) : bool :=
  match x with Num z => n <? z | PosInfinity => true | NaN => false end.

End JS.

(* ===================================================================== *)
(** ** src/utils/dateUtils.ts                                             *)
(* ===================================================================== *)

Module DateUtils.
Import ES JS.

Section WithHost.
Variable h : Host.
(** The instant [new Date()] returns during the call. *)
Variable now : Z.

Definition getDaysUntilExpiration (expirationDate : option string) : Number :=
  match expirationDate with
  | Some s =>
      if truthy expirationDate then
        let today : Date := Some now in
        let expDate := newDate h s in
        let today := setHours0 h today in
        let expDate := setHours0 h expDate in
        let diffTime := sub (getTime expDate) (getTime today) in
        ceilDays diffTime
      else PosInfinity
  | None => PosInfinity
  end.

Definition isExpiringSoon (expirationDate : option string) (daysThreshold : Z) : bool :=
  if negb (truthy expirationDate) then false
  else
    let daysUntil := getDaysUntilExpiration expirationDate in
    ge daysUntil 0 && le daysUntil daysThreshold.

Definition adjustExpirationForFrozen (expirationDate : string) (isFrozen : bool)
  : completion string :=
  if negb (truthy (Some expirationDate)) then Normal ""
  else
    let expDate := newDate h expirationDate in
    let expDate :=
      if isFrozen
      then setMonth h expDate (option_map (fun m => m + 6) (getMonth h expDate))
      else expDate in
    match toISOString expDate with
    | Normal iso => Normal (beforeT iso)
    | ThrowRangeError => ThrowRangeError
    end.

Definition adjustExpirationForOpened (expirationDate : string) (isOpened : bool)
  : completion string :=
  if negb (truthy (Some expirationDate)) then Normal ""
  else
    let expDate := newDate h expirationDate in
    let expDate :=
      if isOpened
      then setDate h expDate (option_map (fun d => d - 7) (getDate h expDate))
      else expDate in
    match toISOString expDate with
    | Normal iso => Normal (beforeT iso)
    | ThrowRangeError => ThrowRangeError
    end.

(** [diffDays] of [needsRipenessCheck], for a truthy [lastRipenessUpdate]. *)
Definition ripenessDiffDays (lastRipenessUpdate : string) : Number :=
  let lastUpdate := newDate h lastRipenessUpdate in
  let today : Date := Some now in
  let today := setHours0 h today in
  let lastUpdate := setHours0 h lastUpdate in
  let diffTime := sub (getTime today) (getTime lastUpdate) in
  ceilDays diffTime.

(** [daysThreshold = 3]: an omitted threshold ([None]) is 3. *)
Definition needsRipenessCheck (lastRipenessUpdate : option string)
    (daysThreshold : option Z) : bool :=
  let daysThreshold := match daysThreshold with Some n => n | None => 3 end in
  match lastRipenessUpdate with
  | Some s =>
      if truthy lastRipenessUpdate then gt (ripenessDiffDays s) daysThreshold
      else false
  | None => false
  end.

End WithHost.

End DateUtils.

(* ===================================================================== *)
(** ** src/utils/constants.ts                                             *)
(* ===================================================================== *)

Definition DEFAULT_EXPIRING_DAYS_THRESHOLD : Z := 7.
Definition DEFAULT_RIPENESS_CHECK_DAYS : Z := 3.

(* ===================================================================== *)
(** ** src/utils/ingredientUtils.ts                                       *)
(* ===================================================================== *)

Module IngredientUtils.
Import ES JS DateUtils.

Record Ingredient : Type := {
  id : string;
  name : string;
  brand : option string;
  ripeness : option string;
  category : option string;
  location : option string;
  confection : option string;
  expiration : option string;
  lastRipenessUpdate : option string;
  isFrozen : bool;
  isOpened : bool
}.

(** [createEmptyIngredient], with [Date.now().toString()] passed as [newId]. *)
Definition createEmptyIngredient (newId : string) : Ingredient := {|
  id := newId;
  name := "";
  brand := Some "";
  ripeness := Some "";
  category := Some "";
  location := Some "";
  confection := Some "";
  expiration := Some "";
  lastRipenessUpdate := None;
  isFrozen := false;
  isOpened := false
|}.

(** [s === lit] for an optional string field. *)
Definition strictEq (s : option string) (lit : string) : bool :=
  match s with Some s => String.eqb s lit | None => false end.

(** The callback of [getExpiringSoonIngredients] when every [new Date()] of
    the call returns the same instant [now]; [filter] keeps an item when the
    returned value is truthy.  [item.expiration && e] is [e] when the
    expiration is truthy and a falsy value otherwise.  The callback with one
    clock read per call of [isExpiringSoon] is
    [expiringSoonPredicateClocked] below. *)
Definition expiringSoonPredicate (h : Host) (now : Z) (daysThreshold : Z)
    (item : Ingredient) : bool :=
  let isRelevant := strictEq (ripeness item) "Ripe/Mature" || isOpened item in
  let isNotFrozen :=
    negb (isFrozen item) || isExpiringSoon h now (expiration item) daysThreshold in
  let isExpiring :=
    truthy (expiration item) && isExpiringSoon h now (expiration item) daysThreshold in
  isRelevant || (isExpiring && isNotFrozen).

Definition getExpiringSoonIngredients (h : Host) (now : Z)
    (ingredients : list Ingredient) (daysThreshold : Z) : list Ingredient :=
  List.filter (expiringSoonPredicate h now daysThreshold) ingredients.

Definition getIngredientsWithMissingData (ingredients : list Ingredient)
  : list Ingredient :=
  List.filter
    (fun item => negb (truthy (category item)) || negb (truthy (location item))
                 || negb (truthy (confection item)) || negb (truthy (expiration item)))
    ingredients.

Definition getIngredientsNeedingRipenessCheck (h : Host) (now : Z)
    (ingredients : list Ingredient) (daysThreshold : option Z) : list Ingredient :=
  let daysThreshold := match daysThreshold with Some n => n | None => 3 end in
  List.filter
    (fun item => needsRipenessCheck h now (lastRipenessUpdate item) (Some daysThreshold))
    ingredients.

Definition updateIngredient (ingredients : list Ingredient)
    (updatedIngredient : Ingredient) : list Ingredient :=
  List.map
    (fun item => if String.eqb (id item) (id updatedIngredient)
                 then updatedIngredient else item)
    ingredients.

Definition addIngredient (ingredients : list Ingredient) (newIngredient : Ingredient)
  : list Ingredient :=
  ingredients ++ [newIngredient].

Definition deleteIngredient (ingredients : list Ingredient) (id' : string)
  : list Ingredient :=
  List.filter (fun item => negb (String.eqb (id item) id')) ingredients.

End IngredientUtils.

(* ===================================================================== *)
(** ** AsyncStorage and src/utils/storageUtils.ts                         *)
(* ===================================================================== *)

Module AsyncStorage.

(** The device store: the persisted slots, and a script of the outcomes of
    the native calls still to come ([true]: the call is rejected; an
    exhausted script means no further fault).  A rejected call leaves the
    slots as they were. *)
Record Backend : Type := {
  slots : gmap string string;
  faults : list bool
}.

Inductive settled (A : Type) : Type :=
| Resolved (a : A)
| Rejected.
Arguments Resolved {A} a.
Arguments Rejected {A}.

Definition Promise (A : Type) : Type := Backend -> settled A * Backend.

Definition resolve {A} (a : A) : Promise A := fun b => (Resolved a, b).
Definition reject {A} : Promise A := fun b => (Rejected, b).

(** [await p; k] *)
Definition await {A B} (p : Promise A) (k : A -> Promise B) : Promise B :=
  fun b => match p b with
           | (Resolved a, b') => k a b'
           | (Rejected, b') => (Rejected, b')
           end.

(** [try { p } catch (error) { handler }] *)
Definition tryCatch {A} (p handler : Promise A) : Promise A :=
  fun b => match p b with
           | (Resolved a, b') => (Resolved a, b')
           | (Rejected, b') => handler b'
           end.

Definition nativeCall (b : Backend) : bool * Backend :=
  match faults b with
  | [] => (false, b)
  | f :: rest => (f, {| slots := slots b; faults := rest |})
  end.

Definition getItem (key : string) : Promise (option string) := fun b =>
  let '(fault, b') := nativeCall b in
  if fault then (Rejected, b') else (Resolved (slots b' !! key), b').

Definition setItem (key value : string) : Promise unit := fun b =>
  let '(fault, b') := nativeCall b in
  if fault then (Rejected, b')
  else (Resolved tt, {| slots := <[key := value]> (slots b'); faults := faults b' |}).

Definition removeItem (key : string) : Promise unit := fun b =>
  let '(fault, b') := nativeCall b in
  if fault then (Rejected, b')
  else (Resolved tt, {| slots := delete key (slots b'); faults := faults b' |}).

End AsyncStorage.

Module StorageUtils.
Import JS IngredientUtils AsyncStorage.

Definition INGREDIENTS_STORAGE_KEY : string := "ingredients_data".

Section WithJSON.
(** [JSON.parse] at the type the code casts its result to ([None]: it throws
    a SyntaxError) and [JSON.stringify]. *)
Variable JSON_parse : string -> option (list Ingredient).
Variable JSON_stringify : list Ingredient -> string.

(** [console.error] only logs and is left out. *)
Definition loadIngredients : Promise (list Ingredient) :=
  tryCatch
    (await (getItem INGREDIENTS_STORAGE_KEY) (fun storedIngredients =>
       if truthy storedIngredients then
         match storedIngredients with
         | Some s =>
             match JSON_parse s with
             | Some parsed => resolve parsed
             | None => reject
             end
         | None => resolve []
         end
       else resolve []))
    (resolve []).

Definition saveIngredients (ingredients : list Ingredient) : Promise bool :=
  tryCatch
    (await (setItem INGREDIENTS_STORAGE_KEY (JSON_stringify ingredients))
       (fun _ => resolve true))
    (resolve false).

Definition clearAllIngredients : Promise bool :=
  tryCatch
    (await (removeItem INGREDIENTS_STORAGE_KEY) (fun _ => resolve true))
    (resolve false).

End WithJSON.

End StorageUtils.

(* ===================================================================== *)
(** ** Hosts used in the examples                                         *)
(* ===================================================================== *)

Import ES JS DateUtils IngredientUtils AsyncStorage StorageUtils.

(** A host at a constant offset whose [Date.parse] reads the two formats of
    the standard and nothing else: the strictest engine.  It serves for
    examples and for texts in those formats; statements about arbitrary
    texts are made for an arbitrary [Host]. *)
Definition fixedHost (off : Z) : Host :=
  {| LocalTZA := fixedZone off; parseFallback := fun _ => None |}.

Definition utcHost : Host := fixedHost 0.

(** America/Bogota: UTC-5 all year. *)
Definition bogotaHost : Host := fixedHost (-5 * msPerHour).

(** Europe/Rome in 2024: UTC+1, and UTC+2 from 2024-03-31T01:00Z to
    2024-10-27T01:00Z. *)
Definition romeHost2024 : Host :=
  {| LocalTZA := dstZone msPerHour 1711846800000 1729990800000;
     parseFallback := fun _ => None |}.

Definition sampleIngredient (k : string) (exp : option string) : Ingredient :=
  {| id := k; name := "milk"; brand := None; ripeness := None;
     category := Some "Dairy"; location := Some "Fridge"; confection := None;
     expiration := exp; lastRipenessUpdate := None;
     isFrozen := false; isOpened := false |}.

(** The record [item] with its [isFrozen] flag set to [b]. *)
Definition setFrozen (b : bool) (item : Ingredient) : Ingredient :=
  {| id := id item; name := name item; brand := brand item;
     ripeness := ripeness item; category := category item;
     location := location item; confection := confection item;
     expiration := expiration item;
     lastRipenessUpdate := lastRipenessUpdate item;
     isFrozen := b; isOpened := isOpened item |}.

(** The expiring-soon policy without its frozen clause: ripe or opened, or
    an expiration that is set and expiring soon. *)
Definition simplifiedPredicate (h : Host) (now : Z) (daysThreshold : Z)
    (item : Ingredient) : bool :=
  (strictEq (ripeness item) "Ripe/Mature" || isOpened item)
  || (truthy (expiration item)
      && isExpiringSoon h now (expiration item) daysThreshold).

(** Zones whose offset stays strictly within a day of UTC, and zones whose
    offset never changes by a day or more.  Civil time zones are both: their
    offsets lie between -12 and +14 hours, and daylight saving moves them by
    an hour. *)
Definition ordinaryZone (h : Host) : Prop :=
  forall t b, - msPerDay < LocalTZA h t b < msPerDay.

Definition steadyZone (h : Host) : Prop :=
  forall t1 t2, Z.abs (LocalTZA h t1 false - LocalTZA h t2 false) < msPerDay.

(** Instants well inside the range of time values (about 20 years from
    either end), so that the dates computed from them are valid. *)
Definition ordinaryTime (t : Z) : Prop := Z.abs t <= 8000000000000000.

(** The local calendar day (a day number) of the instant [t]. *)
Definition localDay (h : Host) (t : Z) : Z := Day (LocalTime h t).

(** The instant at which the UTC day number [e] begins: the time value of
    the date-only string for that day. *)
Definition utcMidnight (e : Z) : Z := MakeDate e 0.

(** 2024-01-10T17:00:00.000Z, which is noon of 10 January in Bogota. *)
Definition noonJan10 : Z := 1704906000000.

(** 2024-04-01T10:00:00.000Z, which is noon of 1 April in Rome, the day
    after the clocks went forward. *)
Definition noonApr1 : Z := 1711965600000.

(** A store holding an empty persisted collection, with no fault to come. *)
Definition sampleBackend : Backend :=
  {| slots := {[ INGREDIENTS_STORAGE_KEY := "[]" ]}; faults := [] |}.

(** The date-only text of a time value, [t.toISOString().split('T')[0]],
    and the text [YYYY-MM-DD] of a year, a month (1 to 12) and a day. *)
Definition isoDate (t : Z) : string := beforeT (isoString t).

Definition formatDate (y m d : Z) : string :=
  (yearString y ++ "-" ++ pad 2 m ++ "-" ++ pad 2 d)%string.

(** The fields of a well-formed date-only string. *)
Definition dateOnly (s : string) : option (Z * Z * Z) :=
  dateFields (list_ascii_of_string s).

(* ===================================================================== *)
(** ** String operations of the remaining utilities                       *)
(* ===================================================================== *)

Module StringOps.

(** [s.split(sep)] for a one-character separator: the pieces between the
    separators, in order (one piece, [s] itself, when there is none). *)
Fixpoint split (sep : ascii) (s : string) : list string :=
  match s with
  | EmptyString => [EmptyString]
  | String c rest =>
      if Ascii.eqb c sep then EmptyString :: split sep rest
      else match split sep rest with
           | piece :: pieces => String c piece :: pieces
           | [] => [String c EmptyString]
           end
  end.

(** [s.includes(k)]: [k] occurs in [s] at some position. *)
Fixpoint includes (s k : string) : bool :=
  String.prefix k s
  || match s with
     | EmptyString => false
     | String _ rest => includes rest k
     end.

(** White space that [parseInt] skips; of the characters the standard
    lists, the ASCII ones: TAB, LF, VT, FF, CR and SP. *)
Definition isWhiteSpace (c : ascii) : bool :=
  let n := Z.of_N (N_of_ascii c) in
  ((9 <=? n) && (n <=? 13)) || (n =? 32).

Fixpoint trimStart (s : string) : string :=
  match s with
  | EmptyString => EmptyString
  | String c rest => if isWhiteSpace c then trimStart rest else s
  end.

(** The value of [c] as a digit in radix [radix]: 0-9, then a-z or A-Z for
    10 to 35. *)
Definition radixDigit (radix : Z) (c : ascii) : option Z :=
  let n := Z.of_N (N_of_ascii c) in
  let v := if (48 <=? n) && (n <=? 57) then n - 48
           else if (97 <=? n) && (n <=? 122) then n - 87
           else if (65 <=? n) && (n <=? 90) then n - 55
           else 36 in
  if v <? radix then Some v else None.

(** The number written by the longest run of radix digits at the start of
    [s]; [acc] is [None] until a digit has been read. *)
Fixpoint digitsValue (radix : Z) (acc : option Z) (s : string) : option Z :=
  match s with
  | EmptyString => acc
  | String c rest =>
      match radixDigit radix c with
      | Some d =>
          digitsValue radix
            (Some (radix * (match acc with Some a => a | None => 0 end) + d)) rest
      | None => acc
      end
  end.

(** [parseInt(s)] with no radix argument: skip white space, read a sign,
    switch to radix 16 after [0x] or [0X], read digits; [None] is NaN.  The
    result is the exact integer, which is what JavaScript returns below
    2^53. *)
Definition parseInt (s : string) : option Z :=
  let s := trimStart s in
  let '(sign, s) :=
    match s with
    | String c rest =>
        if Ascii.eqb c "-" then (-1, rest)
        else if Ascii.eqb c "+" then (1, rest)
        else (1, s)
    | EmptyString => (1, s)
    end in
  let '(radix, s) :=
    if String.prefix "0x" s || String.prefix "0X" s
    then (16, String.substring 2 (String.length s - 2) s)
    else (10, s) in
  match digitsValue radix None s with
  | Some n => Some (sign * n)
  | None => None
  end.

(** [Array.prototype.sort(cmp)] as a stable insertion sort: an element goes
    after those it is compared greater than, and a comparison that gives NaN
    counts as 0.  The standard requires the sort to be stable, which fixes
    the result whenever the comparator orders the elements consistently
    ([sorted_stable_unique] below). *)
Definition comesAfter (v : option Z) : bool :=
  match v with
  | Some n => 0 <? n
  | None => false
  end.

Fixpoint sortInsert {A : Type} (cmp : A -> A -> option Z) (x : A) (l : list A)
  : list A :=
  match l with
  | [] => [x]
  | y :: l' => if comesAfter (cmp x y) then y :: sortInsert cmp x l' else x :: l
  end.

Definition sort {A : Type} (cmp : A -> A -> option Z) (l : list A) : list A :=
  fold_right (sortInsert cmp) [] l.

End StringOps.

(* ===================================================================== *)
(** ** formatDateDisplay, getMostRecentIngredients, deleteIngredientFromStorage *)
(* ===================================================================== *)

(** src/utils/dateUtils.ts, [formatDateDisplay]. *)
Definition formatDateDisplay (dateString : string) : string :=
  if negb (truthy (Some dateString)) then ""
  else
    let parts := StringOps.split "-" dateString in
    match parts with
    | [p0; p1; p2] => (p2 ++ "-" ++ p1 ++ "-" ++ p0)%string
    | _ => dateString
    end.

(** src/utils/ingredientUtils.ts, [getMostRecentIngredients]: a sorted copy,
    the comparator being [parseInt(b.id) - parseInt(a.id)]. *)
Definition byIdDescending (a b : Ingredient) : option Z :=
  JS.sub (StringOps.parseInt (id b)) (StringOps.parseInt (id a)).

Definition getMostRecentIngredients (ingredients : list Ingredient)
  : list Ingredient :=
  StringOps.sort byIdDescending ingredients.

(** The number an id stands for ([0] when [parseInt] gives NaN). *)
Definition idNumber (item : Ingredient) : Z :=
  match StringOps.parseInt (id item) with
  | Some n => n
  | None => 0
  end.

(** Ids that [parseInt] reads as a number below 2^53, where JavaScript
    numbers are exact: such are the ids [Date.now().toString()] makes. *)
Definition numericId (item : Ingredient) : Prop :=
  exists n, StringOps.parseInt (id item) = Some n /\ Z.abs n < 2 ^ 53.

(** Lists in descending order of a key, and the elements of a list that
    have a given key, in the order of the list. *)
Definition descending {A : Type} (key : A -> Z) : list A -> Prop :=
  StronglySorted (fun a b => key b <= key a).

Definition keyed {A : Type} (key : A -> Z) (n : Z) (l : list A) : list A :=
  List.filter (fun x => key x =? n) l.

(** src/utils/storageUtils.ts, [deleteIngredientFromStorage]. *)
Definition deleteIngredientFromStorage (JSON_stringify : list Ingredient -> string)
    (id' : string) (currentIngredients : list Ingredient)
  : Promise (list Ingredient) :=
  tryCatch
    (let filteredIngredients :=
       List.filter (fun item => negb (String.eqb (id item) id')) currentIngredients in
     await (saveIngredients JSON_stringify filteredIngredients)
       (fun _ => resolve filteredIngredients))
    (resolve currentIngredients).

(* ===================================================================== *)
(** ** src/hooks/useIngredients.ts                                        *)
(* ===================================================================== *)

Module UseIngredients.

(** The state the hook keeps. *)
Record State : Type := {
  ingredients : list Ingredient;
  editingIngredient : option Ingredient;
  isLoading : bool
}.

Definition initialState : State :=
  {| ingredients := []; editingIngredient := None; isLoading := true |}.

(** [saveIngredient]: the alert on a missing name is not modelled, the
    state is left as it is. *)
Definition saveIngredient (ingredient : Ingredient) (st : State) : State :=
  if negb (truthy (Some (name ingredient))) then st
  else
    {| ingredients :=
         match editingIngredient st with
         | Some _ =>
             List.map
               (fun item => if String.eqb (id item) (id ingredient)
                            then ingredient else item)
               (ingredients st)
         | None => ingredients st ++ [ingredient]
         end;
       editingIngredient := None;
       isLoading := isLoading st |}.

Definition deleteIngredient (id' : string) (st : State) : State :=
  {| ingredients :=
       List.filter (fun item => negb (String.eqb (id item) id')) (ingredients st);
     editingIngredient := editingIngredient st;
     isLoading := isLoading st |}.

Definition startEditing (ingredient : Ingredient) (st : State) : State :=
  {| ingredients := ingredients st;
     editingIngredient := Some ingredient;
     isLoading := isLoading st |}.

Definition cancelEditing (st : State) : State :=
  {| ingredients := ingredients st;
     editingIngredient := None;
     isLoading := isLoading st |}.

(** The [onPress] of the "Yes" button of [resetIngredients]. *)
Definition resetConfirmed (st : State) : Promise State :=
  await clearAllIngredients (fun success =>
    if success
    then resolve {| ingredients := [];
                    editingIngredient := editingIngredient st;
                    isLoading := isLoading st |}
    else resolve st).

(** The effect run on mount: load, then show what was loaded. *)
Definition fetchIngredients (JSON_parse : string -> option (list Ingredient))
    (st : State) : Promise State :=
  await (loadIngredients JSON_parse) (fun storedIngredients =>
    resolve {| ingredients := storedIngredients;
               editingIngredient := editingIngredient st;
               isLoading := false |}).

(** The effect run when [ingredients] or [isLoading] changed. *)
Definition persist (JSON_stringify : list Ingredient -> string) (st : State)
  : Promise unit :=
  if negb (isLoading st)
  then await (saveIngredients JSON_stringify (ingredients st)) (fun _ => resolve tt)
  else resolve tt.

End UseIngredients.

(* ===================================================================== *)
(** ** The barcode scanner's product mapping (useCamera)                  *)
(* ===================================================================== *)

Module UseCamera.

Definition CATEGORY_OPTIONS : list string :=
  ["Fruit"; "Vegetable"; "Dairy"; "Fish"; "Meat"; "Liquid"; "Bakery"; "Spices";
   "Grains"; "Other"].

Definition LOCATION_OPTIONS : list string :=
  ["Fridge"; "Freezer"; "Pantry"; "Cabinet"; "Counter"].

Definition CONFECTION_OPTIONS : list string :=
  ["Fresh"; "Canned"; "Frozen"; "Cured"; "Dried"; "Pickled"; "Other"].

Section WithLowerCase.
(** [String.prototype.toLowerCase]. *)
Variable toLowerCase : string -> string.

Definition mapProductCategory (apiCategory : option string) : string :=
  match apiCategory with
  | Some text =>
      if negb (truthy apiCategory) then "Other"
      else
        let lowerCategory := toLowerCase text in
        let has := StringOps.includes lowerCategory in
        if has "fruit" then "Fruit"
        else if has "vegetable" then "Vegetable"
        else if has "dairy" || has "milk" || has "cheese" then "Dairy"
        else if has "fish" || has "seafood" then "Fish"
        else if has "meat" then "Meat"
        else if has "beverage" || has "drink" then "Liquid"
        else if has "bread" || has "bakery" then "Bakery"
        else if has "spice" || has "herb" then "Spices"
        else if has "grain" || has "cereal" || has "rice" then "Grains"
        else "Other"
  | None => "Other"
  end.

Definition mapProductPackaging (apiPackaging : option string) : string :=
  match apiPackaging with
  | Some text =>
      if negb (truthy apiPackaging) then "Other"
      else
        let lowerPackaging := toLowerCase text in
        let has := StringOps.includes lowerPackaging in
        if has "fresh" then "Fresh"
        else if has "can" || has "tin" then "Canned"
        else if has "frozen" then "Frozen"
        else if has "cured" then "Cured"
        else if has "dried" then "Dried"
        else if has "pickle" then "Pickled"
        else "Other"
  | None => "Other"
  end.

(** [a || d] for strings. *)
Definition orElse (a : option string) (d : string) : string :=
  match a with
  | Some text => if truthy a then text else d
  | None => d
  end.

(** The fields of the product record the scanner reads. *)
Record Product : Type := {
  product_name : option string;
  brands : option string;
  categories : option string;
  packaging : option string
}.

(** The ingredient [scanBarcode] builds from a product that was found;
    [newId] is [Date.now().toString()]. *)
Definition scannedIngredient (newId : string) (product : Product) : Ingredient :=
  {| id := newId;
     name := orElse (product_name product) "Unknown";
     brand := Some (orElse (brands product) "Unknown");
     ripeness := Some "";
     category := Some (orElse (Some (mapProductCategory (categories product))) "Other");
     location := Some "Pantry";
     confection := Some (orElse (Some (mapProductPackaging (packaging product))) "Other");
     expiration := Some "";
     lastRipenessUpdate := Some "";
     isFrozen := false;
     isOpened := false |}.

End WithLowerCase.

(** Lower case for ASCII letters; other characters are kept. *)
Definition asciiLowerChar (c : ascii) : ascii :=
  let n := N_of_ascii c in
  if ((65 <=? n) && (n <=? 90))%N then ascii_of_N (n + 32) else c.

Fixpoint asciiLower (s : string) : string :=
  match s with
  | EmptyString => EmptyString
  | String c rest => String (asciiLowerChar c) (asciiLower rest)
  end.

End UseCamera.

(* ===================================================================== *)
(** ** The add/edit form (AddIngredientScreen)                            *)
(* ===================================================================== *)

Module AddIngredientScreen.

(** The form's state variables. *)
Record Form : Type := {
  name : string;
  brand : string;
  ripeness : string;
  category : string;
  location : string;
  confection : string;
  expiration : string;
  lastRipenessUpdate : option string;
  isFrozen : bool;
  isOpened : bool
}.

(** [handleSaveIngredient]: the record handed to [onSaveIngredient], or
    [None] when the name is missing (an alert, and nothing is saved).
    [newId] is [Date.now().toString()] and [now] the instant of
    [new Date()]. *)
Definition handleSaveIngredient (editingIngredient : option Ingredient)
    (newId : string) (now : Z) (f : Form) : option Ingredient :=
  if negb (truthy (Some (name f))) then None
  else
    Some {| IngredientUtils.id :=
              match editingIngredient with
              | Some e => IngredientUtils.id e
              | None => newId
              end;
            IngredientUtils.name := name f;
            IngredientUtils.brand := Some (brand f);
            IngredientUtils.ripeness := Some (ripeness f);
            IngredientUtils.category := Some (category f);
            IngredientUtils.location := Some (location f);
            IngredientUtils.confection := Some (confection f);
            IngredientUtils.expiration := Some (expiration f);
            IngredientUtils.lastRipenessUpdate :=
              Some (if truthy (lastRipenessUpdate f)
                    then match lastRipenessUpdate f with
                         | Some stamp => stamp
                         | None => isoString now
                         end
                    else isoString now);
            IngredientUtils.isFrozen := isFrozen f;
            IngredientUtils.isOpened := isOpened f |}.

End AddIngredientScreen.

(** A filled-in form on which no ripeness was ever chosen, and a product
    as the scanner may receive it. *)
Definition sampleForm : AddIngredientScreen.Form :=
  {| AddIngredientScreen.name := "beans";
     AddIngredientScreen.brand := "";
     AddIngredientScreen.ripeness := "";
     AddIngredientScreen.category := "Vegetable";
     AddIngredientScreen.location := "Pantry";
     AddIngredientScreen.confection := "Canned";
     AddIngredientScreen.expiration := "";
     AddIngredientScreen.lastRipenessUpdate := None;
     AddIngredientScreen.isFrozen := false;
     AddIngredientScreen.isOpened := false |}.

Definition sampleProduct : UseCamera.Product :=
  {| UseCamera.product_name := Some "Oat Drink";
     UseCamera.brands := None;
     UseCamera.categories := Some "Plant-based beverages";
     UseCamera.packaging := Some "Carton" |}.

(* ===================================================================== *)
(** ** The expiring-soon view with its clock reads                        *)
(* ===================================================================== *)

Module Clock.

(** The wall clock: [clock k] is the instant the [k]-th [new Date()] of the
    run returns.  A computation that reads the clock takes the clock and the
    number of reads made so far, and returns its result with the new count. *)
Definition Clocked (A : Type) : Type := (nat -> Z) -> nat -> A * nat.

Definition ret {A : Type} (a : A) : Clocked A := fun _ n => (a, n).

Definition bind {A B : Type} (c : Clocked A) (k : A -> Clocked B) : Clocked B :=
  fun clock n => let '(a, n') := c clock n in k a clock n'.

(** [new Date()] *)
Definition newDateNow : Clocked Z := fun clock n => (clock n, S n).

(** [l.filter(f)], the callback run on the elements in order. *)
Fixpoint filter {A : Type} (f : A -> Clocked bool) (l : list A) : Clocked (list A) :=
  match l with
  | [] => ret []
  | x :: l' =>
      bind (f x) (fun keep =>
      bind (filter f l') (fun rest =>
      ret (if keep then x :: rest else rest)))
  end.

End Clock.

(** [isExpiringSoon] with its clock read: none when the date is absent, and
    otherwise the one [new Date()] of [getDaysUntilExpiration]. *)
Definition isExpiringSoonClocked (h : Host) (expirationDate : option string)
    (daysThreshold : Z) : Clock.Clocked bool :=
  if negb (truthy expirationDate) then Clock.ret false
  else Clock.bind Clock.newDateNow (fun now =>
         Clock.ret (isExpiringSoon h now expirationDate daysThreshold)).

(** The callback of [getExpiringSoonIngredients], statement by statement:
    [!item.isFrozen || isExpiringSoon(...)] calls [isExpiringSoon] only for a
    frozen item, [item.expiration && isExpiringSoon(...)] only for a set
    expiration, and each call reads the clock for itself. *)
Definition expiringSoonPredicateClocked (h : Host) (daysThreshold : Z)
    (item : Ingredient) : Clock.Clocked bool :=
  let isRelevant := strictEq (ripeness item) "Ripe/Mature" || isOpened item in
  Clock.bind
    (if negb (isFrozen item) then Clock.ret true
     else isExpiringSoonClocked h (expiration item) daysThreshold)
    (fun isNotFrozen =>
  Clock.bind
    (if truthy (expiration item)
     then isExpiringSoonClocked h (expiration item) daysThreshold
     else Clock.ret false)
    (fun isExpiring =>
  Clock.ret (isRelevant || (isExpiring && isNotFrozen)))).

Definition getExpiringSoonIngredientsClocked (h : Host)
    (ingredients : list Ingredient) (daysThreshold : Z)
  : Clock.Clocked (list Ingredient) :=
  Clock.filter (expiringSoonPredicateClocked h daysThreshold) ingredients.

(** A clock that shows 2024-01-10T23:59:59.999Z at its first read and
    2024-01-11T00:00:00.000Z from then on, and a clock that stands still. *)
Definition midnightClock : nat -> Z :=
  fun k => match k with O => 1704931199999 | S _ => 1704931200000 end.

Definition stoppedClock (now : Z) : nat -> Z := fun _ => now.

(** A clock that starts at [t0] and moves on a millisecond with each read,
    for a second. *)
Definition tickingClock (t0 : Z) : nat -> Z :=
  fun k => t0 + Z.min (Z.of_nat k) 1000.

(** A host in UTC whose [Date.parse] also reads a text outside the two
    modelled formats, as engines do. *)
Definition lenientHost : Host :=
  {| LocalTZA := fixedZone 0;
     parseFallback := fun s =>
       if String.eqb s "2024-01-20T10:00:00Z" then Some 1705744800000 else None |}.

(** A store with nothing persisted, and a codec for collections of sample
    records: the text lists the ids, and reading takes them from the text. *)
Definition emptyBackend : Backend := {| slots := ∅; faults := [] |}.

Definition sampleStringify (c : list Ingredient) : string :=
  ("[" ++ String.concat "," (List.map id c) ++ "]")%string.

Definition sampleParse (s : string) : option (list Ingredient) :=
  if String.eqb s "[]" then Some []
  else if String.eqb s "[1]" then Some [sampleIngredient "1" None]
  else if String.eqb s "[1,2]"
       then Some [sampleIngredient "1" None; sampleIngredient "2" None]
  else None.

(** A form on which a ripeness was chosen earlier. *)
Definition stampedForm : AddIngredientScreen.Form :=
  {| AddIngredientScreen.name := "pear";
     AddIngredientScreen.brand := "";
     AddIngredientScreen.ripeness := "Green";
     AddIngredientScreen.category := "Fruit";
     AddIngredientScreen.location := "Counter";
     AddIngredientScreen.confection := "Fresh";
     AddIngredientScreen.expiration := "";
     AddIngredientScreen.lastRipenessUpdate := Some "2024-01-02T08:00:00.000Z";
     AddIngredientScreen.isFrozen := false;
     AddIngredientScreen.isOpened := false |}.

(* ===================================================================== *)
(** ** Mutation API: add, update, delete                                  *)
(* ===================================================================== *)

Section Mutation.
Implicit Types (C : list Ingredient) (i u : Ingredient).

Lemma deleteIngredient_absent C k :
  (forall x, In x C -> id x <> k) -> deleteIngredient C k = C.
Proof.
  unfold deleteIngredient. induction C as [|x C IH]; intros Hk; [reflexivity|].
  cbn [List.filter].
  assert (Hx : String.eqb (id x) k = false)
    by (apply String.eqb_neq, Hk; left; reflexivity).
  rewrite Hx. cbn. f_equal. apply IH. intros y Hy. apply Hk. right. exact Hy.
Qed.

Lemma deleteIngredient_app C C' k :
  deleteIngredient (C ++ C') k = deleteIngredient C k ++ deleteIngredient C' k.
Proof. unfold deleteIngredient. apply List.filter_app. Qed.

Lemma updateIngredient_absent C u :
  (forall x, In x C -> id x <> id u) -> updateIngredient C u = C.
Proof.
  unfold updateIngredient. induction C as [|x C IH]; intros Hk; [reflexivity|].
  cbn [List.map].
  assert (Hx : String.eqb (id x) (id u) = false)
    by (apply String.eqb_neq, Hk; left; reflexivity).
  rewrite Hx. f_equal. apply IH. intros y Hy. apply Hk. right. exact Hy.
Qed.

Lemma updateIngredient_at C : forall (p : nat) i u,
  NoDup (List.map id C) -> C !! p = Some i -> id u = id i ->
  updateIngredient C u = <[p := u]> C.
Proof.
  induction C as [|x C IH]; intros p i u Hnd Hp Hid; [discriminate|].
  apply NoDup_cons in Hnd as [Hx Hnd].
  change (updateIngredient (x :: C) u)
    with ((if String.eqb (id x) (id u) then u else x) :: updateIngredient C u).
  destruct p as [|p]; cbn in Hp.
  - injection Hp as ->.
    assert (Heq : String.eqb (id i) (id u) = true)
      by (apply String.eqb_eq; symmetry; exact Hid).
    rewrite Heq. cbn. f_equal.
    apply updateIngredient_absent. intros y Hy Hyu. apply Hx.
    apply list_elem_of_In. rewrite <- Hid, <- Hyu. apply in_map, Hy.
  - assert (Hne : String.eqb (id x) (id u) = false).
    { apply String.eqb_neq. intros Heq. apply Hx. apply list_elem_of_In.
      rewrite Heq, Hid. apply in_map. apply list_elem_of_In.
      eapply list_elem_of_lookup_2, Hp. }
    rewrite Hne. cbn. f_equal. exact (IH p i u Hnd Hp Hid).
Qed.

End Mutation.

(** C6.  Adding an ingredient whose id is new to the collection and then
    deleting that id gives the collection back: the two lists are equal, and
    therefore also equal up to order. *)
Theorem delete_add_roundtrip :
  forall (C : list Ingredient) (i : Ingredient),
    ~ In (id i) (List.map id C) ->
    deleteIngredient (addIngredient C i) (id i) = C
    /\ Permutation (deleteIngredient (addIngredient C i) (id i)) C.
Proof.
  intros C i Hfresh.
  assert (E : deleteIngredient (addIngredient C i) (id i) = C).
  { unfold addIngredient. rewrite deleteIngredient_app.
    rewrite deleteIngredient_absent.
    - unfold deleteIngredient. cbn. rewrite String.eqb_refl. cbn.
      apply app_nil_r.
    - intros x Hx Heq. apply Hfresh. rewrite <- Heq. apply in_map, Hx. }
  split; [exact E | rewrite E; reflexivity].
Qed.

Lemma delete_add_roundtrip_witness :
  deleteIngredient
    (addIngredient [sampleIngredient "1" None] (sampleIngredient "2" None)) "2"
  = [sampleIngredient "1" None].
Proof.
  refine (proj1 (delete_add_roundtrip [sampleIngredient "1" None]
                   (sampleIngredient "2" None) _)).
  cbn. intros [H | []]. discriminate H.
Defined.

(** C7.  In a collection with unique ids, updating with a record that has
    the id of the record at position [p] keeps the length, puts the new
    record at [p] and leaves every other position as it was; when no record
    has the id, the collection is returned as it was (nothing is inserted). *)
Theorem updateIngredient_replaces :
  (forall (C : list Ingredient) (p : nat) (i i' : Ingredient),
      NoDup (List.map id C) -> C !! p = Some i -> id i' = id i ->
      length (updateIngredient C i') = length C
      /\ updateIngredient C i' !! p = Some i'
      /\ forall q : nat, q <> p -> updateIngredient C i' !! q = C !! q)
  /\ (forall (C : list Ingredient) (u : Ingredient),
         (forall x, In x C -> id x <> id u) -> updateIngredient C u = C).
Proof.
  split.
  - intros C p i i' Hnd Hp Hid.
    rewrite (updateIngredient_at C p i i' Hnd Hp Hid).
    split; [apply length_insert|]. split.
    + apply list_lookup_insert_eq. eapply lookup_lt_Some, Hp.
    + intros q Hq. apply list_lookup_insert_ne. congruence.
  - apply updateIngredient_absent.
Qed.

Lemma updateIngredient_replaces_witness :
  updateIngredient [sampleIngredient "1" None; sampleIngredient "2" None]
    (sampleIngredient "2" (Some "2024-01-01")) !! 1%nat
  = Some (sampleIngredient "2" (Some "2024-01-01"))
  /\ updateIngredient [sampleIngredient "1" None] (sampleIngredient "2" None)
     = [sampleIngredient "1" None].
Proof.
  split.
  - refine (proj1 (proj2 (proj1 updateIngredient_replaces
        [sampleIngredient "1" None; sampleIngredient "2" None] 1%nat
        (sampleIngredient "2" None) (sampleIngredient "2" (Some "2024-01-01"))
        _ _ _))); [|reflexivity|reflexivity].
    cbn. apply NoDup_cons. split.
    + intros H. apply list_elem_of_In in H. destruct H as [H | []]. discriminate H.
    + apply NoDup_cons. split; [|apply NoDup_nil; exact I].
      intros H. apply list_elem_of_In in H. destruct H.
  - refine (proj2 updateIngredient_replaces [sampleIngredient "1" None]
              (sampleIngredient "2" None) _).
    intros x [<- | []]. cbn. discriminate.
Defined.

(* ===================================================================== *)
(** ** The expiring-soon view and the frozen flag                         *)
(* ===================================================================== *)

Lemma expiringSoonPredicate_simplified h now th item :
  expiringSoonPredicate h now th item = simplifiedPredicate h now th item.
Proof.
  unfold expiringSoonPredicate, simplifiedPredicate.
  destruct (isExpiringSoon h now (expiration item) th);
    destruct (truthy (expiration item)); destruct (isFrozen item);
    destruct (strictEq (ripeness item) "Ripe/Mature" || isOpened item);
    reflexivity.
Qed.

(** With one instant standing for every clock read, the frozen clause of
    the expiring-soon filter never decides: the filter's predicate equals
    the simplified predicate (ripe or opened, or expiration set and expiring
    soon), the view is the filter by that predicate, and resetting the
    [isFrozen] flags of the records in any way leaves the same records in
    the view. *)
Lemma expiringSoonPredicate_ignores_isFrozen :
  (forall h now th item,
      expiringSoonPredicate h now th item = simplifiedPredicate h now th item)
  /\ (forall h now th C,
         getExpiringSoonIngredients h now C th
         = List.filter (simplifiedPredicate h now th) C)
  /\ (forall h now th item b,
         expiringSoonPredicate h now th (setFrozen b item)
         = expiringSoonPredicate h now th item)
  /\ (forall h now th C (flag : Ingredient -> bool),
         getExpiringSoonIngredients h now
           (List.map (fun i => setFrozen (flag i) i) C) th
         = List.map (fun i => setFrozen (flag i) i)
             (getExpiringSoonIngredients h now C th)).
Proof.
  assert (Hflag : forall h now th item b,
             expiringSoonPredicate h now th (setFrozen b item)
             = expiringSoonPredicate h now th item).
  { intros. rewrite !expiringSoonPredicate_simplified. reflexivity. }
  split; [exact expiringSoonPredicate_simplified|].
  split.
  { intros. unfold getExpiringSoonIngredients. apply List.filter_ext.
    intros. apply expiringSoonPredicate_simplified. }
  split; [exact Hflag|].
  intros h now th C flag. unfold getExpiringSoonIngredients.
  induction C as [|x C IH]; [reflexivity|].
  cbn [List.map List.filter]. rewrite Hflag.
  destruct (expiringSoonPredicate h now th x); cbn [List.map]; rewrite IH;
    reflexivity.
Qed.

(* ===================================================================== *)
(** ** The ingredient store                                               *)
(* ===================================================================== *)

Section Store.
Variable JSON_parse : string -> option (list Ingredient).

Lemma loadIngredients_resolves b :
  exists c, (loadIngredients JSON_parse b).1 = Resolved c.
Proof.
  unfold loadIngredients, tryCatch, await, getItem.
  destruct (nativeCall b) as [[|] b1]; cbn; [eexists; reflexivity|].
  destruct (slots b1 !! INGREDIENTS_STORAGE_KEY) as [s|]; cbn;
    [|eexists; reflexivity].
  destruct (negb (String.eqb s "")); cbn; [|eexists; reflexivity].
  destruct (JSON_parse s); cbn; eexists; reflexivity.
Qed.

Lemma nativeCall_slots b : slots (nativeCall b).2 = slots b.
Proof. unfold nativeCall. destruct (faults b); reflexivity. Qed.

Lemma loadIngredients_no_data b :
  slots b !! INGREDIENTS_STORAGE_KEY = None ->
  (loadIngredients JSON_parse b).1 = Resolved [].
Proof.
  intros Hnone. unfold loadIngredients, tryCatch, await, getItem.
  pose proof (nativeCall_slots b) as Hs.
  destruct (nativeCall b) as [[|] b1]; cbn in *; [reflexivity|].
  rewrite Hs, Hnone. reflexivity.
Qed.

End Store.

(** C10.  [loadIngredients] resolves to the empty collection when nothing is
    persisted, when the read is rejected and when the persisted text does
    not parse; it never rejects; and whenever [clearAllIngredients] resolves
    to [true], the next [loadIngredients] resolves to the empty collection. *)
Theorem load_empty_and_clear :
  forall JSON_parse : string -> option (list Ingredient),
    (forall b, slots b !! INGREDIENTS_STORAGE_KEY = None ->
               (loadIngredients JSON_parse b).1 = Resolved [])
    /\ (forall b rest, faults b = true :: rest ->
                       (loadIngredients JSON_parse b).1 = Resolved [])
    /\ (forall b s, slots b !! INGREDIENTS_STORAGE_KEY = Some s ->
                    JSON_parse s = None ->
                    (loadIngredients JSON_parse b).1 = Resolved [])
    /\ (forall b, exists c, (loadIngredients JSON_parse b).1 = Resolved c)
    /\ (forall b b', clearAllIngredients b = (Resolved true, b') ->
                     (loadIngredients JSON_parse b').1 = Resolved []).
Proof.
  intros JSON_parse.
  split; [apply loadIngredients_no_data|].
  split.
  { intros b rest Hf. unfold loadIngredients, tryCatch, await, getItem, nativeCall.
    rewrite Hf. reflexivity. }
  split.
  { intros b s Hs Hp. unfold loadIngredients, tryCatch, await, getItem.
    pose proof (nativeCall_slots b) as Hb.
    destruct (nativeCall b) as [[|] b1]; cbn in *; [reflexivity|].
    rewrite Hb, Hs. cbn. destruct (negb (String.eqb s "")); [|reflexivity].
    rewrite Hp. reflexivity. }
  split; [apply loadIngredients_resolves|].
  intros b b' Hclear. apply loadIngredients_no_data.
  unfold clearAllIngredients, tryCatch, await, removeItem in Hclear.
  destruct (nativeCall b) as [[|] b1]; cbn in Hclear.
  - discriminate Hclear.
  - injection Hclear as <-. cbn. apply lookup_delete_eq.
Qed.

Lemma load_empty_and_clear_witness :
  (loadIngredients (fun _ => Some [sampleIngredient "1" None])
     (clearAllIngredients sampleBackend).2).1 = Resolved [].
Proof.
  destruct (load_empty_and_clear (fun _ => Some [sampleIngredient "1" None]))
    as (_ & _ & _ & _ & Hclear).
  apply (Hclear sampleBackend). reflexivity.
Defined.

(* ===================================================================== *)
(** ** Day arithmetic                                                     *)
(* ===================================================================== *)

Ltac div_lia := Z.to_euclidean_division_equations; lia.

Lemma ceilDiv_gt a k : k * 86400000 < a -> k < ceilDiv a 86400000.
Proof. unfold ceilDiv. intros. div_lia. Qed.

Lemma ceilDiv_le a k : a <= k * 86400000 -> ceilDiv a 86400000 <= k.
Proof. unfold ceilDiv. intros. div_lia. Qed.

Lemma ceilDiv_exact k : ceilDiv (k * 86400000) 86400000 = k.
Proof. unfold ceilDiv. div_lia. Qed.

Lemma Day_bounds t : Day t * msPerDay <= t < Day t * msPerDay + msPerDay.
Proof. unfold Day, msPerDay. div_lia. Qed.

Lemma TimeClip_in_range t :
  Z.abs t <= 8640000000000000 -> TimeClip t = Some t.
Proof.
  intros H. unfold TimeClip. destruct (Z.leb_spec (Z.abs t) 8640000000000000);
    [reflexivity | lia].
Qed.

(** Local midnight of an instant, in an ordinary zone. *)
Lemma setHours0_value h t :
  ordinaryZone h -> Z.abs t <= 8640000000000000 - 3 * msPerDay ->
  setHours0 h (Some t)
  = Some (localDay h t * msPerDay - LocalTZA h (localDay h t * msPerDay) false).
Proof.
  intros Hz Ht. unfold setHours0, UTC, MakeDate, MakeTime, localDay.
  replace (Day (LocalTime h t) * msPerDay + (0 * msPerHour + 0 * msPerMinute
             + 0 * msPerSecond + 0)) with (Day (LocalTime h t) * msPerDay) by lia.
  apply TimeClip_in_range.
  pose proof (Day_bounds (LocalTime h t)) as Hd.
  pose proof (Hz t true) as H1.
  pose proof (Hz (Day (LocalTime h t) * msPerDay) false) as H2.
  unfold LocalTime, msPerDay in *. lia.
Qed.

(** The local day of the instant a date-only string denotes is the day the
    string names or, west of Greenwich, the day before. *)
Lemma localDay_utcMidnight h e :
  ordinaryZone h ->
  localDay h (utcMidnight e) = e \/ localDay h (utcMidnight e) = e - 1.
Proof.
  intros Hz. unfold localDay, utcMidnight, MakeDate, LocalTime, Day.
  pose proof (Hz (e * msPerDay + 0) true) as H1. unfold msPerDay in *.
  div_lia.
Qed.

Lemma truthy_Some s : truthy (Some s) = true <-> s <> "".
Proof.
  unfold truthy. destruct (String.eqb_spec s ""); cbn; split; intros; congruence.
Qed.

(** Days until a date that parses to the instant [t]. *)
Lemma getDaysUntilExpiration_value h now s t :
  ordinaryZone h -> s <> "" -> newDate h s = Some t ->
  Z.abs t <= 8640000000000000 - 3 * msPerDay ->
  Z.abs now <= 8640000000000000 - 3 * msPerDay ->
  getDaysUntilExpiration h now (Some s)
  = Num (ceilDiv ((localDay h t * msPerDay - LocalTZA h (localDay h t * msPerDay) false)
                  - (localDay h now * msPerDay
                     - LocalTZA h (localDay h now * msPerDay) false))
           86400000).
Proof.
  intros Hz Hs Hp Ht Hn. unfold getDaysUntilExpiration.
  apply truthy_Some in Hs. rewrite Hs, Hp.
  rewrite !setHours0_value by assumption. reflexivity.
Qed.

Lemma newDate_parseISO h s t :
  parseISO s = Some t -> Z.abs t <= 8640000000000000 -> newDate h s = Some t.
Proof.
  intros Hp Ht. unfold newDate, Date_parse. rewrite Hp.
  apply TimeClip_in_range, Ht.
Qed.

Lemma parseISO_nonempty s t : parseISO s = Some t -> s <> "".
Proof. intros Hp ->. discriminate Hp. Qed.

(** A date [k] calendar days after the local today is between [k - 2] and
    [k + 2] days away for [getDaysUntilExpiration], in any ordinary zone. *)
Lemma getDaysUntilExpiration_calendar h now s k :
  ordinaryZone h -> ordinaryTime now -> Z.abs k <= 1000 ->
  parseISO s = Some (utcMidnight (localDay h now + k)) ->
  exists n, getDaysUntilExpiration h now (Some s) = Num n /\ k - 2 <= n <= k + 2.
Proof.
  intros Hz Hn Hk Hp. unfold ordinaryTime in Hn.
  set (e := localDay h now + k) in *.
  pose proof (Day_bounds (LocalTime h now)) as Hd.
  pose proof (Hz now true) as Ho.
  assert (He : Z.abs (utcMidnight e) <= 8640000000000000 - 3 * msPerDay).
  { unfold utcMidnight, MakeDate, e, localDay, LocalTime, msPerDay in *. lia. }
  rewrite (getDaysUntilExpiration_value h now s (utcMidnight e)); trivial.
  - eexists. split; [reflexivity|].
    pose proof (Hz (localDay h (utcMidnight e) * msPerDay) false) as H1.
    pose proof (Hz (localDay h now * msPerDay) false) as H2.
    remember (LocalTZA h (localDay h (utcMidnight e) * msPerDay) false) as o2.
    remember (LocalTZA h (localDay h now * msPerDay) false) as o1.
    assert (E : localDay h (utcMidnight e) = localDay h now + k
                \/ localDay h (utcMidnight e) = localDay h now + k - 1)
      by (destruct (localDay_utcMidnight h e Hz); [left|right]; assumption).
    clear Heqo1 Heqo2 Hp He. unfold msPerDay in *.
    split.
    + assert (k - 3 < ceilDiv
         (localDay h (utcMidnight e) * 86400000 - o2
          - (localDay h now * 86400000 - o1)) 86400000); [|lia].
      apply ceilDiv_gt. lia.
    + apply ceilDiv_le. lia.
  - eapply parseISO_nonempty, Hp.
  - apply newDate_parseISO; [exact Hp|]. unfold msPerDay in He. lia.
  - unfold msPerDay. lia.
Qed.

(* ===================================================================== *)
(** ** The civil calendar                                                 *)
(* ===================================================================== *)

Section Calendar.

Lemma DayFromYear_lt y1 y2 : y1 < y2 -> DayFromYear y1 < DayFromYear y2.
Proof. unfold DayFromYear. intros. div_lia. Qed.

Lemma DayFromYear_succ y : DayFromYear (y + 1) = DayFromYear y + DaysInYear y.
Proof.
  unfold DayFromYear, DaysInYear.
  destruct (Z.eqb_spec (y mod 4) 0); cbn [negb];
    [destruct (Z.eqb_spec (y mod 100) 0); cbn [negb];
     [destruct (Z.eqb_spec (y mod 400) 0); cbn [negb]|]|]; div_lia.
Qed.

Lemma year_estimate d :
  DayFromYear (1970 + 400 * d / 146097 - 1) <= d
  < DayFromYear (1970 + 400 * d / 146097 + 2).
Proof. unfold DayFromYear. div_lia. Qed.

Lemma YearFromTime_days t :
  DayFromYear (YearFromTime t) <= Day t < DayFromYear (YearFromTime t + 1).
Proof.
  unfold YearFromTime. pose proof (year_estimate (Day t)) as H.
  set (y0 := 1970 + 400 * Day t / 146097) in *.
  destruct (Z.ltb_spec (Day t) (DayFromYear y0)).
  - replace (y0 - 1 + 1) with y0 by lia. lia.
  - destruct (Z.leb_spec (DayFromYear (y0 + 1)) (Day t)).
    + replace (y0 + 1 + 1) with (y0 + 2) by lia. lia.
    + lia.
Qed.

(** [YearFromTime t] is the year the standard describes: the time of its
    start is at most [t], and it is the largest such year. *)
Lemma YearFromTime_spec t :
  TimeFromYear (YearFromTime t) <= t
  /\ forall y, TimeFromYear y <= t -> y <= YearFromTime t.
Proof.
  pose proof (YearFromTime_days t) as [Hlo Hhi].
  pose proof (Day_bounds t) as Hd. unfold TimeFromYear. split.
  - unfold msPerDay in *. lia.
  - intros y Hy. destruct (Z.le_gt_cases y (YearFromTime t)) as [|Hgt]; [assumption|].
    assert (DayFromYear (YearFromTime t + 1) <= DayFromYear y).
    { destruct (Z.eq_dec (YearFromTime t + 1) y) as [->|]; [lia|].
      apply Z.lt_le_incl, DayFromYear_lt. lia. }
    unfold msPerDay in *. lia.
Qed.

Lemma YearFromTime_unique t y :
  DayFromYear y <= Day t < DayFromYear (y + 1) -> YearFromTime t = y.
Proof.
  intros [Hlo Hhi]. pose proof (YearFromTime_days t) as [Ylo Yhi].
  destruct (Z.lt_trichotomy (YearFromTime t) y) as [Hlt | [Heq | Hgt]]; trivial.
  - assert (DayFromYear (YearFromTime t + 1) <= DayFromYear y); [|lia].
    destruct (Z.eq_dec (YearFromTime t + 1) y) as [->|]; [lia|].
    apply Z.lt_le_incl, DayFromYear_lt. lia.
  - assert (DayFromYear (y + 1) <= DayFromYear (YearFromTime t)); [|lia].
    destruct (Z.eq_dec (y + 1) (YearFromTime t)) as [->|]; [lia|].
    apply Z.lt_le_incl, DayFromYear_lt. lia.
Qed.

Lemma DaysInYear_cases y : DaysInYear y = 365 \/ DaysInYear y = 366.
Proof.
  unfold DaysInYear.
  destruct (y mod 4 =? 0), (y mod 100 =? 0), (y mod 400 =? 0); cbn; auto.
Qed.

Lemma DayWithinYear_bounds t :
  0 <= DayWithinYear t < 365 + InLeapYear t.
Proof.
  unfold DayWithinYear, InLeapYear.
  pose proof (YearFromTime_days t) as H. rewrite DayFromYear_succ in H.
  destruct (DaysInYear_cases (YearFromTime t)) as [E | E]; rewrite E in *;
    cbn; lia.
Qed.

Lemma InLeapYear_cases t : InLeapYear t = 0 \/ InLeapYear t = 1.
Proof. unfold InLeapYear. destruct (_ =? _); auto. Qed.

Ltac month_cases :=
  repeat match goal with
         | |- context [?a <? ?b] => destruct (Z.ltb_spec a b)
         end.

Ltac month_starts :=
  repeat match goal with
         | |- context [monthStart ?m ?l] =>
             let v := eval vm_compute in (monthStart m l) in
             change (monthStart m l) with v
         end.

Ltac month_starts_in H :=
  repeat match type of H with
         | context [monthStart ?m ?l] =>
             let v := eval vm_compute in (monthStart m l) in
             change (monthStart m l) with v in H
         end.

Lemma MonthFromTime_range t : 0 <= MonthFromTime t <= 11.
Proof. unfold MonthFromTime. month_cases; lia. Qed.

Lemma DateFromTime_range t :
  1 <= DateFromTime t <= DaysInMonth (YearFromTime t) (MonthFromTime t).
Proof.
  pose proof (DayWithinYear_bounds t) as Hb.
  unfold DateFromTime, DaysInMonth. fold (InLeapYear t).
  destruct (InLeapYear_cases t) as [E | E]; rewrite E in *;
    unfold MonthFromTime; rewrite E; month_cases; month_starts; lia.
Qed.

(** The fields of a time value give its day number back. *)
Lemma MakeDay_fields t :
  MakeDay (YearFromTime t) (MonthFromTime t) (DateFromTime t) = Day t.
Proof.
  pose proof (MonthFromTime_range t) as Hm.
  unfold MakeDay, DateFromTime, DayWithinYear.
  replace (MonthFromTime t / 12) with 0 by div_lia.
  replace (MonthFromTime t mod 12) with (MonthFromTime t) by div_lia.
  rewrite Z.add_0_r. fold (InLeapYear t). lia.
Qed.

Lemma MakeDay_shift y m d k : MakeDay y m (d + k) = MakeDay y m d + k.
Proof. unfold MakeDay. lia. Qed.

(** The day built from a year, a month (0 to 11) and a day that the month
    has reads back as those fields, at any time of that day. *)
Lemma fields_MakeDay y m d r :
  0 <= m <= 11 -> 1 <= d <= DaysInMonth y m -> 0 <= r < msPerDay ->
  let t := MakeDate (MakeDay y m d) r in
  Day t = MakeDay y m d
  /\ YearFromTime t = y /\ MonthFromTime t = m /\ DateFromTime t = d.
Proof.
  intros Hm Hd Hr t.
  assert (Eday : Day t = MakeDay y m d).
  { unfold t, MakeDate, Day. unfold msPerDay in *. div_lia. }
  assert (Em : m / 12 = 0 /\ m mod 12 = m) by (split; div_lia).
  destruct Em as [Em1 Em2].
  assert (Emk : MakeDay y m d
                = DayFromYear y
                  + monthStart m (if DaysInYear y =? 366 then 1 else 0) + d - 1).
  { unfold MakeDay. rewrite Em1, Em2, Z.add_0_r. reflexivity. }
  assert (Ey : YearFromTime t = y).
  { apply YearFromTime_unique. rewrite Eday, Emk, DayFromYear_succ.
    unfold DaysInMonth in Hd.
    destruct (DaysInYear_cases y) as [E | E]; rewrite E in *; cbn in *;
      assert (Hc : m = 0 \/ m = 1 \/ m = 2 \/ m = 3 \/ m = 4 \/ m = 5 \/ m = 6
                   \/ m = 7 \/ m = 8 \/ m = 9 \/ m = 10 \/ m = 11) by lia;
      repeat (destruct Hc as [-> | Hc]); try subst m; cbn in *;
      month_starts_in Hd; lia. }
  assert (El : InLeapYear t = if DaysInYear y =? 366 then 1 else 0)
    by (unfold InLeapYear; rewrite Ey; reflexivity).
  assert (Ew : DayWithinYear t
               = monthStart m (if DaysInYear y =? 366 then 1 else 0) + d - 1)
    by (unfold DayWithinYear; rewrite Ey, Eday, Emk; lia).
  assert (Emo : MonthFromTime t = m).
  { unfold MonthFromTime. rewrite Ew, El. unfold DaysInMonth in Hd.
    destruct (DaysInYear y =? 366);
      assert (Hc : m = 0 \/ m = 1 \/ m = 2 \/ m = 3 \/ m = 4 \/ m = 5 \/ m = 6
                   \/ m = 7 \/ m = 8 \/ m = 9 \/ m = 10 \/ m = 11) by lia;
      repeat (destruct Hc as [-> | Hc]); try subst m; cbn in *;
      month_starts_in Hd; month_cases; lia. }
  repeat split; trivial.
  unfold DateFromTime. rewrite Ew, Emo, El. lia.
Qed.

End Calendar.

(* ===================================================================== *)
(** ** Writing and reading dates                                          *)
(* ===================================================================== *)

Section DateText.

Lemma digitOf_inv c d : digitOf c = Some d -> 0 <= d <= 9 /\ digitChar d = c.
Proof.
  unfold digitOf, digitChar.
  destruct (Z.leb_spec 48 (Z.of_N (N_of_ascii c))); cbn [andb]; [|discriminate].
  destruct (Z.leb_spec (Z.of_N (N_of_ascii c)) 57); [|discriminate].
  intros [= <-]. split; [lia|].
  replace (48 + (Z.of_N (N_of_ascii c) - 48)) with (Z.of_N (N_of_ascii c)) by lia.
  rewrite N2Z.id. apply ascii_N_embedding.
Qed.

Lemma digit_cases d :
  0 <= d <= 9 ->
  d = 0 \/ d = 1 \/ d = 2 \/ d = 3 \/ d = 4 \/ d = 5 \/ d = 6 \/ d = 7
  \/ d = 8 \/ d = 9.
Proof. lia. Qed.

Lemma digitChar_not_T d : 0 <= d <= 9 -> Ascii.eqb (digitChar d) "T" = false.
Proof.
  intros H. apply digit_cases in H.
  repeat (destruct H as [-> | H]); try subst d; reflexivity.
Qed.

Lemma number2_inv a b n :
  number [a; b] = Some n ->
  exists da db, 0 <= da <= 9 /\ 0 <= db <= 9
                /\ digitChar da = a /\ digitChar db = b /\ n = 10 * da + db.
Proof.
  unfold number. cbn [numberFrom].
  destruct (digitOf a) as [da|] eqn:Ea; [|discriminate].
  destruct (digitOf b) as [db|] eqn:Eb; [|discriminate].
  intros [= <-]. apply digitOf_inv in Ea as [? ?], Eb as [? ?].
  exists da, db. repeat split; trivial; lia.
Qed.

Lemma number4_inv a b c e n :
  number [a; b; c; e] = Some n ->
  exists da db dc de,
    0 <= da <= 9 /\ 0 <= db <= 9 /\ 0 <= dc <= 9 /\ 0 <= de <= 9
    /\ digitChar da = a /\ digitChar db = b /\ digitChar dc = c
    /\ digitChar de = e /\ n = 1000 * da + 100 * db + 10 * dc + de.
Proof.
  unfold number. cbn [numberFrom].
  destruct (digitOf a) as [da|] eqn:Ea; [|discriminate].
  destruct (digitOf b) as [db|] eqn:Eb; [|discriminate].
  destruct (digitOf c) as [dc|] eqn:Ec; [|discriminate].
  destruct (digitOf e) as [de|] eqn:Ee; [|discriminate].
  intros [= <-].
  apply digitOf_inv in Ea as [? ?], Eb as [? ?], Ec as [? ?], Ee as [? ?].
  exists da, db, dc, de. repeat split; trivial; lia.
Qed.

Lemma pad2_digits da db :
  0 <= da <= 9 -> 0 <= db <= 9 ->
  pad 2 (10 * da + db) = String (digitChar da) (String (digitChar db) "").
Proof.
  intros Ha Hb. unfold pad. cbn [padDigits].
  replace ((10 * da + db) mod 10) with db by div_lia.
  replace ((10 * da + db) / 10 mod 10) with da by div_lia.
  reflexivity.
Qed.

Lemma pad4_digits da db dc de :
  0 <= da <= 9 -> 0 <= db <= 9 -> 0 <= dc <= 9 -> 0 <= de <= 9 ->
  pad 4 (1000 * da + 100 * db + 10 * dc + de)
  = String (digitChar da) (String (digitChar db)
      (String (digitChar dc) (String (digitChar de) ""))).
Proof.
  intros Ha Hb Hc He. unfold pad. cbn [padDigits].
  set (n := 1000 * da + 100 * db + 10 * dc + de).
  replace (n mod 10) with de by (unfold n; div_lia).
  replace (n / 10 mod 10) with dc by (unfold n; div_lia).
  replace (n / 10 / 10 mod 10) with db by (unfold n; div_lia).
  replace (n / 10 / 10 / 10 mod 10) with da by (unfold n; div_lia).
  reflexivity.
Qed.

(** A text without ['T'] is kept whole by [beforeT], and [beforeT] reads
    through it. *)
Lemma beforeT_app a b :
  beforeT a = a -> beforeT (a ++ b)%string = (a ++ beforeT b)%string.
Proof.
  induction a as [|c a IH]; intros H; [reflexivity|].
  change (String c a ++ b)%string with (String c (a ++ b)%string).
  change (String c a ++ beforeT b)%string with (String c (a ++ beforeT b)%string).
  cbn [beforeT] in *. destruct (Ascii.eqb c "T"); [discriminate|].
  injection H as H. rewrite (IH H). reflexivity.
Qed.

Lemma beforeT_padDigits w : forall n acc,
  beforeT acc = acc -> beforeT (padDigits w n acc) = padDigits w n acc.
Proof.
  induction w as [|w IH]; intros n acc H; [exact H|].
  cbn [padDigits]. apply IH. cbn [beforeT].
  rewrite digitChar_not_T by div_lia. rewrite H. reflexivity.
Qed.

Lemma beforeT_pad w n : beforeT (pad w n) = pad w n.
Proof. apply beforeT_padDigits. reflexivity. Qed.

Lemma beforeT_yearString y : beforeT (yearString y) = yearString y.
Proof.
  unfold yearString. destruct ((0 <=? y) && (y <=? 9999)).
  - apply beforeT_pad.
  - cbn [beforeT]. rewrite beforeT_pad. destruct (y <? 0); reflexivity.
Qed.

Lemma beforeT_formatDate y m d : beforeT (formatDate y m d) = formatDate y m d.
Proof.
  unfold formatDate.
  rewrite beforeT_app by apply beforeT_yearString. f_equal.
  change ("-" ++ pad 2 m ++ "-" ++ pad 2 d)%string
    with (String "-" (pad 2 m ++ String "-" (pad 2 d)))%string.
  cbn [beforeT Ascii.eqb Bool.eqb]. f_equal.
  rewrite beforeT_app by apply beforeT_pad. f_equal.
  cbn [beforeT Ascii.eqb Bool.eqb]. f_equal. apply beforeT_pad.
Qed.

Lemma append_assoc (a b c : string) :
  ((a ++ b) ++ c = a ++ (b ++ c))%string.
Proof.
  induction a as [|x a IH]; [reflexivity|].
  change (String x ((a ++ b) ++ c) = String x (a ++ (b ++ c)))%string.
  f_equal. exact IH.
Qed.

Lemma append_empty_r (a : string) : (a ++ "")%string = a.
Proof.
  induction a as [|x a IH]; [reflexivity|].
  change (String x (a ++ "")%string = String x a). f_equal. exact IH.
Qed.

(** The date part of what [toISOString] writes is the text of the UTC
    year, month and day of the time value. *)
Lemma isoDate_fields t :
  isoDate t = formatDate (YearFromTime t) (MonthFromTime t + 1) (DateFromTime t).
Proof.
  unfold isoDate, isoString.
  set (tail := (pad 2 (HourFromTime t) ++ ":" ++ pad 2 (MinFromTime t) ++ ":"
                ++ pad 2 (SecFromTime t) ++ "." ++ pad 3 (msFromTime t) ++ "Z")%string).
  transitivity (beforeT (formatDate (YearFromTime t) (MonthFromTime t + 1)
                           (DateFromTime t) ++ String "T" tail)%string).
  - f_equal. unfold formatDate. rewrite !append_assoc. reflexivity.
  - rewrite beforeT_app by apply beforeT_formatDate.
    cbn [beforeT Ascii.eqb Bool.eqb]. apply append_empty_r.
Qed.

Lemma dateFields_inv cs y m d :
  dateFields cs = Some (y, m, d) ->
  0 <= y <= 9999 /\ 1 <= m <= 12 /\ 1 <= d <= DaysInMonth y (m - 1)
  /\ length cs = 10%nat
  /\ string_of_list_ascii cs = formatDate y m d.
Proof.
  unfold dateFields.
  destruct cs as [|y1 [|y2 [|y3 [|y4 [|c1 [|m1 [|m2 [|c2 [|d1 [|d2 [|x r]]]]]]]]]]];
    try discriminate.
  destruct (Ascii.eqb_spec c1 "-"); [|discriminate].
  destruct (Ascii.eqb_spec c2 "-"); [|discriminate]. cbn [andb].
  destruct (number [y1; y2; y3; y4]) as [yy|] eqn:Ey; [|discriminate].
  destruct (number [m1; m2]) as [mm|] eqn:Em; [|discriminate].
  destruct (number [d1; d2]) as [dd|] eqn:Ed; [|discriminate].
  destruct ((1 <=? mm) && (mm <=? 12) && (1 <=? dd) && (dd <=? DaysInMonth yy (mm - 1)))
    eqn:Hv; [|discriminate].
  intros [= <- <- <-].
  apply andb_true_iff in Hv as [Hv H4]. apply andb_true_iff in Hv as [Hv H3].
  apply andb_true_iff in Hv as [H1 H2].
  apply number4_inv in Ey as (a & b & c & e' & Ha & Hb & Hc & He & <- & <- & <- & <- & Hy).
  apply number2_inv in Em as (ma & mb & Hma & Hmb & <- & <- & Hm).
  apply number2_inv in Ed as (da & db & Hda & Hdb & <- & <- & Hd).
  split; [lia|]. split; [lia|]. split; [lia|]. split; [reflexivity|].
  subst c1 c2. unfold formatDate, yearString.
  replace ((0 <=? yy) && (yy <=? 9999)) with true
    by (symmetry; apply andb_true_iff; split; lia).
  rewrite Hy, Hm, Hd, pad4_digits, !pad2_digits by assumption. reflexivity.
Qed.

Lemma dateOnly_text s y m d : dateOnly s = Some (y, m, d) -> s = formatDate y m d.
Proof.
  intros H. apply dateFields_inv in H as (_ & _ & _ & _ & H).
  rewrite string_of_list_ascii_of_string in H. exact H.
Qed.

Lemma dateOnly_parseISO s y m d :
  dateOnly s = Some (y, m, d) ->
  parseISO s = Some (utcMidnight (MakeDay y (m - 1) d)).
Proof.
  unfold dateOnly, parseISO. intros H.
  pose proof (dateFields_inv _ _ _ _ H) as (_ & _ & _ & Hlen & _).
  rewrite firstn_all2 by (rewrite Hlen; reflexivity). rewrite H.
  rewrite skipn_all2 by (rewrite Hlen; reflexivity). reflexivity.
Qed.

Lemma DayFromYear_four_digits y :
  0 <= y <= 10000 -> -719528 <= DayFromYear y <= 2932897.
Proof. unfold DayFromYear. intros. div_lia. Qed.

Lemma monthStart_bounds m leap :
  0 <= leap <= 1 -> 0 <= monthStart m leap <= 366.
Proof.
  intros H. unfold monthStart.
  destruct m as [|p|p]; try lia.
  do 4 (destruct p as [p|p|]; try lia).
Qed.

Lemma DaysInMonth_bounds y m : 0 <= m <= 11 -> 28 <= DaysInMonth y m <= 31.
Proof.
  intros Hm. unfold DaysInMonth.
  assert (Hc : m = 0 \/ m = 1 \/ m = 2 \/ m = 3 \/ m = 4 \/ m = 5 \/ m = 6
               \/ m = 7 \/ m = 8 \/ m = 9 \/ m = 10 \/ m = 11) by lia.
  destruct (DaysInYear y =? 366);
    repeat (destruct Hc as [-> | Hc]); try subst m; vm_compute; split; discriminate.
Qed.

Lemma MakeDay_four_digits y m d :
  0 <= y <= 9999 -> 0 <= m <= 23 -> -100 <= d <= 100 ->
  Z.abs (MakeDay y m d) <= 3000000.
Proof.
  intros Hy Hm Hd. unfold MakeDay.
  assert (Hym : 0 <= y + m / 12 <= 10000) by div_lia.
  pose proof (DayFromYear_four_digits _ Hym).
  pose proof (monthStart_bounds (m mod 12)
                (if DaysInYear (y + m / 12) =? 366 then 1 else 0)
                ltac:(destruct (_ =? _); lia)).
  lia.
Qed.

End DateText.

(* ===================================================================== *)
(** ** isExpiringSoon and the expiring-soon view                          *)
(* ===================================================================== *)

Lemma isExpiringSoon_iff h now exp th :
  isExpiringSoon h now exp th = true <->
  exists s n, exp = Some s /\ s <> ""
              /\ getDaysUntilExpiration h now exp = Num n /\ 0 <= n <= th.
Proof.
  unfold isExpiringSoon. split.
  - destruct exp as [s|]; [|discriminate].
    destruct (truthy (Some s)) eqn:Ht; [|discriminate]. cbn [negb].
    apply truthy_Some in Ht.
    destruct (getDaysUntilExpiration h now (Some s)) as [n| |] eqn:Hd;
      cbn; try discriminate.
    intros Hn. apply andb_true_iff in Hn as [H0 H1].
    exists s, n. repeat split; trivial; lia.
  - intros (s & n & -> & Hs & Hd & Hn). apply truthy_Some in Hs.
    rewrite Hs, Hd. cbn. apply andb_true_iff. split; lia.
Qed.

Lemma isExpiringSoon_absent h now exp th :
  truthy exp = false -> isExpiringSoon h now exp th = false.
Proof. intros H. unfold isExpiringSoon. rewrite H. reflexivity. Qed.

Lemma strictEq_true r lit : strictEq r lit = true <-> r = Some lit.
Proof.
  destruct r as [r|]; cbn; [|split; discriminate].
  rewrite String.eqb_eq. split; congruence.
Qed.

Lemma truthy_true exp : truthy exp = true <-> exists s, exp = Some s /\ s <> "".
Proof.
  destruct exp as [s|].
  - rewrite truthy_Some. split; [eauto|]. intros (s' & [= <-] & H). exact H.
  - cbn. split; [discriminate|]. intros (s & [=] & _).
Qed.

Lemma expiringSoonPredicate_policy h now th item :
  expiringSoonPredicate h now th item = true <->
  (ripeness item = Some "Ripe/Mature" \/ isOpened item = true)
  \/ ((exists s, expiration item = Some s /\ s <> "")
      /\ isExpiringSoon h now (expiration item) th = true
      /\ (isFrozen item = false \/ isExpiringSoon h now (expiration item) th = true)).
Proof.
  unfold expiringSoonPredicate.
  rewrite !orb_true_iff, !andb_true_iff, orb_true_iff, negb_true_iff,
    strictEq_true, truthy_true.
  tauto.
Qed.

Lemma expiringSoon_excluded h now th item :
  ripeness item <> Some "Ripe/Mature" -> isOpened item = false ->
  isExpiringSoon h now (expiration item) th = false ->
  expiringSoonPredicate h now th item = false.
Proof.
  intros Hr Ho He. apply not_true_is_false. intros H.
  apply expiringSoonPredicate_policy in H as [[H | H] | (_ & H & _)]; congruence.
Qed.

(** C1.  The expiring-soon view keeps exactly the records of the collection
    that are ripe ("Ripe/Mature") or opened, or whose expiration is set and
    expiring soon within the threshold and that are not frozen or are still
    expiring soon.  In particular: a ripe record with no expiration that is
    not opened is in the view; a record that is neither ripe nor opened and
    expires in 10 days is not in the view for threshold 7; a frozen record
    that expires in 3 days is in the view for threshold 7.  "Expires in k
    days" is taken both as [getDaysUntilExpiration] being [k] (any host) and
    as the expiration naming the calendar day [k] days after the local today
    (any ordinary zone). *)
Theorem expiringSoon_view_policy :
  (forall h now th C item,
      In item (getExpiringSoonIngredients h now C th) <->
      In item C /\
      ((ripeness item = Some "Ripe/Mature" \/ isOpened item = true)
       \/ ((exists s, expiration item = Some s /\ s <> "")
           /\ isExpiringSoon h now (expiration item) th = true
           /\ (isFrozen item = false
               \/ isExpiringSoon h now (expiration item) th = true))))
  /\ (forall h now th C item,
         In item C -> ripeness item = Some "Ripe/Mature" ->
         truthy (expiration item) = false -> isOpened item = false ->
         In item (getExpiringSoonIngredients h now C th))
  /\ (forall h now C item,
         ripeness item <> Some "Ripe/Mature" -> isOpened item = false ->
         getDaysUntilExpiration h now (expiration item) = Num 10 ->
         ~ In item (getExpiringSoonIngredients h now C 7))
  /\ (forall h now C item s,
         ordinaryZone h -> ordinaryTime now ->
         ripeness item <> Some "Ripe/Mature" -> isOpened item = false ->
         expiration item = Some s ->
         parseISO s = Some (utcMidnight (localDay h now + 10)) ->
         ~ In item (getExpiringSoonIngredients h now C 7))
  /\ (forall h now C item,
         In item C -> isFrozen item = true ->
         getDaysUntilExpiration h now (expiration item) = Num 3 ->
         In item (getExpiringSoonIngredients h now C 7))
  /\ (forall h now C item s,
         ordinaryZone h -> ordinaryTime now ->
         In item C -> isFrozen item = true ->
         expiration item = Some s ->
         parseISO s = Some (utcMidnight (localDay h now + 3)) ->
         In item (getExpiringSoonIngredients h now C 7)).
Proof.
  assert (Hview : forall h now th C item,
      In item (getExpiringSoonIngredients h now C th) <->
      In item C /\ expiringSoonPredicate h now th item = true).
  { intros. unfold getExpiringSoonIngredients. apply List.filter_In. }
  assert (Hdays : forall h now exp n,
      getDaysUntilExpiration h now exp = Num n ->
      isExpiringSoon h now exp 7 = (0 <=? n) && (n <=? 7)
      /\ exists s, exp = Some s /\ s <> "").
  { intros h now exp n Hn. unfold isExpiringSoon.
    destruct exp as [s|]; [|discriminate Hn].
    destruct (truthy (Some s)) eqn:Ht.
    - rewrite Hn. split; [reflexivity|]. apply truthy_Some in Ht. eauto.
    - unfold getDaysUntilExpiration in Hn. rewrite Ht in Hn. discriminate Hn. }
  split; [|split; [|split; [|split; [|split]]]].
  - intros. rewrite Hview, expiringSoonPredicate_policy. reflexivity.
  - intros h now th C item Hin Hr _ _. apply Hview. split; [exact Hin|].
    apply expiringSoonPredicate_policy. left. left. exact Hr.
  - intros h now C item Hr Ho Hd Hin. apply Hview in Hin as [_ Hin].
    destruct (Hdays _ _ _ _ Hd) as [He _].
    rewrite (expiringSoon_excluded h now 7 item Hr Ho) in Hin; [discriminate|].
    rewrite He. reflexivity.
  - intros h now C item s Hz Hn Hr Ho Hs Hp Hin. apply Hview in Hin as [_ Hin].
    destruct (getDaysUntilExpiration_calendar h now s 10 Hz Hn ltac:(lia) Hp)
      as (n & Hd & Hb).
    rewrite <- Hs in Hd. destruct (Hdays _ _ _ _ Hd) as [He _].
    rewrite (expiringSoon_excluded h now 7 item Hr Ho) in Hin; [discriminate|].
    rewrite He. apply andb_false_iff. right. apply Z.leb_gt. lia.
  - intros h now C item Hin Hf Hd. apply Hview. split; [exact Hin|].
    destruct (Hdays _ _ _ _ Hd) as [He Hs].
    apply expiringSoonPredicate_policy. right. split; [exact Hs|].
    split; [|right]; rewrite He; reflexivity.
  - intros h now C item s Hz Hn Hin Hf Hs Hp. apply Hview. split; [exact Hin|].
    destruct (getDaysUntilExpiration_calendar h now s 3 Hz Hn ltac:(lia) Hp)
      as (n & Hd & Hb).
    rewrite <- Hs in Hd. destruct (Hdays _ _ _ _ Hd) as [He Hs'].
    assert (Hsoon : isExpiringSoon h now (expiration item) 7 = true).
    { rewrite He. apply andb_true_iff. split; lia. }
    apply expiringSoonPredicate_policy. right. split; [exact Hs'|].
    split; [|right]; exact Hsoon.
Qed.

Lemma expiringSoon_view_policy_witness :
  ~ In (sampleIngredient "1" (Some "2024-01-20"))
      (getExpiringSoonIngredients utcHost noonJan10
         [sampleIngredient "1" (Some "2024-01-20")] 7)
  /\ In (setFrozen true (sampleIngredient "2" (Some "2024-01-13")))
       (getExpiringSoonIngredients utcHost noonJan10
          [setFrozen true (sampleIngredient "2" (Some "2024-01-13"))] 7).
Proof.
  destruct expiringSoon_view_policy as (_ & _ & _ & Hout & _ & Hin).
  split.
  - apply (Hout utcHost noonJan10 _ _ "2024-01-20");
      [ intros ? ?; cbn; unfold fixedZone, msPerDay; lia
      | unfold ordinaryTime, noonJan10; lia | discriminate
      | reflexivity | reflexivity | vm_compute; reflexivity ].
  - apply (Hin utcHost noonJan10 _ _ "2024-01-13");
      [ intros ? ?; cbn; unfold fixedZone, msPerDay; lia
      | unfold ordinaryTime, noonJan10; lia | left; reflexivity
      | reflexivity | reflexivity | vm_compute; reflexivity ].
Defined.

(* ===================================================================== *)
(** ** needsRipenessCheck                                                 *)
(* ===================================================================== *)

(** What [needsRipenessCheck] computes; the threshold is the one passed,
    or 3. *)
Lemma needsRipenessCheck_iff h now lu th :
  needsRipenessCheck h now lu th = true <->
  exists s tl tn,
    lu = Some s /\ s <> ""
    /\ setHours0 h (newDate h s) = Some tl
    /\ setHours0 h (Some now) = Some tn
    /\ match th with Some n => n | None => 3 end < ceilDiv (tn - tl) msPerDay.
Proof.
  unfold needsRipenessCheck, ripenessDiffDays, getTime.
  set (n := match th with Some n => n | None => 3 end).
  change (1000 * 60 * 60 * 24) with msPerDay. split.
  - destruct lu as [s|]; [|discriminate].
    destruct (truthy (Some s)) eqn:Ht; [|discriminate].
    apply truthy_Some in Ht.
    destruct (setHours0 h (Some now)) as [tn|] eqn:En;
      destruct (setHours0 h (newDate h s)) as [tl|] eqn:El;
      cbn [JS.gt JS.sub ceilDays]; try discriminate.
    intros Hgt. apply Z.ltb_lt in Hgt. exists s, tl, tn.
    split; [reflexivity|]. split; [exact Ht|]. split; [exact El|].
    split; [first [exact En | reflexivity] | exact Hgt].
  - intros (s & tl & tn & -> & Hs & Hl & Hn & Hgt). apply truthy_Some in Hs.
    rewrite Hs, Hl, Hn. cbn [JS.gt JS.sub ceilDays]. apply Z.ltb_lt, Hgt.
Qed.

Lemma ripenessDiffDays_value h now s t :
  ordinaryZone h -> newDate h s = Some t ->
  Z.abs t <= 8640000000000000 - 3 * msPerDay ->
  Z.abs now <= 8640000000000000 - 3 * msPerDay ->
  ripenessDiffDays h now s
  = Num (ceilDiv ((localDay h now * msPerDay
                   - LocalTZA h (localDay h now * msPerDay) false)
                  - (localDay h t * msPerDay
                     - LocalTZA h (localDay h t * msPerDay) false))
           86400000).
Proof.
  intros Hz Hp Ht Hn. unfold ripenessDiffDays.
  rewrite Hp, !setHours0_value by assumption. reflexivity.
Qed.

(** A stamp [k] local calendar days old has [diffDays] between [k] and
    [k + 1] when the offsets at the two midnights differ by less than a day
    (they differ by an hour at most across a daylight-saving change). *)
Lemma ripenessDiffDays_calendar h now s t k :
  ordinaryZone h -> steadyZone h -> ordinaryTime now -> Z.abs k <= 1000 ->
  newDate h s = Some t -> localDay h now - localDay h t = k ->
  exists n, ripenessDiffDays h now s = Num n /\ k <= n <= k + 1.
Proof.
  intros Hz Hst Hn Hk Hp Hd. unfold ordinaryTime in Hn.
  pose proof (Day_bounds (LocalTime h now)) as Bn.
  pose proof (Day_bounds (LocalTime h t)) as Bt.
  pose proof (Hz now true) as On. pose proof (Hz t true) as Ot.
  pose proof (Hst (localDay h now * msPerDay) (localDay h t * msPerDay)) as Hs.
  unfold localDay in Hd.
  rewrite (ripenessDiffDays_value h now s t); trivial.
  - eexists. split; [reflexivity|].
    remember (LocalTZA h (localDay h now * msPerDay) false) as o1.
    remember (LocalTZA h (localDay h t * msPerDay) false) as o2.
    clear Heqo1 Heqo2. unfold localDay, msPerDay in *. split.
    + assert (k - 1 < ceilDiv
         (Day (LocalTime h now) * 86400000 - o1
          - (Day (LocalTime h t) * 86400000 - o2)) 86400000); [|lia].
      apply ceilDiv_gt. lia.
    + apply ceilDiv_le. lia.
  - unfold LocalTime, msPerDay in *. lia.
  - unfold msPerDay. lia.
Qed.

(** C9.  [needsRipenessCheck] is true exactly when the stamp is set and the
    number of days from the local midnight of the stamp to the local
    midnight of now, rounded up, exceeds the threshold (3 when none is
    passed); an absent (or empty) stamp never needs a check; with threshold
    3, passed or by default, a stamp 4 calendar days old needs a check and a
    stamp 2 calendar days old does not. *)
Theorem needsRipenessCheck_spec :
  (forall h now lu th,
      needsRipenessCheck h now lu th = true <->
      exists s tl tn,
        lu = Some s /\ s <> ""
        /\ setHours0 h (newDate h s) = Some tl
        /\ setHours0 h (Some now) = Some tn
        /\ match th with Some n => n | None => 3 end
           < ceilDiv (tn - tl) msPerDay)
  /\ (forall h now th,
         needsRipenessCheck h now None th = false
         /\ needsRipenessCheck h now (Some "") th = false)
  /\ (forall h now s t,
         ordinaryZone h -> steadyZone h -> ordinaryTime now ->
         s <> "" -> newDate h s = Some t ->
         localDay h now - localDay h t = 4 ->
         needsRipenessCheck h now (Some s) (Some DEFAULT_RIPENESS_CHECK_DAYS) = true
         /\ needsRipenessCheck h now (Some s) None = true)
  /\ (forall h now s t,
         ordinaryZone h -> steadyZone h -> ordinaryTime now ->
         s <> "" -> newDate h s = Some t ->
         localDay h now - localDay h t = 2 ->
         needsRipenessCheck h now (Some s) (Some DEFAULT_RIPENESS_CHECK_DAYS) = false
         /\ needsRipenessCheck h now (Some s) None = false).
Proof.
  split; [exact needsRipenessCheck_iff|].
  split; [intros; split; reflexivity|].
  split.
  - intros h now s t Hz Hst Hn Hs Hp Hd.
    destruct (ripenessDiffDays_calendar h now s t 4 Hz Hst Hn ltac:(lia) Hp Hd)
      as (n & Hv & Hb).
    unfold needsRipenessCheck. apply truthy_Some in Hs. rewrite Hs, Hv. cbn.
    unfold DEFAULT_RIPENESS_CHECK_DAYS. split; lia.
  - intros h now s t Hz Hst Hn Hs Hp Hd.
    destruct (ripenessDiffDays_calendar h now s t 2 Hz Hst Hn ltac:(lia) Hp Hd)
      as (n & Hv & Hb).
    unfold needsRipenessCheck. apply truthy_Some in Hs. rewrite Hs, Hv. cbn.
    unfold DEFAULT_RIPENESS_CHECK_DAYS. split; lia.
Qed.

Lemma needsRipenessCheck_spec_witness :
  needsRipenessCheck utcHost noonJan10 (Some "2024-01-06T09:30:00.000Z") None = true
  /\ needsRipenessCheck utcHost noonJan10 (Some "2024-01-08T23:59:59.999Z") None
     = false.
Proof.
  destruct needsRipenessCheck_spec as (_ & _ & Hold & Hfresh).
  split.
  - apply (Hold utcHost noonJan10 _ 1704533400000);
      [ intros ? ?; cbn; unfold fixedZone, msPerDay; lia
      | intros ? ?; cbn; unfold fixedZone, msPerDay; lia
      | unfold ordinaryTime, noonJan10; lia
      | discriminate | vm_compute; reflexivity | vm_compute; reflexivity ].
  - apply (Hfresh utcHost noonJan10 _ 1704758399999);
      [ intros ? ?; cbn; unfold fixedZone, msPerDay; lia
      | intros ? ?; cbn; unfold fixedZone, msPerDay; lia
      | unfold ordinaryTime, noonJan10; lia
      | discriminate | vm_compute; reflexivity | vm_compute; reflexivity ].
Defined.

(* ===================================================================== *)
(** ** Dates read as UTC, handled in local time                           *)
(* ===================================================================== *)

(** [new Date("YYYY-MM-DD")] is UTC midnight of the day named, while
    [setHours], [getMonth], [setMonth], [getDate] and [setDate] work on local
    time and [toISOString] writes UTC again.  West of Greenwich the local day
    of that instant is the day before the one named. *)

Lemma getDaysUntilExpiration_never h now :
  getDaysUntilExpiration h now None = PosInfinity
  /\ getDaysUntilExpiration h now (Some "") = PosInfinity.
Proof. split; reflexivity. Qed.

Lemma fixedHost_ordinary off :
  - msPerDay < off < msPerDay -> ordinaryZone (fixedHost off).
Proof. intros H t b. exact H. Qed.

(** At a constant offset, a date [k] calendar days after the local today is
    [k] days away east of Greenwich and [k - 1] days away west of it. *)
Lemma getDaysUntilExpiration_fixed off now s k :
  - msPerDay < off < msPerDay -> ordinaryTime now -> Z.abs k <= 1000 ->
  parseISO s = Some (utcMidnight (localDay (fixedHost off) now + k)) ->
  getDaysUntilExpiration (fixedHost off) now (Some s)
  = Num (if 0 <=? off then k else k - 1).
Proof.
  intros Hoff Hn Hk Hp. unfold ordinaryTime in Hn.
  pose proof (fixedHost_ordinary off Hoff) as Hz.
  set (e := localDay (fixedHost off) now + k) in *.
  pose proof (Day_bounds (LocalTime (fixedHost off) now)) as Hd.
  assert (He : Z.abs (utcMidnight e) <= 8640000000000000 - 3 * msPerDay).
  { unfold utcMidnight, MakeDate, e, localDay, LocalTime, msPerDay in *.
    cbn in *. unfold fixedZone in *. lia. }
  rewrite (getDaysUntilExpiration_value _ now s (utcMidnight e)); trivial.
  - f_equal. cbn [LocalTZA fixedHost]. unfold fixedZone.
    assert (El : localDay (fixedHost off) (utcMidnight e)
                 = if 0 <=? off then e else e - 1).
    { unfold localDay, utcMidnight, MakeDate, LocalTime, Day. cbn. unfold fixedZone.
      unfold msPerDay in *. destruct (Z.leb_spec 0 off); div_lia. }
    rewrite El. unfold msPerDay, e.
    destruct (0 <=? off).
    + replace (_ - _) with (k * 86400000) by lia. apply ceilDiv_exact.
    + replace (_ - _) with ((k - 1) * 86400000) by lia. apply ceilDiv_exact.
  - eapply parseISO_nonempty, Hp.
  - apply newDate_parseISO; [exact Hp|]. unfold msPerDay in He. lia.
  - unfold msPerDay. lia.
Qed.

(** East of Greenwich, daylight saving or not, today's date is 0 days
    away. *)
Lemma getDaysUntilExpiration_today_east h now s :
  ordinaryZone h -> (forall t, 0 <= LocalTZA h t true) -> ordinaryTime now ->
  parseISO s = Some (utcMidnight (localDay h now)) ->
  getDaysUntilExpiration h now (Some s) = Num 0.
Proof.
  intros Hz Heast Hn Hp. unfold ordinaryTime in Hn.
  set (e := localDay h now) in *.
  pose proof (Day_bounds (LocalTime h now)) as Hd.
  pose proof (Hz now true) as Ho.
  assert (He : Z.abs (utcMidnight e) <= 8640000000000000 - 3 * msPerDay).
  { unfold utcMidnight, MakeDate, e, localDay, LocalTime, msPerDay in *. lia. }
  assert (El : localDay h (utcMidnight e) = e).
  { pose proof (Hz (utcMidnight e) true) as H1.
    pose proof (Heast (utcMidnight e)) as H2.
    unfold localDay at 1. unfold LocalTime, Day.
    unfold utcMidnight, MakeDate, msPerDay in *. div_lia. }
  rewrite (getDaysUntilExpiration_value h now s (utcMidnight e)); trivial.
  - rewrite El. fold e. f_equal. rewrite Z.sub_diag. reflexivity.
  - eapply parseISO_nonempty, Hp.
  - apply newDate_parseISO; [exact Hp|]. unfold msPerDay in He. lia.
  - unfold msPerDay. lia.
Qed.

(** C4.  In Bogota (UTC-5) at noon of 10 January 2024, the expiration date
    "2024-01-10" is the local today, and [getDaysUntilExpiration] returns -1
    for it, not 0.  In Rome at noon of 1 April 2024, "2024-03-31" is
    yesterday, and [getDaysUntilExpiration] returns 0 for it, not a negative
    number: the local midnights are 23 hours apart and the quotient is
    rounded up. *)
Theorem getDaysUntilExpiration_local_day_off :
  (parseISO "2024-01-10T17:00:00.000Z" = Some noonJan10
   /\ parseISO "2024-01-10" = Some (utcMidnight (localDay bogotaHost noonJan10))
   /\ getDaysUntilExpiration bogotaHost noonJan10 (Some "2024-01-10") = Num (-1))
  /\ (parseISO "2024-04-01T10:00:00.000Z" = Some noonApr1
      /\ parseISO "2024-03-31" = Some (utcMidnight (localDay romeHost2024 noonApr1 - 1))
      /\ getDaysUntilExpiration romeHost2024 noonApr1 (Some "2024-03-31") = Num 0).
Proof. vm_compute. repeat split; reflexivity. Qed.

(** C5.  In Bogota at noon of 10 January 2024, the date "2024-01-18" is 8
    calendar days after the local today, and [isExpiringSoon] with threshold
    7 is true for it.  In Rome at noon of 1 April 2024, the date
    "2024-03-31" is one day past, and [isExpiringSoon] with threshold 7 is
    true for it. *)
Theorem isExpiringSoon_outside_window :
  (parseISO "2024-01-18" = Some (utcMidnight (localDay bogotaHost noonJan10 + 8))
   /\ getDaysUntilExpiration bogotaHost noonJan10 (Some "2024-01-18") = Num 7
   /\ isExpiringSoon bogotaHost noonJan10 (Some "2024-01-18") 7 = true)
  /\ (parseISO "2024-03-31" = Some (utcMidnight (localDay romeHost2024 noonApr1 - 1))
      /\ isExpiringSoon romeHost2024 noonApr1 (Some "2024-03-31") 7 = true).
Proof. vm_compute. repeat split; reflexivity. Qed.

(* ===================================================================== *)
(** ** adjustExpirationForFrozen and adjustExpirationForOpened            *)
(* ===================================================================== *)

Section Adjust.

Lemma dateOnly_newDate h s y m d :
  dateOnly s = Some (y, m, d) ->
  s <> "" /\ newDate h s = Some (utcMidnight (MakeDay y (m - 1) d))
  /\ Z.abs (MakeDay y (m - 1) d) <= 3000000.
Proof.
  intros H. pose proof (dateOnly_parseISO _ _ _ _ H) as Hp.
  apply dateFields_inv in H as (Hy & Hm & Hd & _ & _).
  assert (Hb : Z.abs (MakeDay y (m - 1) d) <= 3000000).
  { pose proof (DaysInMonth_bounds y (m - 1) ltac:(lia)).
    apply MakeDay_four_digits; lia. }
  split; [eapply parseISO_nonempty, Hp|]. split; [|exact Hb].
  apply newDate_parseISO; [exact Hp|].
  unfold utcMidnight, MakeDate, msPerDay. lia.
Qed.

(** With the flag off, a well-formed date comes back as it was, whatever
    the host. *)
Lemma adjustExpiration_unchanged h s y m d :
  dateOnly s = Some (y, m, d) ->
  adjustExpirationForFrozen h s false = Normal s
  /\ adjustExpirationForOpened h s false = Normal s.
Proof.
  intros H. pose proof (dateOnly_newDate h s y m d H) as (Hs & Hn & _).
  pose proof (dateOnly_text _ _ _ _ H) as Ht.
  apply dateFields_inv in H as (Hy & Hm & Hd & _ & _).
  apply truthy_Some in Hs.
  assert (E : beforeT (isoString (utcMidnight (MakeDay y (m - 1) d))) = s).
  { fold (isoDate (utcMidnight (MakeDay y (m - 1) d))). rewrite isoDate_fields.
    unfold utcMidnight.
    destruct (fields_MakeDay y (m - 1) d 0 ltac:(lia) Hd ltac:(unfold msPerDay; lia))
      as (_ & -> & -> & ->).
    rewrite Ht. f_equal. lia. }
  unfold adjustExpirationForFrozen, adjustExpirationForOpened.
  rewrite Hs, Hn. cbn [negb toISOString]. rewrite E. split; reflexivity.
Qed.

(** At a constant offset, opening moves a well-formed date back by seven
    day numbers. *)
Lemma adjustExpirationForOpened_fixed off s y m d :
  - msPerDay < off < msPerDay -> dateOnly s = Some (y, m, d) ->
  adjustExpirationForOpened (fixedHost off) s true
  = Normal (isoDate (utcMidnight (MakeDay y (m - 1) d - 7))).
Proof.
  intros Hoff H.
  pose proof (dateOnly_newDate (fixedHost off) s y m d H) as (Hs & Hn & Hb).
  apply truthy_Some in Hs.
  unfold adjustExpirationForOpened. rewrite Hs, Hn. cbn [negb].
  set (e := MakeDay y (m - 1) d) in *.
  unfold setDate, getDate, option_map, LocalTime, UTC.
  cbn [LocalTZA fixedHost]. unfold fixedZone.
  replace (DateFromTime (utcMidnight e + off) - 7)
    with (DateFromTime (utcMidnight e + off) + - 7) by lia.
  rewrite MakeDay_shift, MakeDay_fields.
  assert (Et : MakeDate (Day (utcMidnight e + off) + - 7)
                 (TimeWithinDay (utcMidnight e + off)) - off
               = utcMidnight (e - 7)).
  { unfold MakeDate, Day, TimeWithinDay, utcMidnight, MakeDate, msPerDay. div_lia. }
  rewrite Et, TimeClip_in_range
    by (unfold utcMidnight, MakeDate, msPerDay; lia).
  reflexivity.
Qed.

(** At a constant offset east of Greenwich (or none), freezing a
    well-formed date gives day [d] of the sixth month after, counted by
    [MakeDay]: a day the month does not have carries into the next month. *)
Lemma adjustExpirationForFrozen_east off s y m d :
  0 <= off < msPerDay -> dateOnly s = Some (y, m, d) ->
  adjustExpirationForFrozen (fixedHost off) s true
  = Normal (isoDate (utcMidnight (MakeDay y (m + 5) d))).
Proof.
  intros Hoff H.
  pose proof (dateOnly_newDate (fixedHost off) s y m d H) as (Hs & Hn & Hb).
  apply dateFields_inv in H as (Hy & Hm & Hd & _ & _).
  apply truthy_Some in Hs.
  unfold adjustExpirationForFrozen. rewrite Hs, Hn. cbn [negb].
  unfold setMonth, getMonth, option_map, LocalTime, UTC.
  cbn [LocalTZA fixedHost]. unfold fixedZone.
  assert (El : utcMidnight (MakeDay y (m - 1) d) + off
               = MakeDate (MakeDay y (m - 1) d) off)
    by (unfold utcMidnight, MakeDate; lia).
  rewrite El.
  destruct (fields_MakeDay y (m - 1) d off ltac:(lia) Hd Hoff)
    as (Eday & -> & -> & ->).
  replace (m - 1 + 6) with (m + 5) by lia.
  assert (Et : MakeDate (MakeDay y (m + 5) d)
                 (TimeWithinDay (MakeDate (MakeDay y (m - 1) d) off)) - off
               = utcMidnight (MakeDay y (m + 5) d)).
  { unfold MakeDate, TimeWithinDay, utcMidnight, MakeDate, msPerDay in *. div_lia. }
  rewrite Et.
  assert (Hb' : Z.abs (MakeDay y (m + 5) d) <= 3000000).
  { pose proof (DaysInMonth_bounds y (m - 1) ltac:(lia)).
    apply MakeDay_four_digits; lia. }
  rewrite TimeClip_in_range by (unfold utcMidnight, MakeDate, msPerDay; lia).
  reflexivity.
Qed.

(** ... which is the same day six months later whenever that month has
    the day. *)
Lemma adjustExpirationForFrozen_six_months off s y m d :
  0 <= off < msPerDay -> dateOnly s = Some (y, m, d) ->
  d <= DaysInMonth (y + (m + 5) / 12) ((m + 5) mod 12) ->
  adjustExpirationForFrozen (fixedHost off) s true
  = Normal (formatDate (y + (m + 5) / 12) ((m + 5) mod 12 + 1) d).
Proof.
  intros Hoff H Hd'. rewrite (adjustExpirationForFrozen_east off s y m d Hoff H).
  apply dateFields_inv in H as (Hy & Hm & Hd & _ & _).
  f_equal. rewrite isoDate_fields.
  assert (E : MakeDay y (m + 5) d
              = MakeDay (y + (m + 5) / 12) ((m + 5) mod 12) d).
  { unfold MakeDay.
    replace ((m + 5) mod 12 / 12) with 0 by div_lia.
    replace ((m + 5) mod 12 mod 12) with ((m + 5) mod 12) by div_lia.
    rewrite Z.add_0_r. reflexivity. }
  unfold utcMidnight. rewrite E.
  destruct (fields_MakeDay (y + (m + 5) / 12) ((m + 5) mod 12) d 0
              ltac:(div_lia) ltac:(lia) ltac:(unfold msPerDay; lia))
    as (_ & -> & -> & ->).
  reflexivity.
Qed.

End Adjust.

(** C3.  In Bogota (UTC-5), freezing "2024-01-01" gives "2024-07-02"; in
    Rome it gives "2024-06-30"; in UTC it gives "2024-07-01", and freezing
    "2024-08-31" there gives "2025-03-03". *)
Theorem adjustExpirationForFrozen_zones :
  adjustExpirationForFrozen bogotaHost "2024-01-01" true = Normal "2024-07-02"
  /\ adjustExpirationForFrozen romeHost2024 "2024-01-01" true = Normal "2024-06-30"
  /\ adjustExpirationForFrozen utcHost "2024-01-01" true = Normal "2024-07-01"
  /\ adjustExpirationForFrozen utcHost "2024-08-31" true = Normal "2025-03-03".
Proof. vm_compute. repeat split; reflexivity. Qed.

(** C8.  In Rome, where daylight saving ended on 27 October 2024, opening
    an item that expires on "2024-11-01" gives "2024-10-24", eight days
    earlier; opening "2024-01-08" gives "2024-01-01". *)
Theorem adjustExpirationForOpened_rome :
  adjustExpirationForOpened romeHost2024 "2024-11-01" true = Normal "2024-10-24"
  /\ adjustExpirationForOpened romeHost2024 "2024-01-08" true = Normal "2024-01-01".
Proof. vm_compute. repeat split; reflexivity. Qed.

(* ===================================================================== *)
(** ** formatDateDisplay                                                  *)
(* ===================================================================== *)

Section Split.
Variable sep : ascii.

Lemma split_nonempty s : StringOps.split sep s <> [].
Proof.
  destruct s as [|c r]; cbn; [discriminate|].
  destruct (Ascii.eqb c sep); [discriminate|].
  destruct (StringOps.split sep r); discriminate.
Qed.

(** Joining the pieces with the separator gives the text back. *)
Lemma concat_split s :
  String.concat (String sep "") (StringOps.split sep s) = s.
Proof.
  induction s as [|c r IH]; [reflexivity|].
  cbn [StringOps.split]. destruct (Ascii.eqb_spec c sep) as [->|Hc].
  - pose proof (split_nonempty r) as Hne.
    destruct (StringOps.split sep r) as [|p ps] eqn:E; [contradiction|].
    cbn [String.concat] in *. rewrite IH. reflexivity.
  - pose proof (split_nonempty r) as Hne.
    destruct (StringOps.split sep r) as [|p ps] eqn:E; [contradiction|].
    cbn [String.concat] in *. destruct ps as [|q qs].
    + rewrite IH. reflexivity.
    + change (String c (p ++ String sep "" ++ String.concat (String sep "") (q :: qs))
              = String c r)%string.
      rewrite IH. reflexivity.
Qed.

(** No piece contains the separator. *)
Lemma split_pieces s :
  Forall (fun p => StringOps.split sep p = [p]) (StringOps.split sep s).
Proof.
  induction s as [|c r IH]; [repeat constructor|].
  cbn [StringOps.split]. destruct (Ascii.eqb c sep) eqn:Hc.
  - constructor; [reflexivity | exact IH].
  - destruct (StringOps.split sep r) as [|p ps]; [repeat constructor; cbn; rewrite Hc; reflexivity|].
    inversion IH as [|? ? Hp Hps]; subst. constructor; [|exact Hps].
    cbn [StringOps.split]. rewrite Hc, Hp. reflexivity.
Qed.

Lemma split_app a r :
  StringOps.split sep a = [a] ->
  StringOps.split sep (a ++ String sep r)%string = a :: StringOps.split sep r.
Proof.
  induction a as [|c a IH]; intros Ha.
  - change ("" ++ String sep r)%string with (String sep r).
    cbn [StringOps.split]. rewrite Ascii.eqb_refl. reflexivity.
  - change (String c a ++ String sep r)%string
      with (String c (a ++ String sep r)%string).
    cbn [StringOps.split] in *. destruct (Ascii.eqb c sep); [discriminate|].
    pose proof (split_nonempty a) as Hne.
    destruct (StringOps.split sep a) as [|p ps] eqn:E; [contradiction|].
    injection Ha as -> ->. rewrite IH by reflexivity. reflexivity.
Qed.

End Split.

(** X1.  [formatDateDisplay] undoes itself: displaying the displayed text
    gives the original text back, for every string. *)
Theorem formatDateDisplay_involutive :
  forall s, formatDateDisplay (formatDateDisplay s) = s.
Proof.
  intros s. unfold formatDateDisplay at 2.
  destruct (truthy (Some s)) eqn:Hs; cbn [negb].
  2:{ destruct s; [reflexivity | discriminate]. }
  pose proof (concat_split "-" s) as Hj.
  pose proof (split_pieces "-" s) as Hp.
  destruct (StringOps.split "-" s) as [|p0 [|p1 [|p2 [|p3 ps]]]] eqn:E;
    try (unfold formatDateDisplay; rewrite Hs, E; reflexivity).
  pose proof (Forall_inv Hp) as H0. apply Forall_inv_tail in Hp.
  pose proof (Forall_inv Hp) as H1. apply Forall_inv_tail in Hp.
  pose proof (Forall_inv Hp) as H2. cbv beta in H0, H1, H2.
  assert (Hsplit : StringOps.split "-" (p2 ++ "-" ++ p1 ++ "-" ++ p0)%string
                   = [p2; p1; p0]).
  { change (p2 ++ "-" ++ p1 ++ "-" ++ p0)%string
      with (p2 ++ String "-" (p1 ++ String "-" p0))%string.
    rewrite split_app by exact H2. rewrite split_app by exact H1.
    rewrite H0. reflexivity. }
  unfold formatDateDisplay. rewrite Hsplit.
  assert (Hne : truthy (Some (p2 ++ "-" ++ p1 ++ "-" ++ p0)%string) = true).
  { apply truthy_Some. intros Hempty. rewrite Hempty in Hsplit. discriminate. }
  rewrite Hne. cbn [negb]. cbn [String.concat] in Hj. exact Hj.
Qed.

Lemma digitChar_not_dash d : 0 <= d <= 9 -> Ascii.eqb (digitChar d) "-" = false.
Proof.
  intros H. apply digit_cases in H.
  repeat (destruct H as [-> | H]); try subst d; reflexivity.
Qed.

Lemma split_padDigits w : forall n acc,
  StringOps.split "-" acc = [acc] ->
  StringOps.split "-" (padDigits w n acc) = [padDigits w n acc].
Proof.
  induction w as [|w IH]; intros n acc H; [exact H|].
  cbn [padDigits]. apply IH. cbn [StringOps.split].
  rewrite digitChar_not_dash by div_lia. rewrite H. reflexivity.
Qed.

Lemma split_pad w n : StringOps.split "-" (pad w n) = [pad w n].
Proof. apply split_padDigits. reflexivity. Qed.

(** X2.  For a well-formed date [YYYY-MM-DD], [formatDateDisplay] gives
    the day, the month and the year in that order, [DD-MM-YYYY]. *)
Theorem formatDateDisplay_date :
  forall s y m d,
    dateOnly s = Some (y, m, d) ->
    formatDateDisplay s = (pad 2 d ++ "-" ++ pad 2 m ++ "-" ++ pad 4 y)%string.
Proof.
  intros s y m d H. pose proof (dateOnly_text _ _ _ _ H) as Ht.
  pose proof (dateOnly_parseISO _ _ _ _ H) as Hp.
  apply parseISO_nonempty, truthy_Some in Hp.
  apply dateFields_inv in H as (Hy & _ & _ & _ & _).
  unfold formatDateDisplay. rewrite Hp. cbn [negb].
  assert (Hs : StringOps.split "-" s = [pad 4 y; pad 2 m; pad 2 d]).
  { rewrite Ht. unfold formatDate, yearString.
    replace ((0 <=? y) && (y <=? 9999)) with true
      by (symmetry; apply andb_true_iff; split; lia).
    change (pad 4 y ++ "-" ++ pad 2 m ++ "-" ++ pad 2 d)%string
      with (pad 4 y ++ String "-" (pad 2 m ++ String "-" (pad 2 d)))%string.
    rewrite split_app by apply split_pad. rewrite split_app by apply split_pad.
    rewrite split_pad. reflexivity. }
  rewrite Hs. reflexivity.
Qed.

Lemma formatDateDisplay_date_witness : formatDateDisplay "2024-01-31" = "31-01-2024".
Proof.
  exact (formatDateDisplay_date "2024-01-31" 2024 1 31 ltac:(vm_compute; reflexivity)).
Defined.

(* ===================================================================== *)
(** ** Sorting and the most-recent view                                   *)
(* ===================================================================== *)

Section StableSort.
Context {A : Type}.
Variable key : A -> Z.
Variable cmp : A -> A -> option Z.
(** The elements the comparator orders by [key], largest first. *)
Variable dom : A -> Prop.
Hypothesis cmp_key : forall a b, dom a -> dom b -> cmp a b = Some (key b - key a).

Local Abbreviation descending := (descending key).
Local Abbreviation keyed := (keyed key).

Lemma sortInsert_perm x l : Permutation (StringOps.sortInsert cmp x l) (x :: l).
Proof.
  induction l as [|y l IH]; [reflexivity|].
  cbn [StringOps.sortInsert]. destruct (StringOps.comesAfter (cmp x y)); [|reflexivity].
  rewrite IH. apply perm_swap.
Qed.

Lemma sort_perm l : Permutation (StringOps.sort cmp l) l.
Proof.
  induction l as [|x l IH]; [reflexivity|].
  unfold StringOps.sort in *. cbn [fold_right].
  rewrite sortInsert_perm, IH. reflexivity.
Qed.

Lemma sortInsert_descending x l :
  dom x -> Forall dom l -> descending l ->
  descending (StringOps.sortInsert cmp x l).
Proof.
  intros Hx Hl Hs. induction Hs as [|y l Hs IH Hy].
  - repeat constructor.
  - apply Forall_cons_iff in Hl as [Hdy Hl].
    cbn [StringOps.sortInsert]. rewrite (cmp_key x y Hx Hdy).
    cbn [StringOps.comesAfter]. destruct (Z.ltb_spec 0 (key y - key x)).
    + constructor; [exact (IH Hl)|].
      eapply Permutation_Forall; [symmetry; apply sortInsert_perm|].
      constructor; [lia | exact Hy].
    + constructor; [constructor; assumption|].
      constructor; [lia|]. eapply List.Forall_impl; [|exact Hy].
      intros z Hz. cbv beta in *. lia.
Qed.

Lemma sortInsert_keyed n x l :
  dom x -> Forall dom l ->
  keyed n (StringOps.sortInsert cmp x l) = keyed n (x :: l).
Proof.
  intros Hx Hl. induction l as [|y l IH]; [reflexivity|].
  apply Forall_cons_iff in Hl as [Hdy Hl].
  cbn [StringOps.sortInsert]. rewrite (cmp_key x y Hx Hdy).
  cbn [StringOps.comesAfter]. destruct (Z.ltb_spec 0 (key y - key x)); [|reflexivity].
  unfold keyed in *. cbn [List.filter]. rewrite (IH Hl). cbn [List.filter].
  destruct (Z.eqb_spec (key x) n), (Z.eqb_spec (key y) n); try reflexivity; lia.
Qed.

Lemma sort_dom l : Forall dom l -> Forall dom (StringOps.sort cmp l).
Proof. intros H. eapply Permutation_Forall; [symmetry; apply sort_perm | exact H]. Qed.

Lemma sort_descending l : Forall dom l -> descending (StringOps.sort cmp l).
Proof.
  induction l as [|x l IH]; intros H; [constructor|].
  apply Forall_cons_iff in H as [Hx Hl].
  unfold StringOps.sort in *. cbn [fold_right].
  apply sortInsert_descending; [exact Hx | apply (sort_dom l Hl) | exact (IH Hl)].
Qed.

Lemma sort_keyed n l : Forall dom l -> keyed n (StringOps.sort cmp l) = keyed n l.
Proof.
  induction l as [|x l IH]; intros H; [reflexivity|].
  apply Forall_cons_iff in H as [Hx Hl].
  unfold StringOps.sort in *. cbn [fold_right].
  rewrite sortInsert_keyed by (trivial; apply (sort_dom l Hl)).
  unfold keyed in *. cbn [List.filter]. rewrite (IH Hl). reflexivity.
Qed.

(** Two lists in descending order that list the elements of each key in
    the same order are the same list: a stable sort has one result. *)
Lemma sorted_stable_unique l1 : forall l2,
  descending l1 -> descending l2 ->
  (forall n, keyed n l1 = keyed n l2) -> l1 = l2.
Proof.
  induction l1 as [|x l1 IH]; intros l2 H1 H2 Hk.
  - destruct l2 as [|y l2]; [reflexivity|].
    specialize (Hk (key y)). unfold keyed in Hk. cbn in Hk.
    rewrite Z.eqb_refl in Hk. discriminate Hk.
  - destruct l2 as [|y l2].
    { specialize (Hk (key x)). unfold keyed in Hk. cbn in Hk.
      rewrite Z.eqb_refl in Hk. discriminate Hk. }
    apply StronglySorted_inv in H1 as [H1 Hx], H2 as [H2 Hy].
    assert (Hin : forall (a : A) (l l' : list A),
               keyed (key a) (a :: l) = keyed (key a) l' -> In a l').
    { intros a l l' E. unfold keyed in E. cbn [List.filter] in E.
      rewrite Z.eqb_refl in E.
      assert (Ha : In a (List.filter (fun z => key z =? key a) l'))
        by (rewrite <- E; left; reflexivity).
      apply List.filter_In in Ha as [Ha _]. exact Ha. }
    assert (Hxy : key x = key y).
    { pose proof (Hin x l1 (y :: l2) (Hk (key x))) as [<- | Hx2]; [reflexivity|].
      pose proof (Hin y l2 (x :: l1) (eq_sym (Hk (key y)))) as [<- | Hy1];
        [reflexivity|].
      rewrite List.Forall_forall in Hx, Hy.
      pose proof (Hx _ Hy1). pose proof (Hy _ Hx2). lia. }
    pose proof (Hk (key x)) as Hkx. unfold keyed in Hkx. cbn [List.filter] in Hkx.
    rewrite Z.eqb_refl in Hkx. rewrite Hxy, Z.eqb_refl in Hkx.
    injection Hkx as <- Hkx. f_equal. apply IH; trivial.
    intros n. specialize (Hk n). unfold keyed in *. cbn [List.filter] in Hk.
    destruct (key x =? n); [injection Hk as Hk|]; exact Hk.
Qed.

End StableSort.

Lemma byIdDescending_key a b :
  numericId a -> numericId b ->
  byIdDescending a b = Some (idNumber b - idNumber a).
Proof.
  intros (n & Hn & _) (k & Hk & _). unfold byIdDescending, idNumber.
  rewrite Hn, Hk. reflexivity.
Qed.

Lemma getMostRecentIngredients_sorted_aux :
  forall C : list Ingredient,
    Forall numericId C ->
    Permutation (getMostRecentIngredients C) C
    /\ descending idNumber (getMostRecentIngredients C)
    /\ (forall n, keyed idNumber n (getMostRecentIngredients C) = keyed idNumber n C)
    /\ (forall l, descending idNumber l ->
                  (forall n, keyed idNumber n l = keyed idNumber n C) ->
                  l = getMostRecentIngredients C).
Proof.
  intros C HC. unfold getMostRecentIngredients.
  pose proof (sort_descending idNumber byIdDescending numericId
                byIdDescending_key C HC) as Hd.
  pose proof (fun n => sort_keyed idNumber byIdDescending numericId
                         byIdDescending_key n C HC) as Hk.
  split; [apply sort_perm|]. split; [exact Hd|]. split; [exact Hk|].
  intros l Hl Hkl. apply (sorted_stable_unique idNumber); trivial.
  intros n. rewrite Hkl, Hk. reflexivity.
Qed.

(** X3.  When every id reads as a number, the most-recent view is the
    collection rearranged newest id first, records with equal id numbers
    staying in their original order; it is the only arrangement with these
    two properties. *)
Theorem getMostRecentIngredients_sorted :
  forall C : list Ingredient,
    Forall numericId C ->
    Permutation (getMostRecentIngredients C) C
    /\ descending idNumber (getMostRecentIngredients C)
    /\ (forall n, keyed idNumber n (getMostRecentIngredients C) = keyed idNumber n C)
    /\ (forall l, descending idNumber l ->
                  (forall n, keyed idNumber n l = keyed idNumber n C) ->
                  l = getMostRecentIngredients C).
Proof. exact getMostRecentIngredients_sorted_aux. Qed.

Lemma numericId_sample k n exp :
  StringOps.parseInt k = Some n -> Z.abs n < 2 ^ 53 ->
  numericId (sampleIngredient k exp).
Proof. intros H1 H2. exists n. split; assumption. Qed.

Lemma getMostRecentIngredients_sorted_witness :
  getMostRecentIngredients
    [sampleIngredient "1700000000001" None; sampleIngredient "1700000000003" None;
     sampleIngredient "1700000000002" None]
  = [sampleIngredient "1700000000003" None; sampleIngredient "1700000000002" None;
     sampleIngredient "1700000000001" None].
Proof.
  symmetry.
  refine (proj2 (proj2 (proj2 (getMostRecentIngredients_sorted _ _))) _ _ _).
  - repeat constructor;
      (eexists; split; [vm_compute; reflexivity | vm_compute; reflexivity]).
  - repeat constructor; vm_compute; discriminate.
  - intros n. unfold keyed. cbn [List.filter].
    change (idNumber (sampleIngredient "1700000000001" None)) with 1700000000001.
    change (idNumber (sampleIngredient "1700000000002" None)) with 1700000000002.
    change (idNumber (sampleIngredient "1700000000003" None)) with 1700000000003.
    destruct (Z.eqb_spec 1700000000001 n), (Z.eqb_spec 1700000000002 n),
      (Z.eqb_spec 1700000000003 n); try reflexivity; lia.
Defined.

(** X4.  Whatever the ids are, the most-recent view holds exactly the
    records of the collection, each as often as the collection does; in
    particular it has the same length. *)
Theorem getMostRecentIngredients_permutation :
  forall C : list Ingredient,
    Permutation (getMostRecentIngredients C) C
    /\ length (getMostRecentIngredients C) = length C.
Proof.
  intros C. pose proof (sort_perm byIdDescending C) as H.
  split; [exact H | apply Permutation_length, H].
Qed.

Lemma keyed_NoDup (C : list Ingredient) n :
  NoDup (List.map idNumber C) -> (length (keyed idNumber n C) <= 1)%nat.
Proof.
  unfold keyed. induction C as [|x C IH]; intros Hnd; [cbn; lia|].
  cbn [List.map] in Hnd. apply NoDup_cons in Hnd as [Hx Hnd].
  cbn [List.filter]. destruct (Z.eqb_spec (idNumber x) n) as [E|E]; [|exact (IH Hnd)].
  enough (List.filter (fun y => idNumber y =? n) C = []) as -> by (cbn; lia).
  destruct (List.filter (fun y => idNumber y =? n) C) as [|y l] eqn:Ef; [reflexivity|].
  exfalso. apply Hx. assert (Hy : In y (List.filter (fun y => idNumber y =? n) C))
    by (rewrite Ef; left; reflexivity).
  apply List.filter_In in Hy as [Hy Hn]. apply Z.eqb_eq in Hn.
  apply list_elem_of_In. rewrite E, <- Hn. apply in_map, Hy.
Qed.

Lemma filter_Permutation_bool {A} (f : A -> bool) (l l' : list A) :
  Permutation l l' -> Permutation (List.filter f l) (List.filter f l').
Proof.
  induction 1 as [|x l l' _ IH|x y l|l l' l'' _ IH1 _ IH2]; cbn [List.filter].
  - reflexivity.
  - destruct (f x); [constructor|]; exact IH.
  - destruct (f x), (f y); try reflexivity. apply perm_swap.
  - etransitivity; eassumption.
Qed.

(** X5.  When the ids read as numbers that are all different, the
    most-recent view does not depend on the order in which the collection
    is stored; and sorting a view again changes nothing. *)
Theorem getMostRecentIngredients_order_independent :
  (forall C C' : list Ingredient,
      Forall numericId C -> NoDup (List.map idNumber C) -> Permutation C C' ->
      getMostRecentIngredients C' = getMostRecentIngredients C)
  /\ (forall C : list Ingredient,
         Forall numericId C ->
         getMostRecentIngredients (getMostRecentIngredients C)
         = getMostRecentIngredients C).
Proof.
  split.
  - intros C C' HC Hnd Hp.
    assert (HC' : Forall numericId C') by (eapply Permutation_Forall; eassumption).
    destruct (getMostRecentIngredients_sorted_aux C HC) as (_ & _ & _ & Huniq).
    destruct (getMostRecentIngredients_sorted_aux C' HC') as (_ & Hd & Hk & _).
    apply Huniq; [exact Hd|]. intros n. rewrite Hk.
    pose proof (keyed_NoDup C n Hnd) as Hlen.
    pose proof (filter_Permutation_bool (fun x => idNumber x =? n) C C' Hp) as Hf.
    fold (keyed idNumber n C) in Hf. fold (keyed idNumber n C') in Hf.
    destruct (keyed idNumber n C) as [|a [|b l]].
    + apply Permutation_nil in Hf. exact Hf.
    + apply Permutation_length_1_inv in Hf. exact Hf.
    + cbn in Hlen. lia.
  - intros C HC.
    destruct (getMostRecentIngredients_sorted_aux C HC) as (Hp & Hd & Hk & _).
    assert (HC' : Forall numericId (getMostRecentIngredients C))
      by (eapply Permutation_Forall; [symmetry|]; eassumption).
    destruct (getMostRecentIngredients_sorted_aux _ HC') as (_ & _ & _ & Huniq).
    symmetry. apply Huniq; [exact Hd | reflexivity].
Qed.

Lemma getMostRecentIngredients_order_independent_witness :
  getMostRecentIngredients
    [sampleIngredient "2" None; sampleIngredient "1" None; sampleIngredient "3" None]
  = getMostRecentIngredients
      [sampleIngredient "1" None; sampleIngredient "2" None; sampleIngredient "3" None].
Proof.
  refine (proj1 getMostRecentIngredients_order_independent _ _ _ _ _).
  - repeat constructor;
      (eexists; split; [vm_compute; reflexivity | vm_compute; reflexivity]).
  - change (NoDup [1; 2; 3]). repeat (apply NoDup_cons; split);
      [ intros H; apply list_elem_of_In in H; cbn in H; lia
      | intros H; apply list_elem_of_In in H; cbn in H; lia
      | intros H; apply list_elem_of_In in H; cbn in H; lia
      | apply NoDup_nil; exact I ].
  - apply perm_swap.
Defined.

(* ===================================================================== *)
(** ** Ids under add, update and delete                                   *)
(* ===================================================================== *)

Lemma updateIngredient_ids (C : list Ingredient) u :
  List.map id (updateIngredient C u) = List.map id C.
Proof.
  unfold updateIngredient. induction C as [|x C IH]; [reflexivity|].
  cbn [List.map]. rewrite IH. f_equal.
  destruct (String.eqb_spec (id x) (id u)) as [E|E]; [symmetry; exact E | reflexivity].
Qed.

Lemma deleteIngredient_In (C : list Ingredient) k x :
  In x (deleteIngredient C k) <-> In x C /\ id x <> k.
Proof.
  unfold deleteIngredient. rewrite List.filter_In, negb_true_iff, String.eqb_neq.
  reflexivity.
Qed.

Lemma deleteIngredient_ids (C : list Ingredient) k :
  List.map id (deleteIngredient C k)
  = List.filter (fun j => negb (String.eqb j k)) (List.map id C).
Proof.
  unfold deleteIngredient. induction C as [|x C IH]; [reflexivity|].
  cbn [List.map List.filter]. destruct (negb (String.eqb (id x) k));
    cbn [List.map]; rewrite IH; reflexivity.
Qed.

Lemma NoDup_filter_bool {A} (f : A -> bool) (l : list A) :
  NoDup l -> NoDup (List.filter f l).
Proof.
  intros H. apply NoDup_ListNoDup. apply List.NoDup_filter.
  apply NoDup_ListNoDup. exact H.
Qed.

(** X6.  Unique ids are kept: [updateIngredient] never changes the list
    of ids, [deleteIngredient] removes the id it is given and keeps the
    others distinct, and [addIngredient] keeps ids distinct exactly when the
    new id is not yet in the collection (it performs no check itself). *)
Theorem unique_ids_preserved :
  (forall C u, List.map id (updateIngredient C u) = List.map id C)
  /\ (forall C k, NoDup (List.map id C) ->
                  NoDup (List.map id (deleteIngredient C k))
                  /\ ~ In k (List.map id (deleteIngredient C k)))
  /\ (forall C i, NoDup (List.map id C) ->
                  (NoDup (List.map id (addIngredient C i))
                   <-> ~ In (id i) (List.map id C))).
Proof.
  split; [exact updateIngredient_ids|]. split.
  - intros C k Hnd. rewrite deleteIngredient_ids. split.
    + apply NoDup_filter_bool, Hnd.
    + intros H. apply List.filter_In in H as [_ H].
      rewrite String.eqb_refl in H. discriminate H.
  - intros C i Hnd. unfold addIngredient. rewrite List.map_app. cbn [List.map].
    rewrite <- list_elem_of_In. split.
    + intros H. apply NoDup_app in H as (_ & H & _). intros Hin.
      apply (H _ Hin). left.
    + intros H. apply NoDup_app. split; [exact Hnd|]. split.
      * intros x Hx Hx'. apply list_elem_of_singleton in Hx'. subst x. exact (H Hx).
      * apply NoDup_singleton.
Qed.

Lemma unique_ids_preserved_witness :
  NoDup (List.map id (deleteIngredient
                        [sampleIngredient "1" None; sampleIngredient "2" None] "1"))
  /\ NoDup (List.map id (addIngredient [sampleIngredient "1" None]
                           (sampleIngredient "2" None))).
Proof.
  assert (H1 : NoDup (List.map id [sampleIngredient "1" None])).
  { cbn. apply NoDup_singleton. }
  assert (H2 : NoDup (List.map id [sampleIngredient "1" None; sampleIngredient "2" None])).
  { cbn. apply NoDup_cons. split; [|apply NoDup_singleton].
    intros H. apply list_elem_of_singleton in H. discriminate H. }
  destruct unique_ids_preserved as (_ & Hdel & Hadd). split.
  - exact (proj1 (Hdel _ "1" H2)).
  - apply (Hadd _ _ H1). cbn. intros [H | []]. discriminate H.
Defined.

Lemma updateIngredient_all_matching_aux :
  forall (C : list Ingredient) (u x : Ingredient),
    In x (updateIngredient C u) <->
    (x = u /\ exists y, In y C /\ id y = id u) \/ (In x C /\ id x <> id u).
Proof.
  intros C u x. unfold updateIngredient. rewrite List.in_map_iff. split.
  - intros (y & Hy & Hin). destruct (String.eqb_spec (id y) (id u)) as [E|E].
    + left. split; [symmetry; exact Hy | eauto].
    + right. subst x. split; assumption.
  - intros [[-> (y & Hin & E)] | [Hin E]].
    + exists y. apply String.eqb_eq in E. rewrite E. split; [reflexivity | exact Hin].
    + exists x. apply String.eqb_neq in E. rewrite E. split; [reflexivity | exact Hin].
Qed.

(** X7.  [updateIngredient] keeps the length and works position by
    position: a record that carries the id of the update is replaced by the
    updated record, wherever it stands and however many there are (with
    colliding ids all of them, not only the first), and a record with
    another id stays as and where it was.  Hence the records of the result
    are the update, if some record had its id, and the records with another
    id. *)
Theorem updateIngredient_all_matching :
  forall (C : list Ingredient) (u : Ingredient),
    length (updateIngredient C u) = length C
    /\ (forall (p : nat) (x : Ingredient),
           C !! p = Some x ->
           (id x = id u -> updateIngredient C u !! p = Some u)
           /\ (id x <> id u -> updateIngredient C u !! p = Some x))
    /\ (forall x : Ingredient,
           In x (updateIngredient C u) <->
           (x = u /\ exists y, In y C /\ id y = id u)
           \/ (In x C /\ id x <> id u)).
Proof.
  intros C u. split; [|split].
  - unfold updateIngredient. apply List.length_map.
  - induction C as [|y C IH]; intros p x Hp; [discriminate Hp|].
    change (updateIngredient (y :: C) u)
      with ((if String.eqb (id y) (id u) then u else y) :: updateIngredient C u).
    destruct p as [|p]; cbn in Hp.
    + injection Hp as ->. cbn. split; intros E.
      * apply String.eqb_eq in E. rewrite E. reflexivity.
      * apply String.eqb_neq in E. rewrite E. reflexivity.
    + exact (IH p x Hp).
  - intros x. apply updateIngredient_all_matching_aux.
Qed.

Lemma updateIngredient_all_matching_witness :
  updateIngredient
    [sampleIngredient "2" None; sampleIngredient "1" None;
     sampleIngredient "1" (Some "2024-01-01")]
    (sampleIngredient "1" (Some "2024-02-02")) !! 2%nat
  = Some (sampleIngredient "1" (Some "2024-02-02"))
  /\ updateIngredient
       [sampleIngredient "2" None; sampleIngredient "1" None;
        sampleIngredient "1" (Some "2024-01-01")]
       (sampleIngredient "1" (Some "2024-02-02")) !! 0%nat
     = Some (sampleIngredient "2" None).
Proof.
  destruct (updateIngredient_all_matching
              [sampleIngredient "2" None; sampleIngredient "1" None;
               sampleIngredient "1" (Some "2024-01-01")]
              (sampleIngredient "1" (Some "2024-02-02"))) as (_ & Hpos & _).
  split.
  - apply (proj1 (Hpos 2%nat (sampleIngredient "1" (Some "2024-01-01")) eq_refl)).
    reflexivity.
  - apply (proj2 (Hpos 0%nat (sampleIngredient "2" None) eq_refl)).
    discriminate.
Defined.

(** X8.  [deleteIngredient] keeps exactly the records with another id, in
    their order; doing it twice is the same as once, and deletions of two
    ids can be done in either order. *)
Theorem deleteIngredient_properties :
  (forall C k x, In x (deleteIngredient C k) <-> In x C /\ id x <> k)
  /\ (forall C k, deleteIngredient (deleteIngredient C k) k = deleteIngredient C k)
  /\ (forall C k k', deleteIngredient (deleteIngredient C k) k'
                     = deleteIngredient (deleteIngredient C k') k)
  /\ (forall C k, (length (deleteIngredient C k) <= length C)%nat).
Proof.
  split; [exact deleteIngredient_In|]. split.
  - intros C k. apply deleteIngredient_absent. intros x Hx.
    apply deleteIngredient_In in Hx as [_ Hx]. exact Hx.
  - split.
    + intros C k k'. unfold deleteIngredient.
      induction C as [|x C IH]; [reflexivity|]. cbn [List.filter].
      destruct (negb (String.eqb (id x) k)) eqn:E1,
        (negb (String.eqb (id x) k')) eqn:E2; cbn [List.filter];
        rewrite ?E1, ?E2, IH; reflexivity.
    + intros C k. unfold deleteIngredient. apply List.filter_length_le.
Qed.

(** X9.  Adding a record with a new id and then updating it is the same
    as adding the updated record in the first place. *)
Theorem update_after_add :
  forall (C : list Ingredient) (i i' : Ingredient),
    ~ In (id i) (List.map id C) -> id i' = id i ->
    updateIngredient (addIngredient C i) i' = addIngredient C i'.
Proof.
  intros C i i' Hfresh Hid. unfold addIngredient, updateIngredient.
  rewrite List.map_app. cbn [List.map]. rewrite Hid, String.eqb_refl. f_equal.
  rewrite <- Hid. apply updateIngredient_absent. intros x Hx E.
  apply Hfresh. rewrite <- Hid, <- E. apply in_map, Hx.
Qed.

Lemma update_after_add_witness :
  updateIngredient
    (addIngredient [sampleIngredient "1" None] (sampleIngredient "2" None))
    (sampleIngredient "2" (Some "2024-01-01"))
  = addIngredient [sampleIngredient "1" None] (sampleIngredient "2" (Some "2024-01-01")).
Proof.
  apply update_after_add; [|reflexivity].
  cbn. intros [H | []]. discriminate H.
Defined.

(* ===================================================================== *)
(** ** The useIngredients hook                                            *)
(* ===================================================================== *)

Lemma hook_save_utils i st :
  name i <> "" ->
  UseIngredients.ingredients (UseIngredients.saveIngredient i st)
  = match UseIngredients.editingIngredient st with
    | Some _ => updateIngredient (UseIngredients.ingredients st) i
    | None => addIngredient (UseIngredients.ingredients st) i
    end.
Proof.
  intros Hn. apply truthy_Some in Hn. unfold UseIngredients.saveIngredient.
  rewrite Hn. cbn. destruct (UseIngredients.editingIngredient st); reflexivity.
Qed.

(** X10.  While a record is being edited, saving a named ingredient whose
    id no record has stores nothing: the list stays as it was, the
    ingredient is not in it, and the editing state is cleared.  (The
    scanner's [onAddIngredient] is this [saveIngredient].) *)
Theorem saveIngredient_lost_while_editing :
  forall (i e : Ingredient) (st : UseIngredients.State),
    name i <> "" ->
    UseIngredients.editingIngredient st = Some e ->
    (forall x, In x (UseIngredients.ingredients st) -> id x <> id i) ->
    UseIngredients.ingredients (UseIngredients.saveIngredient i st)
    = UseIngredients.ingredients st
    /\ ~ In i (UseIngredients.ingredients (UseIngredients.saveIngredient i st))
    /\ UseIngredients.editingIngredient (UseIngredients.saveIngredient i st) = None.
Proof.
  intros i e st Hn He Hfresh.
  assert (E : UseIngredients.ingredients (UseIngredients.saveIngredient i st)
              = UseIngredients.ingredients st).
  { rewrite hook_save_utils, He by exact Hn.
    apply updateIngredient_absent, Hfresh. }
  split; [exact E|]. split.
  - rewrite E. intros Hin. exact (Hfresh i Hin eq_refl).
  - unfold UseIngredients.saveIngredient. apply truthy_Some in Hn.
    rewrite Hn. reflexivity.
Qed.

Lemma saveIngredient_lost_while_editing_witness :
  UseIngredients.ingredients
    (UseIngredients.saveIngredient (sampleIngredient "2" None)
       (UseIngredients.startEditing (sampleIngredient "1" None)
          {| UseIngredients.ingredients := [sampleIngredient "1" None];
             UseIngredients.editingIngredient := None;
             UseIngredients.isLoading := false |}))
  = [sampleIngredient "1" None].
Proof.
  refine (proj1 (saveIngredient_lost_while_editing (sampleIngredient "2" None)
                   (sampleIngredient "1" None) _ _ _ _)).
  - discriminate.
  - reflexivity.
  - intros x [<- | []]. discriminate.
Defined.

(** X11.  The name check guards the list: an ingredient without a name
    leaves the state exactly as it was, and if every record of the list has
    a name before [saveIngredient] or [deleteIngredient], every record has
    one afterwards. *)
Theorem hook_names_nonempty :
  (forall i st, name i = "" -> UseIngredients.saveIngredient i st = st)
  /\ (forall i st,
         Forall (fun x => name x <> "") (UseIngredients.ingredients st) ->
         Forall (fun x => name x <> "")
           (UseIngredients.ingredients (UseIngredients.saveIngredient i st)))
  /\ (forall k st,
         Forall (fun x => name x <> "") (UseIngredients.ingredients st) ->
         Forall (fun x => name x <> "")
           (UseIngredients.ingredients (UseIngredients.deleteIngredient k st))).
Proof.
  split; [|split].
  - intros i st Hn. unfold UseIngredients.saveIngredient. rewrite Hn. reflexivity.
  - intros i st Hall. destruct (String.eqb_spec (name i) "") as [Hn|Hn].
    + unfold UseIngredients.saveIngredient. rewrite Hn. exact Hall.
    + rewrite hook_save_utils by exact Hn.
      apply List.Forall_forall. intros x Hx. rewrite List.Forall_forall in Hall.
      destruct (UseIngredients.editingIngredient st).
      * apply updateIngredient_all_matching_aux in Hx as [[-> _] | [Hx _]];
          [exact Hn | exact (Hall x Hx)].
      * apply in_app_or in Hx as [Hx | [<- | []]]; [exact (Hall x Hx) | exact Hn].
  - intros k st Hall. apply List.Forall_forall. intros x Hx.
    rewrite List.Forall_forall in Hall. cbn in Hx.
    apply List.filter_In in Hx as [Hx _]. exact (Hall x Hx).
Qed.

Lemma hook_names_nonempty_witness :
  Forall (fun x => name x <> "")
    (UseIngredients.ingredients
       (UseIngredients.saveIngredient (sampleIngredient "2" None)
          {| UseIngredients.ingredients := [sampleIngredient "1" None];
             UseIngredients.editingIngredient := None;
             UseIngredients.isLoading := false |})).
Proof.
  apply (proj1 (proj2 hook_names_nonempty)).
  cbn. repeat constructor. discriminate.
Defined.

(** X12.  The edit round: after [startEditing] a record of a list with
    unique ids, saving a named record with the same id puts it at the
    position of the old one, keeps the length and the ids, and leaves the
    editing state cleared. *)
Theorem hook_edit_round :
  forall (st : UseIngredients.State) (p : nat) (e i : Ingredient),
    NoDup (List.map id (UseIngredients.ingredients st)) ->
    UseIngredients.ingredients st !! p = Some e ->
    id i = id e -> name i <> "" ->
    let st' := UseIngredients.saveIngredient i (UseIngredients.startEditing e st) in
    UseIngredients.ingredients st' = <[p := i]> (UseIngredients.ingredients st)
    /\ List.map id (UseIngredients.ingredients st')
       = List.map id (UseIngredients.ingredients st)
    /\ UseIngredients.editingIngredient st' = None.
Proof.
  intros st p e i Hnd Hp Hid Hn st'.
  assert (E : UseIngredients.ingredients st'
              = updateIngredient (UseIngredients.ingredients st) i).
  { unfold st'. rewrite hook_save_utils by exact Hn. reflexivity. }
  split; [|split].
  - rewrite E. exact (updateIngredient_at _ p e i Hnd Hp Hid).
  - rewrite E. apply updateIngredient_ids.
  - unfold st', UseIngredients.saveIngredient. apply truthy_Some in Hn.
    rewrite Hn. reflexivity.
Qed.

Lemma hook_edit_round_witness :
  UseIngredients.ingredients
    (UseIngredients.saveIngredient (sampleIngredient "1" (Some "2024-01-01"))
       (UseIngredients.startEditing (sampleIngredient "1" None)
          {| UseIngredients.ingredients := [sampleIngredient "1" None];
             UseIngredients.editingIngredient := None;
             UseIngredients.isLoading := false |}))
  = [sampleIngredient "1" (Some "2024-01-01")].
Proof.
  refine (proj1 (hook_edit_round
                   {| UseIngredients.ingredients := [sampleIngredient "1" None];
                      UseIngredients.editingIngredient := None;
                      UseIngredients.isLoading := false |}
                   0%nat (sampleIngredient "1" None)
                   (sampleIngredient "1" (Some "2024-01-01")) _ _ _ _)).
  - cbn. apply NoDup_singleton.
  - reflexivity.
  - reflexivity.
  - discriminate.
Defined.

(** X13.  A confirmed reset never rejects.  When the removal is rejected,
    the state in memory stays as it was; when the removal is not rejected,
    the list in memory becomes empty, the rest of the state is kept, and
    the storage slot is gone. *)
Theorem resetConfirmed_outcomes :
  forall (st : UseIngredients.State) (b : Backend),
    exists st' b',
      UseIngredients.resetConfirmed st b = (Resolved st', b')
      /\ ((exists rest, faults b = true :: rest) -> st' = st)
      /\ ((forall rest, faults b <> true :: rest) ->
          UseIngredients.ingredients st' = []
          /\ UseIngredients.editingIngredient st' = UseIngredients.editingIngredient st
          /\ UseIngredients.isLoading st' = UseIngredients.isLoading st
          /\ slots b' = delete INGREDIENTS_STORAGE_KEY (slots b)
          /\ slots b' !! INGREDIENTS_STORAGE_KEY = None).
Proof.
  intros st b.
  unfold UseIngredients.resetConfirmed, clearAllIngredients, tryCatch, await,
    removeItem, nativeCall, resolve.
  destruct (faults b) as [|[|] rest] eqn:Ef; cbn.
  - eexists _, _. split; [reflexivity|]. split.
    + intros (r & Hr). discriminate Hr.
    + intros _. cbn. repeat split. apply lookup_delete_eq.
  - eexists _, _. split; [reflexivity|]. split.
    + intros _. reflexivity.
    + intros Hno. exfalso. exact (Hno rest eq_refl).
  - eexists _, _. split; [reflexivity|]. split.
    + intros (r & Hr). discriminate Hr.
    + intros _. cbn. repeat split. apply lookup_delete_eq.
Qed.

Lemma resetConfirmed_outcomes_witness :
  (UseIngredients.resetConfirmed
     {| UseIngredients.ingredients := [sampleIngredient "1" None];
        UseIngredients.editingIngredient := None;
        UseIngredients.isLoading := false |}
     {| slots := slots sampleBackend; faults := [true] |}).1
  = Resolved {| UseIngredients.ingredients := [sampleIngredient "1" None];
                UseIngredients.editingIngredient := None;
                UseIngredients.isLoading := false |}
  /\ (UseIngredients.resetConfirmed
        {| UseIngredients.ingredients := [sampleIngredient "1" None];
           UseIngredients.editingIngredient := None;
           UseIngredients.isLoading := false |}
        sampleBackend).1
     = Resolved {| UseIngredients.ingredients := [];
                   UseIngredients.editingIngredient := None;
                   UseIngredients.isLoading := false |}.
Proof.
  split.
  - destruct (resetConfirmed_outcomes
                {| UseIngredients.ingredients := [sampleIngredient "1" None];
                   UseIngredients.editingIngredient := None;
                   UseIngredients.isLoading := false |}
                {| slots := slots sampleBackend; faults := [true] |})
      as (st' & b' & E & Hrej & _).
    rewrite E. cbn [fst]. f_equal. apply Hrej. exists []. reflexivity.
  - destruct (resetConfirmed_outcomes
                {| UseIngredients.ingredients := [sampleIngredient "1" None];
                   UseIngredients.editingIngredient := None;
                   UseIngredients.isLoading := false |}
                sampleBackend)
      as (st' & b' & E & _ & Hok).
    rewrite E. cbn [fst]. f_equal.
    destruct (Hok ltac:(intros rest H; discriminate H)) as (H1 & H2 & H3 & _).
    destruct st' as [l e ld]. cbn in H1, H2, H3. subst. reflexivity.
Defined.

(* ===================================================================== *)
(** ** Saving, loading and deleting in the store                          *)
(* ===================================================================== *)

Section StoreRoundTrip.
Variable JSON_parse : string -> option (list Ingredient).
Variable JSON_stringify : list Ingredient -> string.

Lemma saveIngredients_outcome c b :
  (exists rest, faults b = true :: rest
                /\ saveIngredients JSON_stringify c b
                   = (Resolved false, {| slots := slots b; faults := rest |}))
  \/ (saveIngredients JSON_stringify c b
      = (Resolved true,
         {| slots := <[INGREDIENTS_STORAGE_KEY := JSON_stringify c]> (slots b);
            faults := tl (faults b) |})
      /\ hd false (faults b) = false).
Proof.
  unfold saveIngredients, tryCatch, await, setItem, nativeCall, resolve.
  destruct b as [sl [|[|] rest]]; cbn.
  - right. split; reflexivity.
  - left. eexists. split; reflexivity.
  - right. split; reflexivity.
Qed.

Lemma loadIngredients_stored b s c :
  hd false (faults b) = false ->
  slots b !! INGREDIENTS_STORAGE_KEY = Some s -> s <> "" ->
  JSON_parse s = Some c ->
  (loadIngredients JSON_parse b).1 = Resolved c.
Proof.
  intros Hf Hs Hne Hp. apply truthy_Some in Hne.
  unfold loadIngredients, tryCatch, await, getItem, nativeCall, resolve.
  destruct b as [sl [|[|] rest]]; cbn in *; try discriminate;
    rewrite Hs; cbn [truthy]; cbn [truthy] in Hne; rewrite Hne, Hp; reflexivity.
Qed.

End StoreRoundTrip.

(** X14.  Save then load: when [saveIngredients] resolves to [true] and
    the next read is not rejected, [loadIngredients] gives back the saved
    collection, provided [JSON.parse] reads back what [JSON.stringify]
    wrote for it (which is never the empty text). *)
Theorem save_load_roundtrip :
  forall (JSON_parse : string -> option (list Ingredient))
         (JSON_stringify : list Ingredient -> string)
         (c : list Ingredient) (b b' : Backend),
    JSON_parse (JSON_stringify c) = Some c -> JSON_stringify c <> "" ->
    saveIngredients JSON_stringify c b = (Resolved true, b') ->
    hd false (faults b') = false ->
    (loadIngredients JSON_parse b').1 = Resolved c.
Proof.
  intros parse stringify c b b' Hrt Hne Hsave Hf.
  destruct (saveIngredients_outcome stringify c b) as [(rest & _ & E) | [E _]];
    rewrite E in Hsave; [discriminate Hsave|].
  injection Hsave as <-.
  eapply loadIngredients_stored; [exact Hf | | exact Hne | exact Hrt].
  cbn. apply lookup_insert_eq.
Qed.

Lemma save_load_roundtrip_witness :
  (loadIngredients sampleParse
     (saveIngredients sampleStringify
        [sampleIngredient "1" None; sampleIngredient "2" None] emptyBackend).2).1
  = Resolved [sampleIngredient "1" None; sampleIngredient "2" None].
Proof.
  apply (save_load_roundtrip sampleParse sampleStringify
           [sampleIngredient "1" None; sampleIngredient "2" None] emptyBackend);
    [reflexivity | discriminate | reflexivity | reflexivity].
Defined.

(** X15.  [saveIngredients] never rejects, and its result tells what
    happened: it is [false] exactly when the write was rejected, and when
    it is [true] the slot holds the text of the collection given. *)
Theorem saveIngredients_result :
  forall (JSON_stringify : list Ingredient -> string)
         (c : list Ingredient) (b : Backend),
    exists ok b',
      saveIngredients JSON_stringify c b = (Resolved ok, b')
      /\ (ok = false <-> exists rest, faults b = true :: rest)
      /\ (ok = true ->
          slots b' !! INGREDIENTS_STORAGE_KEY = Some (JSON_stringify c)).
Proof.
  intros stringify c b.
  destruct (saveIngredients_outcome stringify c b) as [(rest & Hf & E) | [E Hf]];
    rewrite E; eexists _, _; (split; [reflexivity|]); split.
  - split; [eauto | reflexivity].
  - discriminate.
  - split; [discriminate|]. intros (rest & Hr). rewrite Hr in Hf. discriminate Hf.
  - intros _. cbn. apply lookup_insert_eq.
Qed.

(** X16.  [deleteIngredientFromStorage] always resolves to the list
    without the id, also when the write is rejected; its [catch] branch,
    which would return the list as it was, is never taken. *)
Theorem deleteIngredientFromStorage_result :
  forall (JSON_stringify : list Ingredient -> string)
         (k : string) (current : list Ingredient) (b : Backend),
    (deleteIngredientFromStorage JSON_stringify k current b).1
    = Resolved (deleteIngredient current k).
Proof.
  intros stringify k current b.
  unfold deleteIngredientFromStorage, tryCatch, await.
  fold (deleteIngredient current k).
  destruct (saveIngredients_outcome stringify (deleteIngredient current k) b)
    as [(rest & _ & E) | [E _]]; rewrite E; reflexivity.
Qed.

(* ===================================================================== *)
(** ** The scanner's product mapping                                      *)
(* ===================================================================== *)

Section Scanner.
Variable toLowerCase : string -> string.

Lemma mapProductCategory_options text :
  In (UseCamera.mapProductCategory toLowerCase text) UseCamera.CATEGORY_OPTIONS.
Proof.
  unfold UseCamera.mapProductCategory, UseCamera.CATEGORY_OPTIONS.
  destruct text as [t|]; [|cbn; tauto].
  destruct (negb (truthy (Some t))); [cbn; tauto|]. cbv zeta.
  repeat match goal with
         | |- In (if ?c then _ else _) _ => destruct c
         end; cbn; tauto.
Qed.

Lemma mapProductPackaging_options text :
  In (UseCamera.mapProductPackaging toLowerCase text) UseCamera.CONFECTION_OPTIONS.
Proof.
  unfold UseCamera.mapProductPackaging, UseCamera.CONFECTION_OPTIONS.
  destruct text as [t|]; [|cbn; tauto].
  destruct (negb (truthy (Some t))); [cbn; tauto|]. cbv zeta.
  repeat match goal with
         | |- In (if ?c then _ else _) _ => destruct c
         end; cbn; tauto.
Qed.

End Scanner.

(** X17.  Whatever product text comes in (absent, empty or any string) and
    however it is lower-cased, the scanner maps the category to one of the
    ten category options and the packaging to one of the seven confection
    options. *)
Theorem scanner_maps_into_options :
  forall (toLowerCase : string -> string) (text : option string),
    In (UseCamera.mapProductCategory toLowerCase text) UseCamera.CATEGORY_OPTIONS
    /\ In (UseCamera.mapProductPackaging toLowerCase text)
         UseCamera.CONFECTION_OPTIONS.
Proof.
  intros. split; [apply mapProductCategory_options | apply mapProductPackaging_options].
Qed.

Lemma orElse_option x d (opts : list string) :
  In x opts -> In d opts -> In (UseCamera.orElse (Some x) d) opts.
Proof. intros Hx Hd. unfold UseCamera.orElse. destruct (truthy (Some x)); assumption. Qed.

Lemma orElse_nonempty a d : d <> "" -> UseCamera.orElse a d <> "".
Proof.
  intros Hd. unfold UseCamera.orElse. destruct a as [x|]; [|exact Hd].
  destruct (truthy (Some x)) eqn:E; [apply truthy_Some, E | exact Hd].
Qed.

(** X18.  The ingredient the scanner builds always has a name, a category,
    a location and a confection from the option lists, no expiration and no
    ripeness stamp.  So it always shows in the missing-data view, and never
    in the expiring-soon view or the ripeness-check view, whatever the host,
    the time and the thresholds. *)
Theorem scannedIngredient_views :
  forall (toLowerCase : string -> string) (newId : string)
         (product : UseCamera.Product),
    let i := UseCamera.scannedIngredient toLowerCase newId product in
    name i <> ""
    /\ (exists c, category i = Some c /\ In c UseCamera.CATEGORY_OPTIONS)
    /\ (exists l, location i = Some l /\ In l UseCamera.LOCATION_OPTIONS)
    /\ (exists c, confection i = Some c /\ In c UseCamera.CONFECTION_OPTIONS)
    /\ (forall C, In i C -> In i (getIngredientsWithMissingData C))
    /\ (forall h now C th, ~ In i (getExpiringSoonIngredients h now C th))
    /\ (forall h now C th, ~ In i (getIngredientsNeedingRipenessCheck h now C th)).
Proof.
  intros lower newId product i. split; [|split; [|split; [|split; [|split; [|split]]]]].
  - apply orElse_nonempty. discriminate.
  - eexists. split; [reflexivity|].
    apply orElse_option; [apply mapProductCategory_options | cbn; tauto].
  - eexists. split; [reflexivity|]. cbn. tauto.
  - eexists. split; [reflexivity|].
    apply orElse_option; [apply mapProductPackaging_options | cbn; tauto].
  - intros C Hin. unfold getIngredientsWithMissingData.
    apply List.filter_In. split; [exact Hin|].
    cbn. rewrite !orb_true_r. reflexivity.
  - intros h now C th Hin. unfold getExpiringSoonIngredients in Hin.
    apply List.filter_In in Hin as [_ Hin]. cbn in Hin. discriminate Hin.
  - intros h now C th Hin. unfold getIngredientsNeedingRipenessCheck in Hin.
    apply List.filter_In in Hin as [_ Hin]. cbn in Hin. discriminate Hin.
Qed.

Lemma scannedIngredient_views_witness :
  In (UseCamera.scannedIngredient UseCamera.asciiLower "1700000000000" sampleProduct)
    (getIngredientsWithMissingData
       [UseCamera.scannedIngredient UseCamera.asciiLower "1700000000000"
          sampleProduct])
  /\ category (UseCamera.scannedIngredient UseCamera.asciiLower "1700000000000"
                 sampleProduct) = Some "Liquid".
Proof.
  destruct (scannedIngredient_views UseCamera.asciiLower "1700000000000" sampleProduct)
    as (_ & _ & _ & _ & Hmissing & _).
  split; [apply Hmissing; left; reflexivity | reflexivity].
Defined.

(* ===================================================================== *)
(** ** Dates that do not parse, the time of day, the passing of days      *)
(* ===================================================================== *)

(** X19.  A non-empty date text that [new Date] cannot read is never
    expiring soon and never needs a ripeness check, its day count is NaN,
    and both adjust functions throw a RangeError on it, whatever the flag. *)
Theorem unreadable_date :
  forall (h : Host) (now : Z) (s : string),
    s <> "" -> newDate h s = None ->
    getDaysUntilExpiration h now (Some s) = NaN
    /\ (forall th, isExpiringSoon h now (Some s) th = false)
    /\ (forall th, needsRipenessCheck h now (Some s) th = false)
    /\ (forall flag, adjustExpirationForFrozen h s flag = ThrowRangeError)
    /\ (forall flag, adjustExpirationForOpened h s flag = ThrowRangeError).
Proof.
  intros h now s Hs Hp. apply truthy_Some in Hs.
  assert (Hd : getDaysUntilExpiration h now (Some s) = NaN).
  { unfold getDaysUntilExpiration. rewrite Hs, Hp.
    destruct (setHours0 h (Some now)); reflexivity. }
  split; [exact Hd|]. split; [|split; [|split]].
  - intros th. unfold isExpiringSoon. rewrite Hs, Hd. reflexivity.
  - intros th. unfold needsRipenessCheck, ripenessDiffDays. rewrite Hs, Hp.
    destruct (setHours0 h (Some now)); reflexivity.
  - intros flag. unfold adjustExpirationForFrozen. rewrite Hs, Hp.
    destruct flag; reflexivity.
  - intros flag. unfold adjustExpirationForOpened. rewrite Hs, Hp.
    destruct flag; reflexivity.
Qed.

Lemma unreadable_date_witness :
  adjustExpirationForFrozen utcHost "next week" false = ThrowRangeError
  /\ isExpiringSoon utcHost noonJan10 (Some "next week") 7 = false.
Proof.
  destruct (unreadable_date utcHost noonJan10 "next week"
              ltac:(discriminate) ltac:(reflexivity))
    as (_ & Hsoon & _ & Hfrozen & _).
  split; [apply Hfrozen | apply Hsoon].
Defined.

Lemma setHours0_same_day h now1 now2 :
  ordinaryZone h -> ordinaryTime now1 -> ordinaryTime now2 ->
  localDay h now1 = localDay h now2 ->
  setHours0 h (Some now1) = setHours0 h (Some now2).
Proof.
  intros Hz H1 H2 Hd. unfold ordinaryTime in *.
  rewrite !setHours0_value by (trivial; unfold msPerDay; lia).
  rewrite Hd. reflexivity.
Qed.

(** X20.  Only the local calendar day of the clock matters: at two
    instants of the same local day the day count, [isExpiringSoon],
    [needsRipenessCheck] and the two views that depend on time give the same
    results. *)
Theorem same_day_same_results :
  forall (h : Host) (now1 now2 : Z),
    ordinaryZone h -> ordinaryTime now1 -> ordinaryTime now2 ->
    localDay h now1 = localDay h now2 ->
    (forall exp, getDaysUntilExpiration h now1 exp = getDaysUntilExpiration h now2 exp)
    /\ (forall exp th, isExpiringSoon h now1 exp th = isExpiringSoon h now2 exp th)
    /\ (forall lu th, needsRipenessCheck h now1 lu th = needsRipenessCheck h now2 lu th)
    /\ (forall C th, getExpiringSoonIngredients h now1 C th
                     = getExpiringSoonIngredients h now2 C th)
    /\ (forall C th, getIngredientsNeedingRipenessCheck h now1 C th
                     = getIngredientsNeedingRipenessCheck h now2 C th).
Proof.
  intros h now1 now2 Hz H1 H2 Hd.
  pose proof (setHours0_same_day h now1 now2 Hz H1 H2 Hd) as Hm.
  assert (Hdays : forall exp,
             getDaysUntilExpiration h now1 exp = getDaysUntilExpiration h now2 exp).
  { intros exp. unfold getDaysUntilExpiration. rewrite Hm. reflexivity. }
  assert (Hsoon : forall exp th,
             isExpiringSoon h now1 exp th = isExpiringSoon h now2 exp th).
  { intros exp th. unfold isExpiringSoon. rewrite Hdays. reflexivity. }
  assert (Hripe : forall lu th,
             needsRipenessCheck h now1 lu th = needsRipenessCheck h now2 lu th).
  { intros lu th. unfold needsRipenessCheck, ripenessDiffDays. rewrite Hm.
    reflexivity. }
  split; [exact Hdays|]. split; [exact Hsoon|]. split; [exact Hripe|]. split.
  - intros C th. unfold getExpiringSoonIngredients. apply List.filter_ext.
    intros x. unfold expiringSoonPredicate. rewrite Hsoon. reflexivity.
  - intros C th. unfold getIngredientsNeedingRipenessCheck. apply List.filter_ext.
    intros x. apply Hripe.
Qed.

Lemma same_day_same_results_witness :
  getDaysUntilExpiration utcHost noonJan10 (Some "2024-01-20")
  = getDaysUntilExpiration utcHost (noonJan10 + 3600000) (Some "2024-01-20").
Proof.
  refine (proj1 (same_day_same_results utcHost noonJan10 (noonJan10 + 3600000)
                   _ _ _ _) _).
  - intros ? ?; cbn; unfold fixedZone, msPerDay; lia.
  - unfold ordinaryTime, noonJan10; lia.
  - unfold ordinaryTime, noonJan10; lia.
  - vm_compute; reflexivity.
Defined.

(** X21.  On any host whose zone is at a constant offset from UTC,
    whatever texts its [Date.parse] reads, the day count goes down by one
    with each day that passes: if it is the number [n] now, then [k] days
    later it is [n - k]. *)
Theorem days_count_down :
  forall (h : Host) (off now k : Z) (s : string) (n : Z),
    (forall t b, LocalTZA h t b = off) ->
    - msPerDay < off < msPerDay ->
    ordinaryTime now -> ordinaryTime (now + k * msPerDay) ->
    getDaysUntilExpiration h now (Some s) = Num n ->
    getDaysUntilExpiration h (now + k * msPerDay) (Some s) = Num (n - k).
Proof.
  intros h off now k s n Hconst Hoff H1 H2 Hn. unfold ordinaryTime in *.
  assert (Hz : ordinaryZone h) by (intros t b; rewrite Hconst; exact Hoff).
  unfold getDaysUntilExpiration in *.
  destruct (truthy (Some s)); [|discriminate Hn].
  rewrite (setHours0_value _ now) in Hn by (trivial; unfold msPerDay; lia).
  rewrite (setHours0_value _ (now + k * msPerDay))
    by (trivial; unfold msPerDay in *; lia).
  destruct (setHours0 h (newDate h s)) as [te|]; [|discriminate Hn].
  cbn [getTime JS.sub ceilDays] in *. injection Hn as <-. f_equal.
  rewrite !Hconst.
  assert (E : localDay h (now + k * msPerDay) = localDay h now + k).
  { unfold localDay, LocalTime, Day. rewrite !Hconst. unfold msPerDay. div_lia. }
  rewrite E. change (1000 * 60 * 60 * 24) with 86400000.
  unfold ceilDiv, msPerDay. div_lia.
Qed.

Lemma days_count_down_witness :
  getDaysUntilExpiration lenientHost (noonJan10 + 2 * msPerDay)
    (Some "2024-01-20T10:00:00Z") = Num 8.
Proof.
  apply (days_count_down lenientHost 0 noonJan10 2 "2024-01-20T10:00:00Z" 10).
  - intros t b. reflexivity.
  - unfold msPerDay; lia.
  - unfold ordinaryTime, noonJan10; lia.
  - unfold ordinaryTime, noonJan10, msPerDay; lia.
  - vm_compute; reflexivity.
Defined.

(* ===================================================================== *)
(** ** Thresholds                                                         *)
(* ===================================================================== *)

Lemma isExpiringSoon_mono h now exp th1 th2 :
  th1 <= th2 -> isExpiringSoon h now exp th1 = true ->
  isExpiringSoon h now exp th2 = true.
Proof.
  intros Hle H. apply isExpiringSoon_iff in H as (s & n & Hs & Hne & Hd & Hn).
  apply isExpiringSoon_iff. exists s, n. repeat split; trivial; lia.
Qed.

Lemma needsRipenessCheck_anti h now lu th1 th2 :
  th1 <= th2 -> needsRipenessCheck h now lu (Some th2) = true ->
  needsRipenessCheck h now lu (Some th1) = true.
Proof.
  intros Hle H. apply needsRipenessCheck_iff in H as (s & tl & tn & Hs & Hne & Hl & Hn & Hgt).
  apply needsRipenessCheck_iff. exists s, tl, tn. repeat split; trivial.
  cbv beta iota in *. lia.
Qed.

(** X22.  A wider expiring-soon window only adds records: what is in the
    expiring-soon view for a threshold is in it for every larger one, and
    with a negative threshold no date counts as expiring soon.  The
    ripeness-check view goes the other way: what needs a check for a
    threshold needs it for every smaller one. *)
Theorem thresholds_monotone :
  (forall h now C th1 th2 x,
      th1 <= th2 ->
      In x (getExpiringSoonIngredients h now C th1) ->
      In x (getExpiringSoonIngredients h now C th2))
  /\ (forall h now exp th, th < 0 -> isExpiringSoon h now exp th = false)
  /\ (forall h now C th1 th2 x,
         th1 <= th2 ->
         In x (getIngredientsNeedingRipenessCheck h now C (Some th2)) ->
         In x (getIngredientsNeedingRipenessCheck h now C (Some th1))).
Proof.
  split; [|split].
  - intros h now C th1 th2 x Hle Hin. unfold getExpiringSoonIngredients in *.
    apply List.filter_In in Hin as [Hin Hp]. apply List.filter_In.
    split; [exact Hin|].
    apply expiringSoonPredicate_policy in Hp. apply expiringSoonPredicate_policy.
    destruct Hp as [Hp | (Hs & Hsoon & _)]; [left; exact Hp|].
    right. pose proof (isExpiringSoon_mono h now _ th1 th2 Hle Hsoon) as Hs2.
    split; [exact Hs|]. split; [exact Hs2 | right; exact Hs2].
  - intros h now exp th Hneg. apply not_true_is_false. intros H.
    apply isExpiringSoon_iff in H as (s & n & _ & _ & _ & Hn). lia.
  - intros h now C th1 th2 x Hle Hin.
    unfold getIngredientsNeedingRipenessCheck in *.
    apply List.filter_In in Hin as [Hin Hp]. apply List.filter_In.
    split; [exact Hin|]. exact (needsRipenessCheck_anti h now _ th1 th2 Hle Hp).
Qed.

Lemma thresholds_monotone_witness :
  In (sampleIngredient "1" (Some "2024-01-13"))
    (getExpiringSoonIngredients utcHost noonJan10
       [sampleIngredient "1" (Some "2024-01-13")] 30).
Proof.
  apply (proj1 thresholds_monotone utcHost noonJan10 _ 7 30); [lia|].
  vm_compute. left. reflexivity.
Defined.

(* ===================================================================== *)
(** ** Reading back what toISOString wrote                                *)
(* ===================================================================== *)

Section IsoRoundTrip.

Lemma digitOf_digitChar d : 0 <= d <= 9 -> digitOf (digitChar d) = Some d.
Proof.
  intros H. apply digit_cases in H.
  repeat (destruct H as [-> | H]); try subst d; reflexivity.
Qed.

Lemma pad2_chars n :
  pad 2 n = String (digitChar (n / 10 mod 10)) (String (digitChar (n mod 10)) "").
Proof. reflexivity. Qed.

Lemma pad3_chars n :
  pad 3 n = String (digitChar (n / 10 / 10 mod 10))
              (String (digitChar (n / 10 mod 10)) (String (digitChar (n mod 10)) "")).
Proof. reflexivity. Qed.

Lemma pad4_chars n :
  pad 4 n = String (digitChar (n / 10 / 10 / 10 mod 10))
              (String (digitChar (n / 10 / 10 mod 10))
                 (String (digitChar (n / 10 mod 10))
                    (String (digitChar (n mod 10)) ""))).
Proof. reflexivity. Qed.

Lemma number2_pad n :
  0 <= n <= 99 ->
  number [digitChar (n / 10 mod 10); digitChar (n mod 10)] = Some n.
Proof.
  intros H. unfold number. cbn [numberFrom].
  rewrite !digitOf_digitChar by div_lia. f_equal. div_lia.
Qed.

Lemma number3_pad n :
  0 <= n <= 999 ->
  number [digitChar (n / 10 / 10 mod 10); digitChar (n / 10 mod 10);
          digitChar (n mod 10)] = Some n.
Proof.
  intros H. unfold number. cbn [numberFrom].
  rewrite !digitOf_digitChar by div_lia. f_equal. div_lia.
Qed.

Lemma number4_pad n :
  0 <= n <= 9999 ->
  number [digitChar (n / 10 / 10 / 10 mod 10); digitChar (n / 10 / 10 mod 10);
          digitChar (n / 10 mod 10); digitChar (n mod 10)] = Some n.
Proof.
  intros H. unfold number. cbn [numberFrom].
  rewrite !digitOf_digitChar by div_lia. f_equal. div_lia.
Qed.

(** The text of a date and a time of day reads back as that date and
    time. *)
Lemma parseISO_text y mo d h mi sec ms :
  0 <= y <= 9999 -> 1 <= mo <= 12 -> 1 <= d <= DaysInMonth y (mo - 1) ->
  0 <= h <= 23 -> 0 <= mi <= 59 -> 0 <= sec <= 59 -> 0 <= ms <= 999 ->
  parseISO (formatDate y mo d ++ "T" ++ pad 2 h ++ ":" ++ pad 2 mi ++ ":"
            ++ pad 2 sec ++ "." ++ pad 3 ms ++ "Z")%string
  = Some (MakeDate (MakeDay y (mo - 1) d) (MakeTime h mi sec ms))
  /\ dateOnly (formatDate y mo d) = Some (y, mo, d).
Proof.
  intros Hy Hmo Hd Hh Hmi Hsec Hms.
  assert (Hdate : dateFields
            [digitChar (y / 10 / 10 / 10 mod 10); digitChar (y / 10 / 10 mod 10);
             digitChar (y / 10 mod 10); digitChar (y mod 10); "-"%char;
             digitChar (mo / 10 mod 10); digitChar (mo mod 10); "-"%char;
             digitChar (d / 10 mod 10); digitChar (d mod 10)]
          = Some (y, mo, d)).
  { unfold dateFields. rewrite Ascii.eqb_refl. cbn [andb].
    rewrite number4_pad by exact Hy.
    rewrite !number2_pad by (pose proof (DaysInMonth_bounds y (mo - 1)); lia).
    replace ((1 <=? mo) && (mo <=? 12) && (1 <=? d) && (d <=? DaysInMonth y (mo - 1)))
      with true; [reflexivity|].
    symmetry. rewrite !andb_true_iff. repeat split; lia. }
  assert (Htime : timeFields
            ["T"%char; digitChar (h / 10 mod 10); digitChar (h mod 10); ":"%char;
             digitChar (mi / 10 mod 10); digitChar (mi mod 10); ":"%char;
             digitChar (sec / 10 mod 10); digitChar (sec mod 10); "."%char;
             digitChar (ms / 10 / 10 mod 10); digitChar (ms / 10 mod 10);
             digitChar (ms mod 10); "Z"%char]
          = Some (MakeTime h mi sec ms)).
  { unfold timeFields. rewrite !Ascii.eqb_refl. cbn [andb].
    rewrite !number2_pad, number3_pad by lia.
    replace ((h <=? 23) && (mi <=? 59) && (sec <=? 59)) with true; [reflexivity|].
    symmetry. rewrite !andb_true_iff. repeat split; lia. }
  unfold dateOnly, parseISO, formatDate, yearString.
  replace ((0 <=? y) && (y <=? 9999)) with true
    by (symmetry; apply andb_true_iff; split; lia).
  rewrite pad4_chars, !pad2_chars, pad3_chars.
  cbv [String.append list_ascii_of_string firstn skipn].
  rewrite Hdate, Htime. split; reflexivity.
Qed.

Lemma time_fields_range t :
  0 <= HourFromTime t <= 23 /\ 0 <= MinFromTime t <= 59
  /\ 0 <= SecFromTime t <= 59 /\ 0 <= msFromTime t <= 999
  /\ MakeTime (HourFromTime t) (MinFromTime t) (SecFromTime t) (msFromTime t)
     = TimeWithinDay t.
Proof.
  unfold HourFromTime, MinFromTime, SecFromTime, msFromTime, MakeTime,
    TimeWithinDay, msPerHour, msPerMinute, msPerSecond, msPerDay.
  repeat split; div_lia.
Qed.

End IsoRoundTrip.

Lemma iso_round_trip_aux :
  forall (h : Host) (t : Z),
    0 <= YearFromTime t <= 9999 ->
    newDate h (isoString t) = Some t
    /\ dateOnly (isoDate t)
       = Some (YearFromTime t, MonthFromTime t + 1, DateFromTime t)
    /\ newDate h (isoDate t) = Some (utcMidnight (Day t)).
Proof.
  intros h t Hy.
  pose proof (MonthFromTime_range t) as Hm.
  pose proof (DateFromTime_range t) as Hd.
  destruct (time_fields_range t) as (Hh & Hmi & Hs & Hms & Htime).
  destruct (parseISO_text (YearFromTime t) (MonthFromTime t + 1) (DateFromTime t)
              (HourFromTime t) (MinFromTime t) (SecFromTime t) (msFromTime t)
              Hy ltac:(lia)
              ltac:(replace (MonthFromTime t + 1 - 1) with (MonthFromTime t) by lia;
                    exact Hd)
              Hh Hmi Hs Hms) as [Hfull Hdate].
  replace (MonthFromTime t + 1 - 1) with (MonthFromTime t) in Hfull by lia.
  rewrite MakeDay_fields, Htime in Hfull.
  assert (Et : MakeDate (Day t) (TimeWithinDay t) = t).
  { unfold MakeDate, Day, TimeWithinDay, msPerDay. div_lia. }
  rewrite Et in Hfull.
  assert (Hday : Z.abs (Day t) <= 3000000).
  { rewrite <- MakeDay_fields. apply MakeDay_four_digits; [exact Hy | lia |].
    pose proof (DaysInMonth_bounds (YearFromTime t) (MonthFromTime t) Hm). lia. }
  pose proof (Day_bounds t) as Hb.
  assert (Hiso : isoString t
                 = (formatDate (YearFromTime t) (MonthFromTime t + 1) (DateFromTime t)
                    ++ "T" ++ pad 2 (HourFromTime t) ++ ":" ++ pad 2 (MinFromTime t)
                    ++ ":" ++ pad 2 (SecFromTime t) ++ "." ++ pad 3 (msFromTime t)
                    ++ "Z")%string).
  { unfold isoString, formatDate. rewrite !append_assoc. reflexivity. }
  split; [|split].
  - apply newDate_parseISO; [rewrite Hiso; exact Hfull|].
    unfold msPerDay in Hb. lia.
  - rewrite isoDate_fields. exact Hdate.
  - apply newDate_parseISO.
    + rewrite (dateOnly_parseISO _ _ _ _ (eq_trans (f_equal dateOnly (isoDate_fields t)) Hdate)).
      replace (MonthFromTime t + 1 - 1) with (MonthFromTime t) by lia.
      rewrite MakeDay_fields. reflexivity.
    + unfold utcMidnight, MakeDate, msPerDay. lia.
Qed.

(** X23.  For an instant in the years 0 to 9999, reading back the text
    that [toISOString] writes gives the same instant; and its date part, the
    text the date picker stores as expiration, is a well-formed date that
    reads back as UTC midnight of the instant's UTC day. *)
Theorem iso_round_trip :
  forall (h : Host) (t : Z),
    0 <= YearFromTime t <= 9999 ->
    newDate h (isoString t) = Some t
    /\ dateOnly (isoDate t)
       = Some (YearFromTime t, MonthFromTime t + 1, DateFromTime t)
    /\ newDate h (isoDate t) = Some (utcMidnight (Day t)).
Proof. exact iso_round_trip_aux. Qed.

Lemma iso_round_trip_witness :
  newDate utcHost (isoString noonJan10) = Some noonJan10.
Proof.
  apply (iso_round_trip utcHost noonJan10). vm_compute. split; discriminate.
Defined.

(* ===================================================================== *)
(** ** Ripeness stamps made by the app                                    *)
(* ===================================================================== *)

Lemma isoString_nonempty t : isoString t <> "".
Proof.
  unfold isoString. destruct (yearString (YearFromTime t)); discriminate.
Qed.

Lemma four_digit_year_range t :
  0 <= YearFromTime t <= 9999 -> Z.abs t <= 3000001 * msPerDay.
Proof.
  intros Hy. pose proof (MonthFromTime_range t) as Hm.
  pose proof (DateFromTime_range t) as Hd.
  pose proof (DaysInMonth_bounds (YearFromTime t) (MonthFromTime t) Hm) as Hb.
  assert (Hday : Z.abs (Day t) <= 3000000).
  { rewrite <- MakeDay_fields. apply MakeDay_four_digits; [exact Hy | lia | lia]. }
  pose proof (Day_bounds t). unfold msPerDay in *. lia.
Qed.

Lemma stamp_needs_check_aux :
  forall (off now t0 : Z) (th : option Z),
    - msPerDay < off < msPerDay -> ordinaryTime now ->
    0 <= YearFromTime t0 <= 9999 ->
    (needsRipenessCheck (fixedHost off) now (Some (isoString t0)) th = true
     <-> match th with Some n => n | None => 3 end
         < localDay (fixedHost off) now - localDay (fixedHost off) t0).
Proof.
  intros off now t0 th Hoff Hn Hy. unfold ordinaryTime in Hn.
  pose proof (fixedHost_ordinary off Hoff) as Hz.
  destruct (iso_round_trip_aux (fixedHost off) t0 Hy) as (Hp & _ & _).
  pose proof (four_digit_year_range t0 Hy) as Ht.
  pose proof (isoString_nonempty t0) as Hne. apply truthy_Some in Hne.
  unfold needsRipenessCheck. rewrite Hne.
  rewrite (ripenessDiffDays_value _ now _ t0 Hz Hp)
    by (unfold msPerDay in *; lia).
  cbn [LocalTZA fixedHost]. unfold fixedZone.
  replace (localDay (fixedHost off) now * msPerDay - off
           - (localDay (fixedHost off) t0 * msPerDay - off))
    with ((localDay (fixedHost off) now - localDay (fixedHost off) t0) * 86400000)
    by (unfold msPerDay; lia).
  rewrite ceilDiv_exact. cbn [JS.gt]. apply Z.ltb_lt.
Qed.

(** X24.  At a constant offset from UTC, a stamp that the app wrote at the
    instant [t0] ([new Date().toISOString()]) needs a ripeness check at
    [now] exactly when the number of local calendar days from the day of
    [t0] to the day of [now] is more than the threshold, 3 when none is
    given. *)
Theorem stamp_needs_check :
  forall (off now t0 : Z) (th : option Z),
    - msPerDay < off < msPerDay -> ordinaryTime now ->
    0 <= YearFromTime t0 <= 9999 ->
    (needsRipenessCheck (fixedHost off) now (Some (isoString t0)) th = true
     <-> match th with Some n => n | None => 3 end
         < localDay (fixedHost off) now - localDay (fixedHost off) t0).
Proof. exact stamp_needs_check_aux. Qed.

Lemma stamp_needs_check_witness :
  needsRipenessCheck utcHost (noonJan10 + 4 * msPerDay) (Some (isoString noonJan10))
    None = true.
Proof.
  apply (stamp_needs_check 0 (noonJan10 + 4 * msPerDay) noonJan10 None).
  - unfold msPerDay; lia.
  - unfold ordinaryTime, noonJan10, msPerDay; lia.
  - vm_compute. split; discriminate.
  - vm_compute. reflexivity.
Defined.

(** X25.  The form saves nothing without a name and keeps the id of the
    record being edited.  Every record it saves carries a ripeness stamp:
    the form's own stamp when the form has one, and the instant of saving
    when no ripeness was ever chosen.  A record of the second kind, saved at
    [t0], is flagged for a ripeness check (default threshold) exactly from
    the fourth local day after [t0] on, at a constant offset from UTC. *)
Theorem form_save_stamp :
  (forall editing newId now f,
      AddIngredientScreen.handleSaveIngredient editing newId now f = None
      <-> AddIngredientScreen.name f = "")
  /\ (forall e newId now f i,
         AddIngredientScreen.handleSaveIngredient (Some e) newId now f = Some i ->
         id i = id e)
  /\ (forall editing newId now f i,
         AddIngredientScreen.handleSaveIngredient editing newId now f = Some i ->
         name i <> "" /\ truthy (lastRipenessUpdate i) = true)
  /\ (forall editing newId now f i stamp,
         AddIngredientScreen.lastRipenessUpdate f = Some stamp -> stamp <> "" ->
         AddIngredientScreen.handleSaveIngredient editing newId now f = Some i ->
         lastRipenessUpdate i = Some stamp)
  /\ (forall editing newId now f i,
         truthy (AddIngredientScreen.lastRipenessUpdate f) = false ->
         AddIngredientScreen.handleSaveIngredient editing newId now f = Some i ->
         lastRipenessUpdate i = Some (isoString now))
  /\ (forall off editing newId t0 later f i,
         - msPerDay < off < msPerDay -> ordinaryTime later ->
         0 <= YearFromTime t0 <= 9999 ->
         truthy (AddIngredientScreen.lastRipenessUpdate f) = false ->
         AddIngredientScreen.handleSaveIngredient editing newId t0 f = Some i ->
         (needsRipenessCheck (fixedHost off) later (lastRipenessUpdate i) None = true
          <-> 3 < localDay (fixedHost off) later - localDay (fixedHost off) t0)).
Proof.
  split; [|split; [|split; [|split; [|split]]]].
  - intros editing newId now f. unfold AddIngredientScreen.handleSaveIngredient.
    destruct (truthy (Some (AddIngredientScreen.name f))) eqn:E; cbn [negb].
    + apply truthy_Some in E. split; [discriminate | contradiction].
    + split; [|reflexivity]. intros _.
      destruct (String.eqb_spec (AddIngredientScreen.name f) "") as [H|H];
        [exact H|]. apply truthy_Some in H. congruence.
  - intros e newId now f i H. unfold AddIngredientScreen.handleSaveIngredient in H.
    destruct (negb (truthy (Some (AddIngredientScreen.name f)))); [discriminate|].
    injection H as <-. reflexivity.
  - intros editing newId now f i H.
    unfold AddIngredientScreen.handleSaveIngredient in H.
    destruct (truthy (Some (AddIngredientScreen.name f))) eqn:E; [|discriminate].
    cbn [negb] in H. injection H as <-. cbn [name lastRipenessUpdate].
    split; [apply truthy_Some, E|].
    destruct (truthy (AddIngredientScreen.lastRipenessUpdate f)) eqn:Es.
    + destruct (AddIngredientScreen.lastRipenessUpdate f) as [stamp|];
        [exact Es | discriminate Es].
    + apply truthy_Some, isoString_nonempty.
  - intros editing newId now f i stamp Hf Hne H.
    unfold AddIngredientScreen.handleSaveIngredient in H.
    destruct (negb (truthy (Some (AddIngredientScreen.name f)))); [discriminate|].
    injection H as <-. cbn [lastRipenessUpdate]. rewrite Hf.
    apply truthy_Some in Hne. rewrite Hne. reflexivity.
  - intros editing newId now f i Hs H.
    unfold AddIngredientScreen.handleSaveIngredient in H.
    destruct (negb (truthy (Some (AddIngredientScreen.name f)))); [discriminate|].
    injection H as <-. cbn [lastRipenessUpdate]. rewrite Hs. reflexivity.
  - intros off editing newId t0 later f i Hoff Hl Hy Hs H.
    unfold AddIngredientScreen.handleSaveIngredient in H.
    destruct (negb (truthy (Some (AddIngredientScreen.name f)))); [discriminate|].
    injection H as <-. cbn [lastRipenessUpdate]. rewrite Hs.
    exact (stamp_needs_check_aux off later t0 None Hoff Hl Hy).
Qed.

Lemma form_save_stamp_witness :
  (exists i,
      AddIngredientScreen.handleSaveIngredient None "1704906000000" noonJan10 sampleForm
      = Some i
      /\ needsRipenessCheck utcHost (noonJan10 + 4 * msPerDay) (lastRipenessUpdate i)
           None = true)
  /\ (exists i,
         AddIngredientScreen.handleSaveIngredient None "1704906000000" noonJan10
           stampedForm = Some i
         /\ lastRipenessUpdate i = Some "2024-01-02T08:00:00.000Z").
Proof.
  destruct form_save_stamp as (_ & _ & _ & Hkeep & _ & Hstamp). split.
  - eexists. split; [reflexivity|].
    apply (Hstamp 0 None "1704906000000" noonJan10 (noonJan10 + 4 * msPerDay)
             sampleForm _).
    + unfold msPerDay; lia.
    + unfold ordinaryTime, noonJan10, msPerDay; lia.
    + vm_compute. split; discriminate.
    + reflexivity.
    + reflexivity.
    + vm_compute. reflexivity.
  - eexists. split; [reflexivity|].
    apply (Hkeep None "1704906000000" noonJan10 stampedForm _
             "2024-01-02T08:00:00.000Z"); [reflexivity | discriminate | reflexivity].
Defined.

(* ===================================================================== *)
(** ** The expiring-soon view, the frozen flag and the clock              *)
(* ===================================================================== *)

Lemma isExpiringSoon_same_day h now1 now2 exp th :
  ordinaryZone h -> ordinaryTime now1 -> ordinaryTime now2 ->
  localDay h now1 = localDay h now2 ->
  isExpiringSoon h now1 exp th = isExpiringSoon h now2 exp th.
Proof.
  intros Hz H1 H2 Hd. unfold isExpiringSoon, getDaysUntilExpiration.
  rewrite (setHours0_same_day h now1 now2 Hz H1 H2 Hd). reflexivity.
Qed.

(** The number of clock reads of one run of the callback: two for a frozen
    record with an expiration, one for an unfrozen record with an
    expiration, none without an expiration. *)
Lemma expiringSoonPredicateClocked_reads h th item clock n :
  (expiringSoonPredicateClocked h th item clock n).2
  = if truthy (expiration item)
    then if isFrozen item then S (S n) else S n
    else n.
Proof.
  unfold expiringSoonPredicateClocked, isExpiringSoonClocked, Clock.bind,
    Clock.ret, Clock.newDateNow.
  destruct (isFrozen item), (truthy (expiration item)); reflexivity.
Qed.

Lemma expiringSoonPredicateClocked_same_day h clock now th item n :
  ordinaryZone h -> ordinaryTime now ->
  (forall k, ordinaryTime (clock k)) ->
  (forall k, localDay h (clock k) = localDay h now) ->
  (expiringSoonPredicateClocked h th item clock n).1
  = simplifiedPredicate h now th item.
Proof.
  intros Hz Hn Hc Hd.
  assert (E : forall k, isExpiringSoon h (clock k) (expiration item) th
                        = isExpiringSoon h now (expiration item) th).
  { intros k. apply isExpiringSoon_same_day; auto. }
  unfold expiringSoonPredicateClocked, isExpiringSoonClocked, simplifiedPredicate,
    Clock.bind, Clock.ret, Clock.newDateNow.
  destruct (isFrozen item), (truthy (expiration item)); cbn; rewrite ?E;
    destruct (isExpiringSoon h now (expiration item) th);
    destruct (strictEq (ripeness item) "Ripe/Mature" || isOpened item);
    reflexivity.
Qed.

Lemma Clock_filter_pure {A : Type} (f : A -> Clock.Clocked bool) (g : A -> bool)
    (clock : nat -> Z) (l : list A) :
  (forall x n, (f x clock n).1 = g x) ->
  forall n, (Clock.filter f l clock n).1 = List.filter g l.
Proof.
  intros H. induction l as [|x l IH]; intros n; [reflexivity|].
  cbn [Clock.filter List.filter]. unfold Clock.bind, Clock.ret.
  pose proof (H x n) as Hx.
  destruct (f x clock n) as [keep n1]. cbn in Hx. subst keep.
  pose proof (IH n1) as Hl.
  destruct (Clock.filter f l clock n1) as [rest n2]. cbn in Hl. subst rest.
  destruct (g x); reflexivity.
Qed.

Lemma tickingClock_same_day k :
  ordinaryTime (tickingClock noonJan10 k)
  /\ localDay utcHost (tickingClock noonJan10 k) = localDay utcHost noonJan10.
Proof.
  unfold ordinaryTime, tickingClock, localDay, LocalTime, Day, noonJan10.
  cbn [LocalTZA utcHost fixedHost]. unfold fixedZone, msPerDay.
  pose proof (Nat2Z.is_nonneg k) as Hk. split; [lia|]. div_lia.
Qed.

(** The frozen flag decides when the clock passes local midnight between
    the two reads made for a frozen record: at UTC, with the first read at
    2024-01-10T23:59:59.999Z and the next at 2024-01-11T00:00:00.000Z, a
    record expiring on 2024-01-10 that is neither ripe nor opened is in the
    view (threshold 7) when unfrozen and out of it when frozen. *)
Lemma expiringSoon_frozen_decides_across_midnight :
  (getExpiringSoonIngredientsClocked utcHost
     [sampleIngredient "1" (Some "2024-01-10")] 7 midnightClock 0%nat).1
  = [sampleIngredient "1" (Some "2024-01-10")]
  /\ (getExpiringSoonIngredientsClocked utcHost
        [setFrozen true (sampleIngredient "1" (Some "2024-01-10"))] 7
        midnightClock 0%nat).1
     = []
  /\ simplifiedPredicate utcHost (midnightClock 0%nat) 7
       (setFrozen true (sampleIngredient "1" (Some "2024-01-10"))) = true.
Proof. repeat split; vm_compute; reflexivity. Qed.

(** C2.  When every clock read made during the call falls on one local
    calendar day, the frozen clause of the expiring-soon filter never
    decides.  For every ordinary zone, every clock whose reads all lie on
    the local day of [now], every threshold and every collection: the
    filter's callback, with its one clock read per call of [isExpiringSoon],
    equals the simplified predicate (ripe or opened, or expiration set and
    expiring soon); the view is the filter by that predicate, which is the
    view computed at the single instant [now]; and resetting the [isFrozen]
    flags of the records in any way leaves the same records in the view. *)
Theorem expiringSoon_ignores_isFrozen_same_day :
  forall (h : Host) (clock : nat -> Z) (now : Z),
    ordinaryZone h -> ordinaryTime now ->
    (forall k, ordinaryTime (clock k)) ->
    (forall k, localDay h (clock k) = localDay h now) ->
    (forall th item n,
        (expiringSoonPredicateClocked h th item clock n).1
        = simplifiedPredicate h now th item)
    /\ (forall th C n,
           (getExpiringSoonIngredientsClocked h C th clock n).1
           = List.filter (simplifiedPredicate h now th) C
           /\ (getExpiringSoonIngredientsClocked h C th clock n).1
              = getExpiringSoonIngredients h now C th)
    /\ (forall th item b n,
           (expiringSoonPredicateClocked h th (setFrozen b item) clock n).1
           = (expiringSoonPredicateClocked h th item clock n).1)
    /\ (forall th C (flag : Ingredient -> bool) n,
           (getExpiringSoonIngredientsClocked h
              (List.map (fun i => setFrozen (flag i) i) C) th clock n).1
           = List.map (fun i => setFrozen (flag i) i)
               (getExpiringSoonIngredientsClocked h C th clock n).1).
Proof.
  intros h clock now Hz Hn Hc Hd.
  assert (Hp : forall th item n,
             (expiringSoonPredicateClocked h th item clock n).1
             = simplifiedPredicate h now th item).
  { intros. apply expiringSoonPredicateClocked_same_day; assumption. }
  assert (Hv : forall th C n,
             (getExpiringSoonIngredientsClocked h C th clock n).1
             = getExpiringSoonIngredients h now C th).
  { intros th C n. unfold getExpiringSoonIngredientsClocked.
    rewrite (Clock_filter_pure _ (simplifiedPredicate h now th))
      by (intros; apply Hp).
    symmetry. apply expiringSoonPredicate_ignores_isFrozen. }
  destruct expiringSoonPredicate_ignores_isFrozen as (_ & Hs & _ & Hf).
  split; [exact Hp|]. split; [|split].
  - intros th C n. split; [|apply Hv]. rewrite Hv. apply Hs.
  - intros th item b n. rewrite !Hp. reflexivity.
  - intros th C flag n. rewrite !Hv. apply Hf.
Qed.

Lemma expiringSoon_ignores_isFrozen_same_day_witness :
  (getExpiringSoonIngredientsClocked utcHost
     [setFrozen true (sampleIngredient "1" (Some "2024-01-10"));
      sampleIngredient "2" (Some "2024-01-10");
      setFrozen true (sampleIngredient "3" (Some "2024-02-10"))] 7
     (tickingClock noonJan10) 0%nat).1
  = [setFrozen true (sampleIngredient "1" (Some "2024-01-10"));
     sampleIngredient "2" (Some "2024-01-10")].
Proof.
  destruct (expiringSoon_ignores_isFrozen_same_day utcHost
              (tickingClock noonJan10) noonJan10) as (_ & Hview & _).
  - intros t b. cbn. unfold fixedZone, msPerDay. lia.
  - unfold ordinaryTime, noonJan10. lia.
  - intros k. apply tickingClock_same_day.
  - intros k. apply tickingClock_same_day.
  - rewrite (proj1 (Hview 7 _ 0%nat)). vm_compute. reflexivity.
Defined.
